(** * The SEO vendor service: credential cache, challenge solver, signature
      exchange and response normalisation

    A shallow embedding of [services/vendor.seo.service.ts] (an Ahrefs
    client that pays for CapSolver tokens and keeps signatures in a cache
    file), followed by the properties its specification states about it.

    Modelling conventions.
    - Values of TypeScript type [any] are [JsValue]s: the JSON data model,
      [undefined], and the built-in objects a property read can find in a
      prototype.  Numbers are IEEE binary64 ([PrimFloat.float]), as in
      JavaScript.  Objects keep their own properties in the order in which
      a loop over them and [JSON.stringify] visit them.
    - A text is held as its UTF-8 bytes.  Its [length] and its indices
      count UTF-16 code units, and a loop over it visits code points, as
      in JavaScript.
    - A property read sees own properties first ([length] and the indices
      of arrays and texts among them), then the members inherited from
      the built-in prototypes of ECMAScript 2024.  An inherited member is
      a [JBuiltin]: it is truthy and it is not data.  The service reads
      from such a value only [validUntil] and an element, which no
      built-in has; the own properties of a built-in ([name], [length])
      are left out.
    - Exceptions are explicit: a computation yields [Val v] or [Exc e].
    - The outside world (HTTP peers, clock, disk, configuration) is a
      [World] of oracles; what the service did is recorded in the state as
      a chronological list of [Event]s.  An oracle sees the events so far,
      so answers may depend on everything the service did before.
    - The cache file is modelled by what reading and parsing it gives:
      missing, unreadable, or any parsed value: an object (a store, the
      shape the service writes), [null], a boolean, a number, a text or
      an array.  What is written is what [JSON.stringify] prints, so the
      file holds the values as a later [JSON.parse] gives them back.
    - The module is an ES module, hence strict code: an assignment to a
      property of a primitive throws.
    - [Logger] calls do not influence any result and are left out, and so
      is the creation of the cache directory when the module is loaded. *)

From Stdlib Require Import ZArith NArith Ascii String List Bool Lia.
From Stdlib Require Import Floats.PrimFloat.
From stdpp Require Import gmap strings list pretty.

Set Warnings "-register-all".
Local Open Scope Z_scope.

(** ** JavaScript values *)

Inductive JsValue : Type :=
| JUndefined
| JNull
| JBool (b : bool)
| JNum (x : float)
| JStr (s : string)
| JArr (items : list JsValue)
| JObj (fields : list (string * JsValue))
| JBuiltin (name : string).

(** A JSON object seen as a record of named fields. *)
Abbreviation Fields := (list (string * JsValue)).

(** ToBoolean: [undefined], [null], [false], [0], [-0], [NaN] and the empty
    string are falsy, everything else is truthy. *)
Definition truthy (v : JsValue) : bool :=
  match v with
  | JUndefined | JNull => false
  | JBool b => b
  | JNum x => negb (PrimFloat.eqb x 0%float || PrimFloat.is_nan x)
  | JStr s => negb (String.eqb s "")
  | JArr _ | JObj _ | JBuiltin _ => true
  end.

(** [a || b] *)
Definition js_or (a b : JsValue) : JsValue := if truthy a then a else b.

(** [v === 'c'] for a string constant [c] *)
Definition js_is (v : JsValue) (c : string) : bool :=
  match v with
  | JStr s => String.eqb s c
  | _ => false
  end.

(** [Array.isArray(v)] *)
Definition isArray (v : JsValue) : bool :=
  match v with
  | JArr _ => true
  | _ => false
  end.

(** [v.length] of a value known to be an array. *)
Definition array_length (v : JsValue) : nat :=
  match v with
  | JArr l => length l
  | _ => 0
  end.

Definition nullish (v : JsValue) : bool :=
  match v with
  | JUndefined | JNull => true
  | _ => false
  end.

(** Array lengths as JavaScript numbers (exact below 2^53). *)
Definition float_of_nat (n : nat) : float :=
  Nat.iter n (fun x => (x + 1)%float) 0%float.

Fixpoint lookup_field (k : string) (fs : Fields) : JsValue :=
  match fs with
  | [] => JUndefined
  | (k', v) :: rest => if String.eqb k k' then v else lookup_field k rest
  end.

Definition has_field (k : string) (fs : Fields) : bool :=
  existsb (fun kv => String.eqb k (fst kv)) fs.

(** ** Texts *)

(** A byte [10xxxxxx] continues the code point of the byte before it. *)
Definition continuation (c : ascii) : bool :=
  let n := N_of_ascii c in (128 <=? n)%N && (n <? 192)%N.

(** The bytes that continue a code point at the head of [s], and the code
    points after them. *)
Fixpoint split_points (s : string) : string * list string :=
  match s with
  | EmptyString => (EmptyString, [])
  | String c rest =>
      let '(pending, points) := split_points rest in
      if continuation c then (String c pending, points)
      else (EmptyString, String c pending :: points)
  end.

(** The code points of a text, each as a text. *)
Definition code_points (s : string) : list string :=
  let '(pending, points) := split_points s in
  if String.eqb pending "" then points else pending :: points.

(** A code point outside the Basic Multilingual Plane (four bytes, first
    byte [11110xxx]) takes two UTF-16 code units, any other takes one. *)
Definition astral (point : string) : bool :=
  match point with
  | String c _ => (240 <=? N_of_ascii c)%N
  | EmptyString => false
  end.

Definition units (point : string) : nat := if astral point then 2 else 1.

Definition byte_at (n : nat) (point : string) : N :=
  match String.get n point with
  | Some c => N_of_ascii c
  | None => 0
  end.

(** The scalar value of a four-byte code point. *)
Definition scalar_of (point : string) : N :=
  N.lor (N.shiftl (N.land (byte_at 0 point) 7) 18)
    (N.lor (N.shiftl (N.land (byte_at 1 point) 63) 12)
       (N.lor (N.shiftl (N.land (byte_at 2 point) 63) 6)
          (N.land (byte_at 3 point) 63))).

(** A code unit between U+0800 and U+FFFF in three bytes; half of a
    surrogate pair read on its own is held in this form. *)
Definition three_bytes (unit : N) : string :=
  String (ascii_of_N (N.lor 224 (N.shiftr unit 12)))
    (String (ascii_of_N (N.lor 128 (N.land (N.shiftr unit 6) 63)))
       (String (ascii_of_N (N.lor 128 (N.land unit 63))) EmptyString)).

Definition high_surrogate (point : string) : string :=
  three_bytes (55296 + N.shiftr (scalar_of point - 65536) 10).

Definition low_surrogate (point : string) : string :=
  three_bytes (56320 + N.land (scalar_of point - 65536) 1023).

(** [s.length] *)
Definition text_length (s : string) : nat := list_sum (map units (code_points s)).

Fixpoint unit_at (points : list string) (n : N) : option string :=
  match points with
  | [] => None
  | point :: rest =>
      if astral point then
        if (n =? 0)%N then Some (high_surrogate point)
        else if (n =? 1)%N then Some (low_surrogate point)
        else unit_at rest (n - 2)%N
      else
        if (n =? 0)%N then Some point
        else unit_at rest (n - 1)%N
  end.

(** [s[n]]: the code unit at position [n]. *)
Definition char_at (s : string) (n : N) : JsValue :=
  match unit_at (code_points s) n with
  | Some unit => JStr unit
  | None => JUndefined
  end.

(** [items[n]] *)
Fixpoint element_at (items : list JsValue) (n : N) : JsValue :=
  match items with
  | [] => JUndefined
  | item :: rest => if (n =? 0)%N then item else element_at rest (n - 1)%N
  end.

(** ** Property reads *)

Definition digit_of (c : ascii) : option N :=
  let n := N_of_ascii c in
  if (48 <=? n)%N && (n <=? 57)%N then Some (n - 48)%N else None.

Fixpoint decimal (s : string) (acc : N) : option N :=
  match s with
  | EmptyString => Some acc
  | String c rest =>
      match digit_of c with
      | Some d => decimal rest (10 * acc + d)%N
      | None => None
      end
  end.

(** A property key is an array index when it is the canonical decimal
    text of an integer below [2^32 - 1]. *)
Definition array_index (k : string) : option N :=
  match k with
  | EmptyString => None
  | String "0"%char EmptyString => Some 0%N
  | String "0"%char _ => None
  | _ =>
      match decimal k 0 with
      | Some n => if (n <? 4294967295)%N then Some n else None
      | None => None
      end
  end.

(** The members every object inherits from [Object.prototype]. *)
Definition objectMembers : list string :=
  ["constructor"; "hasOwnProperty"; "isPrototypeOf"; "propertyIsEnumerable";
   "toLocaleString"; "toString"; "valueOf"; "__defineGetter__"; "__defineSetter__";
   "__lookupGetter__"; "__lookupSetter__"; "__proto__"].

(** [String.prototype] *)
Definition stringMembers : list string :=
  ["anchor"; "at"; "big"; "blink"; "bold"; "charAt"; "charCodeAt"; "codePointAt";
   "concat"; "endsWith"; "fixed"; "fontcolor"; "fontsize"; "includes"; "indexOf";
   "isWellFormed"; "italics"; "lastIndexOf"; "link"; "localeCompare"; "match";
   "matchAll"; "normalize"; "padEnd"; "padStart"; "repeat"; "replace"; "replaceAll";
   "search"; "slice"; "small"; "split"; "startsWith"; "strike"; "sub"; "substr";
   "substring"; "sup"; "toLocaleLowerCase"; "toLocaleUpperCase"; "toLowerCase";
   "toUpperCase"; "toWellFormed"; "trim"; "trimEnd"; "trimLeft"; "trimRight";
   "trimStart"].

(** [Array.prototype] *)
Definition arrayMembers : list string :=
  ["at"; "concat"; "copyWithin"; "entries"; "every"; "fill"; "filter"; "find";
   "findIndex"; "findLast"; "findLastIndex"; "flat"; "flatMap"; "forEach"; "includes";
   "indexOf"; "join"; "keys"; "lastIndexOf"; "map"; "pop"; "push"; "reduce";
   "reduceRight"; "reverse"; "shift"; "slice"; "some"; "sort"; "splice"; "toReversed";
   "toSorted"; "toSpliced"; "unshift"; "values"; "with"].

(** [Number.prototype] *)
Definition numberMembers : list string := ["toExponential"; "toFixed"; "toPrecision"].

(** [Function.prototype] *)
Definition functionMembers : list string := ["apply"; "bind"; "call"].

(** What a read of [k] finds in the prototypes when there is no own
    property [k]. *)
Definition inherits (members : list string) (k : string) : JsValue :=
  if existsb (String.eqb k) members then JBuiltin k else JUndefined.

(** [v.k] and [v[k]] for a value that is neither [undefined] nor [null]:
    the own property when there is one, the inherited member otherwise.
    Of a built-in only the members it inherits are kept. *)
Definition own_prop (v : JsValue) (k : string) : JsValue :=
  match v with
  | JObj fs => if has_field k fs then lookup_field k fs else inherits objectMembers k
  | JArr l =>
      if String.eqb k "length" then JNum (float_of_nat (length l))
      else match array_index k with
           | Some i => element_at l i
           | None => inherits (arrayMembers ++ objectMembers) k
           end
  | JStr s =>
      if String.eqb k "length" then JNum (float_of_nat (text_length s))
      else match array_index k with
           | Some i => char_at s i
           | None => inherits (stringMembers ++ objectMembers) k
           end
  | JNum _ => inherits (numberMembers ++ objectMembers) k
  | JBool _ => inherits objectMembers k
  | JBuiltin _ => inherits (functionMembers ++ objectMembers) k
  | JUndefined | JNull => JUndefined
  end.

(** The element [n] of a value that is neither [undefined] nor [null]. *)
Definition own_index (v : JsValue) (n : nat) : JsValue :=
  match v with
  | JArr l => nth n l JUndefined
  | JStr s => char_at s (N.of_nat n)
  | JObj fs => lookup_field (pretty n) fs
  | _ => JUndefined
  end.

(** ** Exceptions and results *)

(** [ErrorType] of utils/error.util.ts, as far as the service uses it. *)
Inductive ErrorType : Type := API_ERROR | UNEXPECTED_ERROR.

Inductive Exn : Type :=
| TypeError
| SyntaxError
| RangeError
| NetworkError
| IOError
| McpError (message : string) (type : ErrorType) (statusCode : Z) (cause : option Exn).

Inductive Result (A : Type) : Type :=
| Val (a : A)
| Exc (e : Exn).
Arguments Val {A} a.
Arguments Exc {A} e.

(** [v.k]: throws a TypeError on [undefined] and [null]. *)
Definition js_get (v : JsValue) (k : string) : Result JsValue :=
  if nullish v then Exc TypeError else Val (own_prop v k).

(** [v?.k] *)
Definition js_get_opt (v : JsValue) (k : string) : JsValue :=
  if nullish v then JUndefined else own_prop v k.

(** [v[n]] *)
Definition js_index (v : JsValue) (n : nat) : Result JsValue :=
  if nullish v then Exc TypeError else Val (own_index v n).

(** [v?.[n]] *)
Definition js_index_opt (v : JsValue) (n : nat) : JsValue :=
  if nullish v then JUndefined else own_index v n.

(** The values a [for (const x of v)] loop visits: the elements of an array,
    the code points of a text; anything else the data can be is not
    iterable. *)
Definition js_iter (v : JsValue) : Result (list JsValue) :=
  match v with
  | JArr l => Val l
  | JStr s => Val (map JStr (code_points s))
  | _ => Exc TypeError
  end.

(** ** Serialisation *)

(** A number as [JSON.stringify] prints it and [JSON.parse] reads it
    back: [NaN] and the infinities become [null], [-0] becomes [0]. *)
Definition print_number (x : float) : JsValue :=
  if PrimFloat.is_nan x || PrimFloat.is_infinity x then JNull
  else if PrimFloat.is_zero x then JNum 0
  else JNum x.

(** A value after [JSON.parse(JSON.stringify(v))]; [None] where
    [JSON.stringify] gives [undefined]: such a property is left out of an
    object, such an element of an array is printed as [null]. *)
Fixpoint print_value (v : JsValue) : option JsValue :=
  match v with
  | JUndefined | JBuiltin _ => None
  | JNull => Some JNull
  | JBool b => Some (JBool b)
  | JNum x => Some (print_number x)
  | JStr s => Some (JStr s)
  | JArr l =>
      Some (JArr (List.map (fun item => match print_value item with
                                        | Some printed => printed
                                        | None => JNull
                                        end) l))
  | JObj fs =>
      Some (JObj ((fix print_fields (fs : Fields) : Fields :=
                     match fs with
                     | [] => []
                     | (k, item) :: rest =>
                         match print_value item with
                         | Some printed => (k, printed) :: print_fields rest
                         | None => print_fields rest
                         end
                     end) fs))
  end.

(** The properties of an object after printing. *)
Fixpoint print_fields (fs : Fields) : Fields :=
  match fs with
  | [] => []
  | (k, item) :: rest =>
      match print_value item with
      | Some printed => (k, printed) :: print_fields rest
      | None => print_fields rest
      end
  end.

(** An element of an array after printing. *)
Definition print_element (v : JsValue) : JsValue :=
  match print_value v with
  | Some printed => printed
  | None => JNull
  end.

(** ** The world and the state of the service *)

Inductive Method : Type := POST | GET.

Record Request : Type := mkRequest {
  req_method : Method;
  req_url : string;
  req_body : JsValue;      (* the body of a POST, the [params] of a GET *)
  req_headers : JsValue
}.

(** What [await axios.post(...)] / [axios.get(...)] gives: the promise is
    rejected, or a response with a status code and a parsed body arrives. *)
Inductive HttpOutcome : Type :=
| Rejected
| Response (status : Z) (data : JsValue).

Inductive Event : Type :=
| EvHttp (r : Request)
| EvSleep (ms : Z)
| EvWrite (ok : bool).

(** A boolean, a number or a text. *)
Inductive Scalar : Type :=
| SBool (b : bool)
| SNum (x : float)
| SText (s : string).

Definition scalar_value (p : Scalar) : JsValue :=
  match p with
  | SBool b => JBool b
  | SNum x => JNum x
  | SText s => JStr s
  end.

(** What [JSON.parse] gives for the content of the cache file: an object
    (its own properties, a store), [null], a boolean, a number or a text,
    or an array. *)
Inductive Content : Type :=
| CStore (store : gmap string JsValue)
| CNull
| CScalar (p : Scalar)
| CArray (items : list JsValue).

(** The signature cache file as [fs.existsSync], [fs.readFileSync] and
    [JSON.parse] see it: no file, a file that cannot be read or parsed, or
    a file that parses. *)
Inductive CacheFile : Type :=
| FileMissing
| FileCorrupt
| FileHolds (content : Content).

(** A file that parses to a store. *)
Abbreviation FileStore store := (FileHolds (CStore store)).

(** What [fs.writeFileSync] does: it writes the file, or it throws having
    left the file as it was, or it throws having left a truncated file. *)
Inductive WriteOutcome : Type :=
| Written
| Refused
| Truncated.

Record State : Type := mkState {
  cacheFile : CacheFile;
  history : list Event
}.

Record World : Type := mkWorld {
  (* config.get('CAPSOLVER_API_KEY') and env.CAPSOLVER_API_KEY *)
  config_CAPSOLVER_API_KEY : JsValue;
  env_CAPSOLVER_API_KEY : JsValue;
  (* the answer to a request, given what happened before it *)
  axios : list Event -> Request -> HttpOutcome;
  (* Date.now(), in milliseconds *)
  Date_now : list Event -> float;
  (* new Date(s).getTime(): milliseconds, NaN for an invalid date *)
  Date_getTime : string -> float;
  (* what the next fs.writeFileSync does *)
  fs_writeFileSync : list Event -> WriteOutcome;
  encodeURIComponent : string -> string;
  JSON_stringify : JsValue -> string
}.

(** Computations: state passing with exceptions. *)
Definition Eff (A : Type) : Type := State -> Result A * State.

Definition ret {A} (a : A) : Eff A := fun s => (Val a, s).

Definition throw {A} (e : Exn) : Eff A := fun s => (Exc e, s).

Definition bind {A B} (m : Eff A) (k : A -> Eff B) : Eff B :=
  fun s =>
    match m s with
    | (Val a, s') => k a s'
    | (Exc e, s') => (Exc e, s')
    end.

(** [try { m } catch (error) { h error }] *)
Definition try_catch {A} (m : Eff A) (h : Exn -> Eff A) : Eff A :=
  fun s =>
    match m s with
    | (Val a, s') => (Val a, s')
    | (Exc e, s') => h e s'
    end.

(** A pure step that may throw. *)
Definition lift {A} (r : Result A) : Eff A := fun s => (r, s).

Declare Scope eff_scope.
Delimit Scope eff_scope with eff.
Notation "'let*' x ':=' m 'in' k" := (bind m (fun x => k))
  (at level 10, x pattern, m at level 100, k at level 200) : eff_scope.
Notation "m ';;' k" := (bind m (fun _ => k))
  (at level 100, k at level 200, right associativity) : eff_scope.
Local Open Scope eff_scope.

(** The same for steps that touch no state: [let? x := r in k]. *)
Definition rbind {A B} (r : Result A) (k : A -> Result B) : Result B :=
  match r with
  | Val a => k a
  | Exc e => Exc e
  end.

Notation "'let?' x ':=' r 'in' k" := (rbind r (fun x => k))
  (at level 10, x pattern, r at level 100, k at level 200) : eff_scope.

(** [l.map(f)], and the body of a [for ... of] loop that pushes one result
    per element: the first exception ends the traversal. *)
Fixpoint map_result {A B} (f : A -> Result B) (l : list A) : Result (list B) :=
  match l with
  | [] => Val []
  | x :: rest =>
      let? y := f x in
      let? ys := map_result f rest in
      Val (y :: ys)
  end.

Definition log_event (e : Event) : Eff unit :=
  fun s => (Val tt, mkState (cacheFile s) (history s ++ [e])).

Section Service.

Variable w : World.

(** [await axios.post(url, body, { headers })] and [axios.get]. *)
Definition request (r : Request) : Eff (Z * JsValue) :=
  fun s =>
    let s' := mkState (cacheFile s) (history s ++ [EvHttp r]) in
    match axios w (history s) r with
    | Rejected => (Exc NetworkError, s')
    | Response status data => (Val (status, data), s')
    end.

(** [await new Promise((resolve) => setTimeout(resolve, ms))] *)
Definition sleep (ms : Z) : Eff unit := log_event (EvSleep ms).

(** [Date.now() / 1000] *)
Definition now_seconds : Eff float :=
  fun s => (Val (Date_now w (history s) / 1000)%float, s).

(** [fs.existsSync(SIGNATURE_CACHE_FILE)] *)
Definition cache_exists : Eff bool :=
  fun s => (Val (match cacheFile s with FileMissing => false | _ => true end), s).

(** [JSON.parse(fs.readFileSync(SIGNATURE_CACHE_FILE, 'utf8'))] *)
Definition read_cache : Eff Content :=
  fun s =>
    match cacheFile s with
    | FileMissing => (Exc IOError, s)
    | FileCorrupt => (Exc SyntaxError, s)
    | FileHolds content => (Val content, s)
    end.

(** [cacheData[k]] *)
Definition member (cacheData : Content) (k : string) : Result JsValue :=
  match cacheData with
  | CStore m =>
      Val (match m !! k with
           | Some v => v
           | None => inherits objectMembers k
           end)
  | CNull => Exc TypeError
  | CScalar p => js_get (scalar_value p) k
  | CArray l => Val (own_prop (JArr l) k)
  end.

(** [items[i] = v]: an index past the end leaves holes before it. *)
Fixpoint set_element (items : list JsValue) (i : N) (v : JsValue) : list JsValue :=
  match items with
  | [] => replicate (N.to_nat i) JUndefined ++ [v]
  | item :: rest => if (i =? 0)%N then v :: rest else item :: set_element rest (i - 1)%N v
  end.

(** [cacheData[k] = v] for an object [v].
    - On an object that has no own property ["__proto__"], the key
      ["__proto__"] reaches the setter inherited from [Object.prototype]:
      the prototype of [cacheData] changes and no property is added.  Any
      other key, and ["__proto__"] when [JSON.parse] made it an own
      property, is set as an own property.
    - On [null] and, in strict code, on a primitive, the assignment throws
      a [TypeError].
    - On an array an index sets that element, ["length"] throws a
      [RangeError] (an object is no length), and any other key changes
      nothing that [JSON.stringify] prints. *)
Definition assign (cacheData : Content) (k : string) (v : JsValue) : Result Content :=
  match cacheData with
  | CStore m =>
      if String.eqb k "__proto__" && negb (bool_decide (is_Some (m !! k)))
      then Val (CStore m)
      else Val (CStore (<[k := v]> m))
  | CNull => Exc TypeError
  | CScalar _ => Exc TypeError
  | CArray l =>
      if String.eqb k "length" then Exc RangeError
      else match array_index k with
           | Some i => Val (CArray (set_element l i v))
           | None => Val (CArray l)
           end
  end.

(** The content as [JSON.stringify(cacheData, null, 2)] prints it and a
    later [JSON.parse] reads it back. *)
Definition print_content (cacheData : Content) : Content :=
  match cacheData with
  | CStore m => CStore (omap print_value m)
  | CNull => CNull
  | CScalar p => CScalar p
  | CArray l => CArray (List.map print_element l)
  end.

(** [fs.writeFileSync(SIGNATURE_CACHE_FILE, JSON.stringify(cacheData, null, 2))].
    [Refused] stands for every failure that leaves the file as it was. *)
Definition write_cache (cacheData : Content) : Eff unit :=
  fun s =>
    match fs_writeFileSync w (history s) with
    | Written =>
        (Val tt, mkState (FileHolds (print_content cacheData)) (history s ++ [EvWrite true]))
    | Refused => (Exc IOError, mkState (cacheFile s) (history s ++ [EvWrite false]))
    | Truncated => (Exc IOError, mkState FileCorrupt (history s ++ [EvWrite false]))
    end.

(** ** The credential cache *)

Definition endsWith (s suffix : string) : bool :=
  (String.length suffix <=? String.length s)%nat &&
  String.eqb (substring (String.length s - String.length suffix) (String.length suffix) s) suffix.

(** [isoToTimestamp]: seconds since the epoch of an ISO 8601 date. *)
Definition isoToTimestamp (isoDateString : string) : float :=
  let isoDateString :=
    if endsWith isoDateString "Z"
    then substring 0 (String.length isoDateString - 1) isoDateString +:+ "+00:00"
    else isoDateString in
  (Date_getTime w isoDateString / 1000)%float.

(** The object stored for a domain. *)
Definition cacheEntry (signature validUntil overviewData : JsValue) (timestamp : float) : JsValue :=
  JObj [("signature", signature); ("validUntil", validUntil);
        ("overviewData", overviewData); ("timestamp", JNum timestamp)].

Definition saveSignatureToCache
    (signature validUntil overviewData : JsValue) (domain : string) : Eff bool :=
  try_catch
    (let* present := cache_exists in
     let* cacheData :=
       (if present : bool
        then try_catch read_cache (fun _ => ret (CStore ∅))
        else ret (CStore ∅)) in
     let* timestamp := now_seconds in
     let* cacheData :=
       lift (assign cacheData domain
               (cacheEntry signature validUntil overviewData timestamp)) in
     write_cache cacheData;;
     ret true)
    (fun _ => ret false).

Definition absent : JsValue * JsValue * JsValue := (JNull, JNull, JNull).

(** [isoToTimestamp(validUntil)] on a value read from the store: a value
    that is not a string has no [endsWith] method. *)
Definition timestamp_of (validUntil : JsValue) : Result float :=
  match validUntil with
  | JStr s => Val (isoToTimestamp s)
  | _ => Exc TypeError
  end.

Definition loadSignatureFromCache (domain : string) : Eff (JsValue * JsValue * JsValue) :=
  try_catch
    (let* present := cache_exists in
     if negb present then ret absent
     else
       let* cacheData := read_cache in
       let* domainCache := lift (member cacheData domain) in
       if negb (truthy domainCache) then ret absent
       else
         let* validUntil := lift (js_get domainCache "validUntil") in
         if truthy validUntil then
           let* validUntilTimestamp := lift (timestamp_of validUntil) in
           let* currentTime := now_seconds in
           if (currentTime <? validUntilTimestamp)%float then
             let* signature := lift (js_get domainCache "signature") in
             let* overviewData := lift (js_get domainCache "overviewData") in
             ret (signature, validUntil, overviewData)
           else ret absent
         else ret absent)
    (fun _ => ret absent).

(** ** The challenge solver client *)

Definition createTaskUrl : string := "https://api.capsolver.com/createTask".
Definition getTaskResultUrl : string := "https://api.capsolver.com/getTaskResult".
Definition maxAttempts : nat := 30.

Definition createTaskPayload (apiKey : JsValue) (siteUrl : string) : JsValue :=
  JObj [("clientKey", apiKey);
        ("task", JObj [("type", JStr "AntiTurnstileTaskProxyLess");
                       ("websiteKey", JStr "0x4AAAAAAAAzi9ITzSN9xKMi");
                       ("websiteURL", JStr siteUrl);
                       ("metadata", JObj [("action", JStr "")])])].

Definition getTaskPayload (apiKey taskId : JsValue) : JsValue :=
  JObj [("clientKey", apiKey); ("taskId", taskId)].

Definition createTaskRequest (apiKey : JsValue) (siteUrl : string) : Request :=
  mkRequest POST createTaskUrl (createTaskPayload apiKey siteUrl) JUndefined.

Definition getTaskRequest (apiKey taskId : JsValue) : Request :=
  mkRequest POST getTaskResultUrl (getTaskPayload apiKey taskId) JUndefined.

(** The loop [while (attempts < maxAttempts) { ...; attempts++ }], by
    recursion on [maxAttempts - attempts]. *)
Fixpoint pollTask (apiKey taskId : JsValue) (remaining : nat) : Eff JsValue :=
  match remaining with
  | O => ret JNull
  | S remaining' =>
      sleep 1000;;
      let* taskResponse := request (getTaskRequest apiKey taskId) in
      let data := snd taskResponse in
      let status := js_get_opt data "status" in
      if js_is status "ready" then
        ret (js_get_opt (js_get_opt data "solution") "token")
      else if js_is status "failed" || truthy (js_get_opt data "errorId") then
        ret JNull
      else pollTask apiKey taskId remaining'
  end.

Definition getCapsolverToken (siteUrl : string) : Eff JsValue :=
  let apiKey := js_or (config_CAPSOLVER_API_KEY w) (env_CAPSOLVER_API_KEY w) in
  if negb (truthy apiKey) then ret JNull
  else
    try_catch
      (let* createTaskResponse := request (createTaskRequest apiKey siteUrl) in
       let taskId := js_get_opt (snd createTaskResponse) "taskId" in
       if negb (truthy taskId) then ret JNull
       else pollTask apiKey taskId maxAttempts)
      (fun _ => ret JNull).

(** ** The signature exchange client *)

Definition overviewUrl : string := "https://ahrefs.com/v4/stGetFreeBacklinksOverview".

Definition jsonHeaders : JsValue := JObj [("Content-Type", JStr "application/json")].

Definition overviewRequest (token : JsValue) (domain : string) : Request :=
  mkRequest POST overviewUrl
    (JObj [("captcha", token); ("mode", JStr "subdomains"); ("url", JStr domain)])
    jsonHeaders.

Definition getSignatureAndOverview (token : JsValue) (domain : string)
    : Eff (JsValue * JsValue * JsValue) :=
  try_catch
    (let* response := request (overviewRequest token domain) in
     let '(status, data) := response in
     if negb (status =? 200) then ret absent
     else if isArray data && (1 <? array_length data)%nat then
       let secondElement := own_index data 1 in
       let signature := js_get_opt (js_get_opt secondElement "signedInput") "signature" in
       let validUntil :=
         js_get_opt (js_get_opt (js_get_opt secondElement "signedInput") "input") "validUntil" in
       let overviewData := js_get_opt secondElement "data" in
       if truthy signature && truthy validUntil then
         saveSignatureToCache signature validUntil overviewData domain;;
         ret (signature, validUntil, overviewData)
       else ret absent
     else ret absent)
    (fun _ => ret absent).

(** ** Backlinks *)

Definition simplifyBacklink (backlink : JsValue) : Result JsValue :=
  let? anchor := js_get backlink "anchor" in
  let? domainRating := js_get backlink "domainRating" in
  let? title := js_get backlink "title" in
  let? urlFrom := js_get backlink "urlFrom" in
  let? urlTo := js_get backlink "urlTo" in
  let? edu := js_get backlink "edu" in
  let? gov := js_get backlink "gov" in
  Val (JObj [("anchor", js_or anchor (JStr ""));
             ("domainRating", js_or domainRating (JNum 0));
             ("title", js_or title (JStr ""));
             ("urlFrom", js_or urlFrom (JStr ""));
             ("urlTo", js_or urlTo (JStr ""));
             ("edu", js_or edu (JBool false));
             ("gov", js_or gov (JBool false))]).

(** [backlinks.map(f)]: only arrays have a [map] method. *)
Definition array_map (f : JsValue -> Result JsValue) (v : JsValue) : Result JsValue :=
  match v with
  | JArr l => let? l' := map_result f l in Val (JArr l')
  | _ => Exc TypeError
  end.

Definition formatBacklinks (backlinksData : JsValue) : Result JsValue :=
  if truthy backlinksData && isArray backlinksData && (1 <? array_length backlinksData)%nat
     && truthy (js_get_opt (js_get_opt (own_index backlinksData 1) "topBacklinks") "backlinks")
  then
    let? second := js_index backlinksData 1 in
    let? topBacklinks := js_get second "topBacklinks" in
    let? backlinks := js_get topBacklinks "backlinks" in
    array_map simplifyBacklink backlinks
  else Val (JArr []).

Definition backlinksListUrl : string := "https://ahrefs.com/v4/stGetFreeBacklinksList".

Definition backlinksListRequest (signature validUntil : JsValue) (domain : string) : Request :=
  mkRequest POST backlinksListUrl
    (JObj [("reportType", JStr "TopBacklinks");
           ("signedInput",
            JObj [("signature", signature);
                  ("input", JObj [("validUntil", validUntil);
                                  ("mode", JStr "subdomains");
                                  ("url", JStr (domain +:+ "/"))])])])
    jsonHeaders.

(** The [catch] clause shared by the four exported functions: an
    [McpError] is thrown again, anything else is wrapped. *)
Definition wrapError (message : string) (error : Exn) : Exn :=
  match error with
  | McpError _ _ _ _ => error
  | _ => McpError message UNEXPECTED_ERROR 500 (Some error)
  end.

Definition rethrow {A} (message : string) (error : Exn) : Eff A :=
  throw (wrapError message error).

Definition backlinksSiteUrl (domain : string) : string :=
  "https://ahrefs.com/backlink-checker/?input=" +:+ domain +:+ "&mode=subdomains".

Definition getBacklinks (domain : string) : Eff JsValue :=
  try_catch
    (let* cached := loadSignatureFromCache domain in
     let '(signature, validUntil, overviewData) := cached in
     let* credential :=
       (if negb (truthy signature) || negb (truthy validUntil) then
          let siteUrl := backlinksSiteUrl domain in
          let* token := getCapsolverToken siteUrl in
          if negb (truthy token) then
            throw (McpError ("Failed to get verification token for domain: " +:+ domain)
                            API_ERROR 500 None)
          else
            let* minted := getSignatureAndOverview token domain in
            let '(signature, validUntil, overviewData) := minted in
            if negb (truthy signature) || negb (truthy validUntil) then
              throw (McpError ("Failed to get signature for domain: " +:+ domain)
                              API_ERROR 500 None)
            else ret (signature, validUntil, overviewData)
        else ret (signature, validUntil, overviewData)) in
     let '(signature, validUntil, overviewData) := credential in
     let* response := request (backlinksListRequest signature validUntil domain) in
     let '(status, data) := response in
     if negb (status =? 200) then
       throw (McpError ("Failed to get backlinks for domain: " +:+ domain) API_ERROR status None)
     else
       let* backlinks := lift (formatBacklinks data) in
       ret (JObj [("overview", overviewData); ("backlinks", backlinks)]))
    (rethrow ("Failed to get backlinks for domain: " +:+ domain)).

(** ** Keyword ideas *)

Definition simplifyIdea (label : string) (idea : JsValue) : Result JsValue :=
  let? keyword := js_get idea "keyword" in
  let? country := js_get idea "country" in
  let? difficultyLabel := js_get idea "difficultyLabel" in
  let? volumeLabel := js_get idea "volumeLabel" in
  let? updatedAt := js_get idea "updatedAt" in
  Val (JObj [("label", JStr label);
             ("value",
              JObj [("keyword", js_or keyword (JStr "No keyword"));
                    ("country", js_or country (JStr "-"));
                    ("difficulty", js_or difficultyLabel (JStr "Unknown"));
                    ("volume", js_or volumeLabel (JStr "Unknown"));
                    ("updatedAt", js_or updatedAt (JStr "-"))])]).

(** One of the two blocks [if (data?.group?.results) { for (const idea of
    data.group.results) result.push(...) }]: the entries it pushes. *)
Definition ideasOfGroup (data : JsValue) (group label : string) : Result (list JsValue) :=
  if truthy (js_get_opt (js_get_opt data group) "results") then
    let? groupValue := js_get data group in
    let? results := js_get groupValue "results" in
    let? ideas := js_iter results in
    map_result (simplifyIdea label) ideas
  else Val [].

(** [result] starts empty and only grows by [push]: after both blocks it
    holds the entries of the first followed by those of the second. *)
Definition formatKeywordIdeas (keywordData : JsValue) : Result JsValue :=
  if negb (truthy keywordData) || negb (isArray keywordData)
     || (array_length keywordData <? 2)%nat
  then Val (JArr [])
  else
    let data := own_index keywordData 1 in
    let? keywordIdeas := ideasOfGroup data "allIdeas" "keyword ideas" in
    let? questionIdeas := ideasOfGroup data "questionIdeas" "question ideas" in
    Val (JArr (keywordIdeas ++ questionIdeas)).

Definition keywordIdeasUrl : string := "https://ahrefs.com/v4/stGetFreeKeywordIdeas".

Definition getKeywordIdeas (keyword country searchEngine : string) : Eff JsValue :=
  try_catch
    (let siteUrl :=
       "https://ahrefs.com/keyword-generator/?country=" +:+ country +:+ "&input="
       +:+ encodeURIComponent w keyword in
     let* token := getCapsolverToken siteUrl in
     if negb (truthy token) then
       throw (McpError ("Failed to get verification token for keyword: " +:+ keyword)
                       API_ERROR 500 None)
     else
       let payload :=
         JObj [("withQuestionIdeas", JBool true); ("captcha", token);
               ("searchEngine", JStr searchEngine); ("country", JStr country);
               ("keyword", JArr [JStr "Some"; JStr keyword])] in
       let* response := request (mkRequest POST keywordIdeasUrl payload jsonHeaders) in
       let '(status, data) := response in
       if negb (status =? 200) then
         throw (McpError ("Failed to get keyword ideas for keyword: " +:+ keyword)
                         API_ERROR status None)
       else lift (formatKeywordIdeas data))
    (rethrow ("Failed to get keyword ideas for keyword: " +:+ keyword)).

(** ** Keyword difficulty *)

(** The check both tagged-response readers make:
    [!Array.isArray(data) || data.length < 2 || data[0] !== 'Ok']. *)
Definition notOkResponse (data : JsValue) : bool :=
  negb (isArray data) || (array_length data <? 2)%nat || negb (js_is (own_index data 0) "Ok").

(** One round of the loop over [kdData.serp.results]: the entry pushed for
    [item], if any. *)
Definition serpResultItem (item : JsValue) : Result (option JsValue) :=
  let? content := js_get item "content" in
  if truthy content && js_is (own_index content 0) "organic" then
    let organicData := own_index content 1 in
    let? link := js_get organicData "link" in
    if truthy link && js_is (own_index link 0) "Some" then
      let linkData := own_index link 1 in
      let? title := js_get linkData "title" in
      let? url := js_get linkData "url" in
      let? pos := js_get item "pos" in
      let resultItem :=
        [("title", js_or title (JStr ""));
         ("url", js_or (js_get_opt (js_index_opt url 1) "url") (JStr ""));
         ("position", js_or pos (JNum 0))] in
      let? metrics := js_get linkData "metrics" in
      if truthy metrics then
        Val (Some (JObj (resultItem ++
          [("domainRating", js_or (own_prop metrics "domainRating") (JNum 0));
           ("urlRating", js_or (own_prop metrics "urlRating") (JNum 0));
           ("traffic", js_or (own_prop metrics "traffic") (JNum 0));
           ("keywords", js_or (own_prop metrics "keywords") (JNum 0));
           ("topKeyword", js_or (own_prop metrics "topKeyword") (JStr ""));
           ("topVolume", js_or (own_prop metrics "topVolume") (JNum 0))])))
      else Val (Some (JObj resultItem))
    else Val None
  else Val None.

Definition formatKeywordDifficulty (kdData : JsValue) : Result JsValue :=
  let? difficulty := js_get kdData "difficulty" in
  let? shortage := js_get kdData "shortage" in
  let? lastUpdate := js_get kdData "lastUpdate" in
  let? serp := js_get kdData "serp" in
  let? serpResults :=
    (if truthy (js_get_opt serp "results") then
       let? items := js_iter (js_get_opt serp "results") in
       let? pushed := map_result serpResultItem items in
       Val (omap id pushed)
     else Val []) in
  Val (JObj [("difficulty", js_or difficulty (JNum 0));
             ("shortage", js_or shortage (JNum 0));
             ("lastUpdate", js_or lastUpdate (JStr ""));
             ("serp", JObj [("results", JArr serpResults)])]).

Definition keywordDifficultyUrl : string :=
  "https://ahrefs.com/v4/stGetFreeSerpOverviewForKeywordDifficultyChecker".

Definition keywordDifficultySiteUrl (keyword country : string) : string :=
  "https://ahrefs.com/keyword-difficulty/?country=" +:+ country +:+ "&input="
  +:+ encodeURIComponent w keyword.

Definition keywordDifficultyRequest (token : JsValue) (keyword country : string) : Request :=
  mkRequest POST keywordDifficultyUrl
    (JObj [("captcha", token); ("country", JStr country); ("keyword", JStr keyword)])
    (JObj [("accept", JStr "*/*");
           ("content-type", JStr "application/json; charset=utf-8");
           ("referer", JStr (keywordDifficultySiteUrl keyword country))]).

Definition getKeywordDifficulty (keyword country : string) : Eff JsValue :=
  try_catch
    (let siteUrl := keywordDifficultySiteUrl keyword country in
     let* token := getCapsolverToken siteUrl in
     if negb (truthy token) then
       throw (McpError ("Failed to get verification token for keyword: " +:+ keyword)
                       API_ERROR 500 None)
     else
       let* response := request (keywordDifficultyRequest token keyword country) in
       let '(status, data) := response in
       if negb (status =? 200) then
         throw (McpError ("Failed to get keyword difficulty for keyword: " +:+ keyword)
                         API_ERROR status None)
       else if notOkResponse data then
         throw (McpError ("Invalid response format from Ahrefs API for keyword: " +:+ keyword)
                         API_ERROR 500 None)
       else lift (formatKeywordDifficulty (own_index data 1)))
    (rethrow ("Failed to get keyword difficulty for keyword: " +:+ keyword)).

(** ** Traffic *)

Definition formatTraffic (trafficData : JsValue) : Result JsValue :=
  let? traffic_history := js_get trafficData "traffic_history" in
  let? traffic := js_get trafficData "traffic" in
  let? top_pages := js_get trafficData "top_pages" in
  let? top_countries := js_get trafficData "top_countries" in
  let? top_keywords := js_get trafficData "top_keywords" in
  Val (JObj [("traffic_history", js_or traffic_history (JArr []));
             ("traffic",
              JObj [("trafficMonthlyAvg", js_or (js_get_opt traffic "trafficMonthlyAvg") (JNum 0));
                    ("costMontlyAvg", js_or (js_get_opt traffic "costMontlyAvg") (JNum 0))]);
             ("top_pages", js_or top_pages (JArr []));
             ("top_countries", js_or top_countries (JArr []));
             ("top_keywords", js_or top_keywords (JArr []))]).

Definition trafficUrl : string := "https://ahrefs.com/v4/stGetFreeTrafficOverview".

Definition trafficSiteUrl (domainOrUrl mode : string) : string :=
  "https://ahrefs.com/traffic-checker/?input=" +:+ domainOrUrl +:+ "&mode=" +:+ mode.

(** The whole request payload travels as one query parameter, [input]. *)
Definition trafficRequest (token : JsValue) (domainOrUrl mode country : string) : Request :=
  mkRequest GET trafficUrl
    (JObj [("input",
            JStr (JSON_stringify w
                    (JObj [("captcha", token); ("country", JStr country);
                           ("protocol", JStr "None"); ("mode", JStr mode);
                           ("url", JStr domainOrUrl)])))])
    (JObj [("accept", JStr "*/*");
           ("content-type", JStr "application/json");
           ("referer", JStr (trafficSiteUrl domainOrUrl mode))]).

Definition checkTraffic (domainOrUrl mode country : string) : Eff JsValue :=
  try_catch
    (let siteUrl := trafficSiteUrl domainOrUrl mode in
     let* token := getCapsolverToken siteUrl in
     if negb (truthy token) then
       throw (McpError ("Failed to get verification token for domain: " +:+ domainOrUrl)
                       API_ERROR 500 None)
     else
       let* response := request (trafficRequest token domainOrUrl mode country) in
       let '(status, data) := response in
       if negb (status =? 200) then
         throw (McpError ("Failed to check traffic for domain: " +:+ domainOrUrl)
                         API_ERROR status None)
       else if notOkResponse data then
         throw (McpError ("Invalid response format from Ahrefs API for domain: " +:+ domainOrUrl)
                         API_ERROR 500 None)
       else lift (formatTraffic (own_index data 1)))
    (rethrow ("Failed to check traffic for domain: " +:+ domainOrUrl)).

End Service.

(** * Vocabulary of the specification *)

Definition result_of {A} (r : Result A * State) : Result A := fst r.
Definition state_of {A} (r : Result A * State) : State := snd r.

(** The state after one more event. *)
Definition after (s : State) (e : Event) : State :=
  mkState (cacheFile s) (history s ++ [e]).

Section Vocabulary.

Variable w : World.

(** ** Credential cache *)

(** [Date.now() / 1000] in state [s]. *)
Definition currentTime (s : State) : float := (Date_now w (history s) / 1000)%float.

(** The entry's [validUntil] is a date strictly after the current time. *)
Definition validInFuture (s : State) (entry : JsValue) : Prop :=
  exists validUntil : string,
    own_prop entry "validUntil" = JStr validUntil /\
    validUntil <> "" /\
    (currentTime s <? isoToTimestamp w validUntil)%float = true.

(** What a cache entry gives back: signature, [validUntil], overview data. *)
Definition cachedTriple (entry : JsValue) : JsValue * JsValue * JsValue :=
  (own_prop entry "signature", own_prop entry "validUntil", own_prop entry "overviewData").

(** What [saveSignatureToCache] could read of the previous store: its
    entries when the file exists and parses, nothing otherwise. *)
Definition readableStore (s : State) : gmap string JsValue :=
  match cacheFile s with
  | FileStore m => m
  | _ => ∅
  end.

(** What [saveSignatureToCache] starts from: the content of the file when
    it exists and parses, an empty store otherwise. *)
Definition startingContent (s : State) : Content :=
  match cacheFile s with
  | FileHolds content => content
  | _ => CStore ∅
  end.

(** The file is missing, unreadable, or holds a store. *)
Definition storeFile (s : State) : Prop :=
  cacheFile s = FileMissing \/ cacheFile s = FileCorrupt \/
  exists previous, cacheFile s = FileStore previous.

(** The entry the file holds under a key, as a property read finds it: an
    own property of a store, an element of an array. *)
Definition entryOf (file : CacheFile) (domain : string) : option JsValue :=
  match file with
  | FileStore m => m !! domain
  | FileHolds (CArray items) =>
      match array_index domain with
      | Some i => Some (element_at items i)
      | None => None
      end
  | _ => None
  end.

(** Printing and parsing give the value back as it is. *)
Definition survives (v : JsValue) : Prop := print_value v = Some v.

(** The record stored for a domain, field by field. *)
Definition credentialRecord (signature validUntil overviewData : JsValue) (timestamp : float)
    : JsValue :=
  JObj [("signature", signature); ("validUntil", validUntil);
        ("overviewData", overviewData); ("timestamp", JNum timestamp)].

(** The entry [saveSignatureToCache] builds in state [s]. *)
Definition newEntry (s : State) (signature validUntil overviewData : JsValue) : JsValue :=
  cacheEntry signature validUntil overviewData (currentTime s).

(** An entry as the service writes them: it has a signature. *)
Definition isCredential (entry : JsValue) : Prop :=
  truthy (own_prop entry "signature") = true /\ truthy (own_prop entry "validUntil") = true.

(** Every entry of the cache file is a credential. *)
Definition credentialStore (s : State) : Prop :=
  forall m domain entry,
    cacheFile s = FileStore m -> m !! domain = Some entry -> isCredential entry.

(** An entry whose signature and [validUntil] are non-empty texts, the
    types the code declares for them. *)
Definition textCredential (entry : JsValue) : Prop :=
  exists signature validUntil : string,
    own_prop entry "signature" = JStr signature /\ signature <> "" /\
    own_prop entry "validUntil" = JStr validUntil /\ validUntil <> "".

(** Every entry of the cache file is such an entry. *)
Definition textStore (s : State) : Prop :=
  forall m domain entry,
    cacheFile s = FileStore m -> m !! domain = Some entry -> textCredential entry.

(** The platform hands out signatures and dates that are texts. *)
Definition textPeer : Prop :=
  forall h request status data signature validUntil overviewData,
    axios w h request = Response status data ->
    (exists tag second rest,
       data = JArr (tag :: second :: rest) /\
       signature = js_get_opt (js_get_opt second "signedInput") "signature" /\
       validUntil = js_get_opt (js_get_opt (js_get_opt second "signedInput") "input")
                      "validUntil" /\
       overviewData = js_get_opt second "data") ->
    truthy signature = true -> truthy validUntil = true ->
    (exists text, signature = JStr text) /\ (exists text, validUntil = JStr text).

(** ** Challenge solver *)

(** The key the solver uses: [config.get(...) || env.CAPSOLVER_API_KEY]. *)
Definition configuredKey : JsValue :=
  js_or (config_CAPSOLVER_API_KEY w) (env_CAPSOLVER_API_KEY w).

(** [n] rounds of the polling loop that all went on: each waits one second
    and then asks for the task result. *)
Fixpoint pollEvents (apiKey taskId : JsValue) (n : nat) : list Event :=
  match n with
  | O => []
  | S n' => EvSleep 1000 :: EvHttp (getTaskRequest apiKey taskId) :: pollEvents apiKey taskId n'
  end.

(** A poll answer that keeps the loop going: the status is neither
    ["ready"] nor ["failed"] and no [errorId] is set. *)
Definition pendingAnswer (o : HttpOutcome) : Prop :=
  exists status data,
    o = Response status data /\
    js_is (js_get_opt data "status") "ready" = false /\
    js_is (js_get_opt data "status") "failed" = false /\
    truthy (js_get_opt data "errorId") = false.

(** A poll answer that reports failure: status ["failed"], or an [errorId]
    on an answer that is not ["ready"]. *)
Definition failedAnswer (o : HttpOutcome) : Prop :=
  exists status data,
    o = Response status data /\
    js_is (js_get_opt data "status") "ready" = false /\
    (js_is (js_get_opt data "status") "failed" = true \/
     truthy (js_get_opt data "errorId") = true).

(** The record of events after a task was created and polled [n] times. *)
Definition historyAfterPolls (s : State) (siteUrl : string) (taskId : JsValue) (n : nat)
    : list Event :=
  history s ++ EvHttp (createTaskRequest configuredKey siteUrl)
            :: pollEvents configuredKey taskId n.

(** The answer to poll number [k] (counting from 0). *)
Definition pollAnswer (s : State) (siteUrl : string) (taskId : JsValue) (k : nat) : HttpOutcome :=
  axios w (historyAfterPolls s siteUrl taskId k ++ [EvSleep 1000])
        (getTaskRequest configuredKey taskId).

(** A challenge solve starts with a request to [createTask]; a signature
    mint is a request to the overview endpoint. *)
Definition isSolve (e : Event) : bool :=
  match e with
  | EvHttp r => String.eqb (req_url r) "https://api.capsolver.com/createTask"
  | _ => false
  end.

Definition isMint (e : Event) : bool :=
  match e with
  | EvHttp r => String.eqb (req_url r) "https://ahrefs.com/v4/stGetFreeBacklinksOverview"
  | _ => false
  end.

Definition solveCount (h : list Event) : nat := length (List.filter isSolve h).
Definition mintCount (h : list Event) : nat := length (List.filter isMint h).

(** ** Signature exchange *)

(** The credential a response body carries, in the words of the
    specification: the body is an array with at least two elements whose
    second element has [signedInput.signature] and
    [signedInput.input.validUntil], both truthy; the sibling [data] is the
    auxiliary payload. *)
Definition credentialOf (body : JsValue) : option (JsValue * JsValue * JsValue) :=
  match body with
  | JArr (_ :: second :: _) =>
      let signedInput := js_get_opt second "signedInput" in
      let signature := js_get_opt signedInput "signature" in
      let validUntil := js_get_opt (js_get_opt signedInput "input") "validUntil" in
      if truthy signature && truthy validUntil
      then Some (signature, validUntil, js_get_opt second "data")
      else None
  | _ => None
  end.

(** The state in which [getSignatureAndOverview] calls
    [saveSignatureToCache]: the overview request has been answered. *)
Definition afterOverview (token : JsValue) (domain : string) (s : State) : State :=
  after s (EvHttp (overviewRequest token domain)).

(** ** Normalised shapes *)

(** The value of field [k] of a record when it is there and truthy,
    [fallback] otherwise. *)
Definition fieldOr (item : Fields) (k : string) (fallback : JsValue) : JsValue :=
  match find (fun kv => String.eqb k (fst kv)) item with
  | Some (_, v) => if truthy v then v else fallback
  | None => fallback
  end.

Definition normalizedBacklink (item : Fields) : JsValue :=
  JObj [("anchor", fieldOr item "anchor" (JStr ""));
        ("domainRating", fieldOr item "domainRating" (JNum 0));
        ("title", fieldOr item "title" (JStr ""));
        ("urlFrom", fieldOr item "urlFrom" (JStr ""));
        ("urlTo", fieldOr item "urlTo" (JStr ""));
        ("edu", fieldOr item "edu" (JBool false));
        ("gov", fieldOr item "gov" (JBool false))].

(** The input of [formatBacklinks] is an array of length greater than 1
    whose second element has a truthy [topBacklinks.backlinks]. *)
Definition hasBacklinksPayload (v : JsValue) : Prop :=
  exists tag second rest,
    v = JArr (tag :: second :: rest) /\
    truthy (js_get_opt (js_get_opt second "topBacklinks") "backlinks") = true.

Definition normalizedIdea (label : string) (item : Fields) : JsValue :=
  JObj [("label", JStr label);
        ("value",
         JObj [("keyword", fieldOr item "keyword" (JStr "No keyword"));
               ("country", fieldOr item "country" (JStr "-"));
               ("difficulty", fieldOr item "difficultyLabel" (JStr "Unknown"));
               ("volume", fieldOr item "volumeLabel" (JStr "Unknown"));
               ("updatedAt", fieldOr item "updatedAt" (JStr "-"))])].

(** The ideas of one group of the response: [data.group.results] is the
    array of the records [items], or it is missing (falsy) and there are
    none. *)
Definition groupResults (data : JsValue) (group : string) (items : list Fields) : Prop :=
  js_get_opt (js_get_opt data group) "results" = JArr (map JObj items) \/
  (truthy (js_get_opt (js_get_opt data group) "results") = false /\ items = []).

(** The body is an array of length at least 2 whose first element is the
    tag ["Ok"]. *)
Definition okTagged (body : JsValue) : Prop :=
  exists second rest, body = JArr (JStr "Ok" :: second :: rest).

(** ** The answer of [getBacklinks] once it has a credential *)

Definition backlinksFailure (domain : string) : string :=
  "Failed to get backlinks for domain: " +:+ domain.

(** What [getBacklinks] makes of the answer to the list request. *)
Definition listOutcome (domain : string) (overviewData : JsValue) (o : HttpOutcome)
    : Result JsValue :=
  match o with
  | Rejected => Exc (wrapError (backlinksFailure domain) NetworkError)
  | Response status data =>
      if status =? 200 then
        match formatBacklinks data with
        | Val backlinks => Val (JObj [("overview", overviewData); ("backlinks", backlinks)])
        | Exc e => Exc (wrapError (backlinksFailure domain) e)
        end
      else Exc (McpError (backlinksFailure domain) API_ERROR status None)
  end.

End Vocabulary.

(** * Scenarios

    Concrete worlds and states on which the statements below are
    exercised. *)

Module Scenario.

Definition domain : string := "example.com".

Definition expiry : string := "2030-01-01T00:00:00Z".

Definition expired : string := "2020-01-01T00:00:00Z".

Definition key : JsValue := JStr "CAP-KEY".

Definition solverUrl : string := backlinksSiteUrl domain.

Definition task : JsValue := JStr "task-1".

Definition token : JsValue := JStr "token-1".

Definition overviewData : JsValue := JObj [("domainRating", JNum 50)].

Definition signedOverview : JsValue :=
  JObj [("signedInput",
         JObj [("signature", JStr "sig-1"); ("input", JObj [("validUntil", JStr expiry)])]);
        ("data", overviewData)].

(** [[tag, {signedInput: {signature, input: {validUntil}}, data}]] *)
Definition overviewBody (tag : JsValue) : JsValue := JArr [tag; signedOverview].

Definition backlinkItems : list Fields :=
  [[("anchor", JStr "home"); ("domainRating", JNum 71); ("edu", JBool true)];
   [("title", JStr "Blog"); ("anchor", JNull)]].

Definition backlinksData : JsValue :=
  JObj [("topBacklinks", JObj [("backlinks", JArr (map JObj backlinkItems))])].

Definition backlinksBody : JsValue := JArr [JStr "Ok"; backlinksData].

(** The example of the specification. *)
Definition keywordIdeasData : JsValue :=
  JObj [("allIdeas", JObj [("results", JArr [JObj [("keyword", JStr "a")]])]);
        ("questionIdeas", JObj [("results", JArr [JObj [("keyword", JStr "b")]])])].

Definition keywordIdeasBody : JsValue := JArr [JStr "Ok"; keywordIdeasData].

Definition pollsSoFar (h : list Event) : nat :=
  length (List.filter (fun e => match e with
                                | EvHttp r => String.eqb (req_url r) getTaskResultUrl
                                | _ => false
                                end) h).

Definition processing : JsValue := JObj [("errorId", JNum 0); ("status", JStr "processing")].
Definition failed : JsValue := JObj [("errorId", JNum 1); ("status", JStr "failed")].
Definition ready : JsValue :=
  JObj [("errorId", JNum 0); ("status", JStr "ready"); ("solution", JObj [("token", token)])].

(** A peer that creates task ["task-1"], answers poll number [n] with
    [poll n], answers the overview request with [overviewStatus] and
    [overview], the backlinks list with [backlinksBody], and everything
    else with [other]. *)
Definition peer (poll : nat -> JsValue) (overviewStatus : Z) (overview other : JsValue)
    (h : list Event) (r : Request) : HttpOutcome :=
  if String.eqb (req_url r) createTaskUrl then Response 200 (JObj [("taskId", task)])
  else if String.eqb (req_url r) getTaskResultUrl then Response 200 (poll (pollsSoFar h))
  else if String.eqb (req_url r) overviewUrl then Response overviewStatus overview
  else if String.eqb (req_url r) backlinksListUrl then Response 200 backlinksBody
  else Response 200 other.

(** The clock stands at 2023-11-14T22:13:20Z; the date parser knows the
    first instants of 2020 and of 2030. *)
Definition world (key : JsValue) (http : list Event -> Request -> HttpOutcome)
    (disk : WriteOutcome) : World :=
  mkWorld key JUndefined http
    (fun _ => 1700000000000%float)
    (fun s => if String.eqb s "2030-01-01T00:00:00+00:00" then 1893456000000%float
              else if String.eqb s "2020-01-01T00:00:00+00:00" then 1577836800000%float
              else nan)
    (fun _ => disk)
    (fun s => s)
    (fun _ => "{}").

Definition notOkBody : JsValue := JArr [JStr "Error"; JObj [("message", JStr "denied")]].

(** Everything works. *)
Definition working : World :=
  world key (peer (fun _ => ready) 200 (overviewBody (JStr "Ok")) notOkBody) Written.

(** The overview response is tagged ["Error"] but carries a credential. *)
Definition untagged : World :=
  world key (peer (fun _ => ready) 200 (overviewBody (JStr "Error")) notOkBody) Written.

(** The platform answers the overview request with status 201. *)
Definition created201 : World :=
  world key (peer (fun _ => ready) 201 (overviewBody (JStr "Ok")) notOkBody) Written.

(** The task never completes. *)
Definition stalled : World :=
  world key (peer (fun _ => processing) 200 (overviewBody (JStr "Ok")) notOkBody) Written.

(** The task fails at the third poll. *)
Definition failing : World :=
  world key
    (peer (fun n => if (n <? 2)%nat then processing else failed) 200
          (overviewBody (JStr "Ok")) notOkBody) Written.

(** No API key. *)
Definition keyless : World :=
  world JUndefined (peer (fun _ => ready) 200 (overviewBody (JStr "Ok")) notOkBody) Written.

(** The disk refuses writes. *)
Definition readonly : World :=
  world key (peer (fun _ => ready) 200 (overviewBody (JStr "Ok")) notOkBody) Refused.

(** The disk fails in the middle of a write. *)
Definition failingDisk : World :=
  world key (peer (fun _ => ready) 200 (overviewBody (JStr "Ok")) notOkBody) Truncated.

Definition fresh : State := mkState FileMissing [].

Definition corrupt : State := mkState FileCorrupt [].

Definition entry (validUntil : string) : JsValue :=
  cacheEntry (JStr "sig-0") (JStr validUntil) (JObj [("domainRating", JNum 40)]) 1600000000.

(** A cache with a valid entry for [domain] and an older one for another
    domain. *)
Definition warm : State :=
  mkState (FileStore (<[domain := entry expiry]>
                        (<["other.org" := entry expired]> ∅))) [].

End Scenario.

(** * The layers above the service

    [controllers/seo.controller.ts] and [tools/seo.tool.ts].  Their error
    formatters ([handleControllerError] of utils/error-handler.util.ts and
    [formatErrorForMcpTool] of utils/error.util.ts) and the pretty printer
    [JSON.stringify(., null, 2)] are parameters: the first may return a
    response or throw, the second returns a response. *)

(** What a [catch] clause of these layers receives: an [Error] made on the
    spot, or whatever the service raised. *)
Inductive Thrown : Type :=
| PlainError (message : string)
| Raised (e : Exn).

Inductive Outcome (A : Type) : Type :=
| Returned (a : A)
| Threw (t : Thrown).
Arguments Returned {A} a.
Arguments Threw {A} t.

Record ErrorContext : Type := mkErrorContext {
  entityType : string;
  operation : string;
  source : string;
  additionalInfo : Fields
}.

Record ControllerResponse : Type := mkControllerResponse { content : string }.

(** [s || fallback] on strings: only the empty string is falsy. *)
Definition str_or (s fallback : string) : string :=
  if String.eqb s "" then fallback else s.

Module Controller.

Record BacklinksParams : Type := { bl_domain : string }.

Record KeywordGeneratorParams : Type := {
  kg_keyword : string;
  kg_country : string;
  kg_searchEngine : string
}.

Record KeywordDifficultyParams : Type := {
  kd_keyword : string;
  kd_country : string
}.

Record TrafficCheckerParams : Type := {
  tc_domainOrUrl : string;
  tc_country : string;
  tc_mode : string
}.

(** The messages of the four validation errors and the contexts given to
    [handleControllerError]. *)
Definition backlinksMissing : string := "Domain is required for getting backlinks".
Definition keywordIdeasMissing : string := "Keyword is required for getting keyword ideas".
Definition keywordDifficultyMissing : string :=
  "Keyword is required for getting keyword difficulty".
Definition trafficMissing : string := "Domain or URL is required for getting traffic data".

Definition backlinksContext (params : BacklinksParams) : ErrorContext :=
  mkErrorContext "Backlinks" "retrieving" "controllers/seo.controller.ts@getBacklinks"
    [("domain", JStr (bl_domain params))].

Definition keywordIdeasContext (params : KeywordGeneratorParams) : ErrorContext :=
  mkErrorContext "Keyword Ideas" "retrieving" "controllers/seo.controller.ts@getKeywordIdeas"
    [("keyword", JStr (kg_keyword params)); ("country", JStr (kg_country params))].

Definition keywordDifficultyContext (params : KeywordDifficultyParams) : ErrorContext :=
  mkErrorContext "Keyword Difficulty" "retrieving"
    "controllers/seo.controller.ts@getKeywordDifficulty"
    [("keyword", JStr (kd_keyword params)); ("country", JStr (kd_country params))].

Definition trafficContext (params : TrafficCheckerParams) : ErrorContext :=
  mkErrorContext "Traffic Data" "retrieving" "controllers/seo.controller.ts@getTraffic"
    [("domainOrUrl", JStr (tc_domainOrUrl params)); ("mode", JStr (tc_mode params))].

Section WithHandlers.

Variable w : World.
Variable handleControllerError : Thrown -> ErrorContext -> Outcome ControllerResponse.
Variable stringifyPretty : JsValue -> string.

(** The body shared by the four controllers: validate, call the service,
    print the response; every exception goes to [handleControllerError]. *)
Definition respond (required : string) (missing : string) (context : ErrorContext)
    (service : Eff JsValue) : State -> Outcome ControllerResponse * State :=
  fun s =>
    if String.eqb required "" then
      (handleControllerError (PlainError missing) context, s)
    else
      match service s with
      | (Val response, s') => (Returned (mkControllerResponse (stringifyPretty response)), s')
      | (Exc e, s') => (handleControllerError (Raised e) context, s')
      end.

Definition getBacklinks (params : BacklinksParams)
    : State -> Outcome ControllerResponse * State :=
  respond (bl_domain params) backlinksMissing (backlinksContext params)
    (getBacklinks w (bl_domain params)).

Definition getKeywordIdeas (params : KeywordGeneratorParams)
    : State -> Outcome ControllerResponse * State :=
  respond (kg_keyword params) keywordIdeasMissing (keywordIdeasContext params)
    (let country := str_or (kg_country params) "us" in
     let searchEngine := str_or (kg_searchEngine params) "Google" in
     getKeywordIdeas w (kg_keyword params) country searchEngine).

Definition getKeywordDifficulty (params : KeywordDifficultyParams)
    : State -> Outcome ControllerResponse * State :=
  respond (kd_keyword params) keywordDifficultyMissing (keywordDifficultyContext params)
    (let country := str_or (kd_country params) "us" in
     getKeywordDifficulty w (kd_keyword params) country).

Definition getTraffic (params : TrafficCheckerParams)
    : State -> Outcome ControllerResponse * State :=
  respond (tc_domainOrUrl params) trafficMissing (trafficContext params)
    (let mode := str_or (tc_mode params) "subdomains" in
     let country := str_or (tc_country params) "None" in
     checkTraffic w (tc_domainOrUrl params) mode country).

End WithHandlers.

End Controller.

Module Tool.

(** [{ content: [{ type: 'text', text }] }] *)
Definition textResponse (text : string) : JsValue :=
  JObj [("content", JArr [JObj [("type", JStr "text"); ("text", JStr text)]])].

Section WithHandlers.

Variable w : World.
Variable handleControllerError : Thrown -> ErrorContext -> Outcome ControllerResponse.
Variable stringifyPretty : JsValue -> string.
Variable formatErrorForMcpTool : Thrown -> JsValue.

(** What a handler makes of the controller's outcome. *)
Definition reply (o : Outcome ControllerResponse) : JsValue :=
  match o with
  | Returned result => textResponse (content result)
  | Threw error => formatErrorForMcpTool error
  end.

(** The body shared by the four handlers. *)
Definition handle (controller : State -> Outcome ControllerResponse * State)
    : State -> JsValue * State :=
  fun s => let '(o, s') := controller s in (reply o, s').

Definition handleGetBacklinks (args : Controller.BacklinksParams) : State -> JsValue * State :=
  handle (Controller.getBacklinks w handleControllerError stringifyPretty args).

Definition handleKeywordGenerator (args : Controller.KeywordGeneratorParams)
    : State -> JsValue * State :=
  handle (Controller.getKeywordIdeas w handleControllerError stringifyPretty args).

Definition handleKeywordDifficulty (args : Controller.KeywordDifficultyParams)
    : State -> JsValue * State :=
  handle (Controller.getKeywordDifficulty w handleControllerError stringifyPretty args).

Definition handleGetTraffic (args : Controller.TrafficCheckerParams) : State -> JsValue * State :=
  handle (Controller.getTraffic w handleControllerError stringifyPretty args).

End WithHandlers.

End Tool.

(** * More vocabulary *)

Section MoreVocabulary.

Variable w : World.

(** A poll answer that ends the loop with a solution: status ["ready"];
    the solver returns [solution.token], whatever it is. *)
Definition readyAnswer (o : HttpOutcome) (token : JsValue) : Prop :=
  exists status data,
    o = Response status data /\
    js_is (js_get_opt data "status") "ready" = true /\
    js_get_opt (js_get_opt data "solution") "token" = token.

Definition isWrite (e : Event) : bool :=
  match e with
  | EvWrite _ => true
  | _ => false
  end.

Definition writeCount (h : list Event) : nat := length (List.filter isWrite h).

Definition isList (e : Event) : bool :=
  match e with
  | EvHttp r => String.eqb (req_url r) "https://ahrefs.com/v4/stGetFreeBacklinksList"
  | _ => false
  end.

Definition listCount (h : list Event) : nat := length (List.filter isList h).

(** The effects of a call to [getBacklinks] come in order: at most one
    solve, a signature exchange only after a solve, a write only after an
    exchange, at most one list request. *)
Definition orderly (h : list Event) : Prop :=
  (solveCount h <= 1)%nat /\ (mintCount h <= solveCount h)%nat /\
  (writeCount h <= mintCount h)%nat /\ (listCount h <= 1)%nat.

(** What a query function may add to the state: the cache file is left
    alone; at most one [createTask], no overview request, no write. *)
Definition quietRun (s s' : State) : Prop :=
  cacheFile s' = cacheFile s /\
  exists h,
    history s' = history s ++ h /\
    (solveCount h <= 1)%nat /\ mintCount h = 0%nat /\ writeCount h = 0%nat.

Definition isMcpError (e : Exn) : bool :=
  match e with
  | McpError _ _ _ _ => true
  | _ => false
  end.

(** The result is a value or an [McpError]: nothing else gets out. *)
Definition onlyMcpError {A} (r : Result A) : Prop :=
  match r with
  | Val _ => True
  | Exc e => isMcpError e = true
  end.

(** The challenge page and the request of [getKeywordIdeas]. *)
Definition keywordIdeasSiteUrl (keyword country : string) : string :=
  "https://ahrefs.com/keyword-generator/?country=" +:+ country +:+ "&input="
  +:+ encodeURIComponent w keyword.

Definition keywordIdeasRequest (token : JsValue) (keyword country searchEngine : string)
    : Request :=
  mkRequest POST keywordIdeasUrl
    (JObj [("withQuestionIdeas", JBool true); ("captcha", token);
           ("searchEngine", JStr searchEngine); ("country", JStr country);
           ("keyword", JArr [JStr "Some"; JStr keyword])])
    jsonHeaders.

(** The requests to the data endpoints, as they go out: method, address,
    payload (the body of a POST, the query parameters of a GET) and
    headers. *)
Definition overviewPost (token : JsValue) (domain : string) : Request :=
  {| req_method := POST;
     req_url := "https://ahrefs.com/v4/stGetFreeBacklinksOverview";
     req_body := JObj [("captcha", token); ("mode", JStr "subdomains");
                       ("url", JStr domain)];
     req_headers := JObj [("Content-Type", JStr "application/json")] |}.

Definition listPost (signature validUntil : JsValue) (domain : string) : Request :=
  {| req_method := POST;
     req_url := "https://ahrefs.com/v4/stGetFreeBacklinksList";
     req_body :=
       JObj [("reportType", JStr "TopBacklinks");
             ("signedInput",
              JObj [("signature", signature);
                    ("input", JObj [("validUntil", validUntil);
                                    ("mode", JStr "subdomains");
                                    ("url", JStr (domain +:+ "/"))])])];
     req_headers := JObj [("Content-Type", JStr "application/json")] |}.

Definition difficultyPost (token : JsValue) (keyword country : string) : Request :=
  {| req_method := POST;
     req_url := "https://ahrefs.com/v4/stGetFreeSerpOverviewForKeywordDifficultyChecker";
     req_body := JObj [("captcha", token); ("country", JStr country);
                       ("keyword", JStr keyword)];
     req_headers :=
       JObj [("accept", JStr "*/*");
             ("content-type", JStr "application/json; charset=utf-8");
             ("referer",
              JStr ("https://ahrefs.com/keyword-difficulty/?country=" +:+ country
                    +:+ "&input=" +:+ encodeURIComponent w keyword))] |}.

Definition trafficGet (token : JsValue) (domainOrUrl mode country : string) : Request :=
  {| req_method := GET;
     req_url := "https://ahrefs.com/v4/stGetFreeTrafficOverview";
     req_body :=
       JObj [("input",
              JStr (JSON_stringify w
                      (JObj [("captcha", token); ("country", JStr country);
                             ("protocol", JStr "None"); ("mode", JStr mode);
                             ("url", JStr domainOrUrl)])))];
     req_headers :=
       JObj [("accept", JStr "*/*");
             ("content-type", JStr "application/json");
             ("referer",
              JStr ("https://ahrefs.com/traffic-checker/?input=" +:+ domainOrUrl
                    +:+ "&mode=" +:+ mode))] |}.

(** The challenge pages handed to the solver. *)
Definition difficultyPage (keyword country : string) : string :=
  "https://ahrefs.com/keyword-difficulty/?country=" +:+ country +:+ "&input="
  +:+ encodeURIComponent w keyword.

Definition trafficPage (domainOrUrl mode : string) : string :=
  "https://ahrefs.com/traffic-checker/?input=" +:+ domainOrUrl +:+ "&mode=" +:+ mode.

(** The challenge page [getBacklinks] hands to the solver. *)
Definition backlinksPage (domain : string) : string :=
  "https://ahrefs.com/backlink-checker/?input=" +:+ domain +:+ "&mode=subdomains".

(** In a run of events, an event of kind [later] comes only after an event
    of kind [earlier]. *)
Definition onlyAfter (earlier later : Event -> bool) (h : list Event) : Prop :=
  forall before e rest,
    h = before ++ e :: rest -> later e = true -> existsb earlier before = true.

(** In a run of events, an event of this kind is the last one. *)
Definition onlyLast (kind : Event -> bool) (h : list Event) : Prop :=
  forall before e rest, h = before ++ e :: rest -> kind e = true -> rest = [].

(** The two order properties, decided by one pass over the run: [seen]
    tells whether an event of the earlier kind has been met. *)
Fixpoint onlyAfterb (earlier later : Event -> bool) (seen : bool) (h : list Event) : bool :=
  match h with
  | [] => true
  | e :: h' =>
      (if later e then seen else true) && onlyAfterb earlier later (seen || earlier e) h'
  end.

Fixpoint onlyLastb (kind : Event -> bool) (h : list Event) : bool :=
  match h with
  | [] => true
  | e :: h' =>
      (if kind e then match h' with [] => true | _ :: _ => false end else true)
      && onlyLastb kind h'
  end.

(** The three shapes of what one [getBacklinks] adds to the record: the
    list request alone; a solver run alone; a solver run with its
    [createTask], the overview request, at most one write and at most
    one list request. *)
Inductive BacklinksRun (domain : string) : list Event -> Prop :=
| run_cached signature validUntil :
    BacklinksRun domain [EvHttp (backlinksListRequest signature validUntil domain)]
| run_unsolved h :
    (solveCount h <= 1)%nat -> mintCount h = 0%nat -> writeCount h = 0%nat ->
    listCount h = 0%nat ->
    BacklinksRun domain h
| run_minted h token hw tail :
    solveCount h = 1%nat -> mintCount h = 0%nat -> writeCount h = 0%nat ->
    listCount h = 0%nat ->
    (hw = [] \/ exists ok, hw = [EvWrite ok]) ->
    (tail = [] \/ exists signature validUntil,
                    tail = [EvHttp (backlinksListRequest signature validUntil domain)]) ->
    BacklinksRun domain (h ++ (EvHttp (overviewRequest token domain) :: hw) ++ tail).

(** What a query function makes of the answer of its data endpoint:
    [failure] is its "Failed to ..." message, [normalize] what it does
    with the body of a 200 answer. *)
Definition dataOutcome (failure : string) (normalize : JsValue -> Result JsValue)
    (o : HttpOutcome) : Result JsValue :=
  match o with
  | Rejected => Exc (McpError failure UNEXPECTED_ERROR 500 (Some NetworkError))
  | Response status data =>
      if status =? 200 then
        match normalize data with
        | Val v => Val v
        | Exc e => Exc (wrapError failure e)
        end
      else Exc (McpError failure API_ERROR status None)
  end.

(** The body of a keyword-difficulty or traffic answer, once accepted. *)
Definition taggedBody (invalid : string) (format : JsValue -> Result JsValue)
    (data : JsValue) : Result JsValue :=
  if notOkResponse data then Exc (McpError invalid API_ERROR 500 None)
  else format (own_index data 1).

(** ** Normalised shapes of keyword difficulty and traffic *)

(** The six metrics of a SERP entry, present when [linkData.metrics] is. *)
Definition serpMetrics (linkData : Fields) : Fields :=
  match lookup_field "metrics" linkData with
  | JObj metrics =>
      [("domainRating", fieldOr metrics "domainRating" (JNum 0));
       ("urlRating", fieldOr metrics "urlRating" (JNum 0));
       ("traffic", fieldOr metrics "traffic" (JNum 0));
       ("keywords", fieldOr metrics "keywords" (JNum 0));
       ("topKeyword", fieldOr metrics "topKeyword" (JStr ""));
       ("topVolume", fieldOr metrics "topVolume" (JNum 0))]
  | _ => []
  end.

(** The entry made from an organic result at [item] with link data
    [linkData]. *)
Definition serpEntry (item linkData : Fields) : JsValue :=
  JObj ([("title", fieldOr linkData "title" (JStr ""));
         ("url", js_or (js_get_opt (js_index_opt (lookup_field "url" linkData) 1) "url")
                       (JStr ""));
         ("position", fieldOr item "pos" (JNum 0))]
        ++ serpMetrics linkData).

(** How a well-formed SERP item is read.  Its [content] is a tagged pair;
    only the tag ["organic"] with a link tagged ["Some"] gives an entry.
    [metrics], when present, is a record or [null]. *)
Inductive SerpItem : JsValue -> option JsValue -> Prop :=
| serp_other (item : Fields) (tag : string) (payload : list JsValue) :
    lookup_field "content" item = JArr (JStr tag :: payload) ->
    tag <> "organic" ->
    SerpItem (JObj item) None
| serp_no_link (item organic : Fields) (tag : string) (rest payload : list JsValue) :
    lookup_field "content" item = JArr (JStr "organic" :: JObj organic :: rest) ->
    lookup_field "link" organic = JArr (JStr tag :: payload) ->
    tag <> "Some" ->
    SerpItem (JObj item) None
| serp_organic (item organic linkData : Fields) (rest rest' : list JsValue) :
    lookup_field "content" item = JArr (JStr "organic" :: JObj organic :: rest) ->
    lookup_field "link" organic = JArr (JStr "Some" :: JObj linkData :: rest') ->
    (truthy (lookup_field "metrics" linkData) = false \/
     exists metrics, lookup_field "metrics" linkData = JObj metrics) ->
    SerpItem (JObj item) (Some (serpEntry item linkData)).

Definition normalizedDifficulty (kdData : Fields) (results : list JsValue) : JsValue :=
  JObj [("difficulty", fieldOr kdData "difficulty" (JNum 0));
        ("shortage", fieldOr kdData "shortage" (JNum 0));
        ("lastUpdate", fieldOr kdData "lastUpdate" (JStr ""));
        ("serp", JObj [("results", JArr results)])].

Definition normalizedTraffic (trafficData : Fields) : JsValue :=
  JObj [("traffic_history", fieldOr trafficData "traffic_history" (JArr []));
        ("traffic",
         JObj [("trafficMonthlyAvg",
                js_or (js_get_opt (lookup_field "traffic" trafficData) "trafficMonthlyAvg")
                      (JNum 0));
               ("costMontlyAvg",
                js_or (js_get_opt (lookup_field "traffic" trafficData) "costMontlyAvg")
                      (JNum 0))]);
        ("top_pages", fieldOr trafficData "top_pages" (JArr []));
        ("top_countries", fieldOr trafficData "top_countries" (JArr []));
        ("top_keywords", fieldOr trafficData "top_keywords" (JArr []))].

End MoreVocabulary.

(** * The service as its callers see it *)

(** The default export of the service: four functions. *)
Inductive Call : Type :=
| CallBacklinks (domain : string)
| CallKeywordIdeas (keyword country searchEngine : string)
| CallKeywordDifficulty (keyword country : string)
| CallTraffic (domainOrUrl mode country : string).

Section Calls.

Variable w : World.

Definition runCall (call : Call) : Eff JsValue :=
  match call with
  | CallBacklinks domain => getBacklinks w domain
  | CallKeywordIdeas keyword country searchEngine =>
      getKeywordIdeas w keyword country searchEngine
  | CallKeywordDifficulty keyword country => getKeywordDifficulty w keyword country
  | CallTraffic domainOrUrl mode country => checkTraffic w domainOrUrl mode country
  end.

(** The state after a series of calls, each awaited to its end, whether it
    returned or raised. *)
Fixpoint runCalls (calls : list Call) (s : State) : State :=
  match calls with
  | [] => s
  | call :: rest => runCalls rest (state_of (runCall call s))
  end.

End Calls.

(** What a controller may hand back: the printed response of the service,
    or what [handleControllerError] makes of the validation error or of an
    [McpError] of the service. *)
Definition controllerOutcome
    (handleControllerError : Thrown -> ErrorContext -> Outcome ControllerResponse)
    (stringifyPretty : JsValue -> string)
    (missing : string) (context : ErrorContext) (o : Outcome ControllerResponse) : Prop :=
  (exists response, o = Returned (mkControllerResponse (stringifyPretty response))) \/
  o = handleControllerError (PlainError missing) context \/
  (exists message type status cause,
     o = handleControllerError (Raised (McpError message type status cause)) context).

(** What a tool handler answers to its caller: the text of the
    controller's response in one MCP text block, or what
    [formatErrorForMcpTool] makes of what the controller threw. *)
Definition toolAnswer (formatErrorForMcpTool : Thrown -> JsValue)
    (o : Outcome ControllerResponse) : JsValue :=
  match o with
  | Returned result =>
      JObj [("content", JArr [JObj [("type", JStr "text"); ("text", JStr (content result))]])]
  | Threw error => formatErrorForMcpTool error
  end.

(** A parameter with its default: the fallback stands in for the empty
    text. *)
Definition defaulted (given fallback : string) : string :=
  match given with
  | EmptyString => fallback
  | String _ _ => given
  end.

(** * More scenarios *)

Module Cases.

Import Scenario.

(** A peer as in [Scenario.working] that answers the data endpoints with
    status 200 and body [other]. *)
Definition answering (other : JsValue) : World :=
  world key (peer (fun _ => ready) 200 (overviewBody (JStr "Ok")) other) Written.

(** The task is ready at the third poll. *)
Definition slow : World :=
  world key
    (peer (fun n => if (n <? 2)%nat then processing else ready) 200
          (overviewBody (JStr "Ok")) notOkBody) Written.

(** Every request is rejected. *)
Definition offline : World := world key (fun _ _ => Rejected) Written.


(** A cache whose only entry is out of date. *)
Definition stale : State := mkState (FileStore (<[domain := entry expired]> ∅)) [].

(** A SERP with an organic result that has metrics, an advertisement, and
    an organic result without a link. *)
Definition linkData : Fields :=
  [("title", JStr "Example");
   ("url", JArr [JStr "Some"; JObj [("url", JStr "https://example.com/")]]);
   ("metrics", JObj [("domainRating", JNum 71); ("topKeyword", JStr "example")])].

Definition organicItem : Fields :=
  [("pos", JNum 1);
   ("content", JArr [JStr "organic";
                     JObj [("link", JArr [JStr "Some"; JObj linkData])]])].

Definition adItem : Fields :=
  [("pos", JNum 2); ("content", JArr [JStr "ad"; JObj []])].

Definition unlinkedItem : Fields :=
  [("pos", JNum 3);
   ("content", JArr [JStr "organic"; JObj [("link", JArr [JStr "None"])]])].

Definition difficultyData : Fields :=
  [("difficulty", JNum 12);
   ("serp", JObj [("results", JArr [JObj organicItem; JObj adItem; JObj unlinkedItem])])].

Definition difficultyBody : JsValue := JArr [JStr "Ok"; JObj difficultyData].

Definition trafficData : Fields :=
  [("traffic", JObj [("trafficMonthlyAvg", JNum 1200)]);
   ("top_pages", JArr [JObj [("url", JStr "https://example.com/")]])].

Definition trafficBody : JsValue := JArr [JStr "Ok"; JObj trafficData].

(** Error formatters and a printer to run the layers with: the controller's
    formatter rethrows what it gets, the tool's answers with the message. *)
Definition rethrowing (error : Thrown) (context : ErrorContext) : Outcome ControllerResponse :=
  Threw error.

Definition messageOf (error : Thrown) : string :=
  match error with
  | PlainError message => message
  | Raised (McpError message _ _ _) => message
  | Raised _ => "Error"
  end.

Definition errorText (error : Thrown) : JsValue :=
  JObj [("content", JArr [JObj [("type", JStr "text");
                                ("text", JStr ("Error: " +:+ messageOf error))]]);
        ("isError", JBool true)].

Definition printed (v : JsValue) : string :=
  match v with
  | JStr s => s
  | JArr l => "[" +:+ pretty (length l) +:+ " items]"
  | _ => "{}"
  end.

End Cases.

(** * Properties *)

(** ** JavaScript values *)

Lemma truthy_not_nullish v : truthy v = true -> nullish v = false.
Proof. destruct v; simpl; congruence. Qed.

Lemma truthy_JStr s : s <> "" -> truthy (JStr s) = true.
Proof. intros H. simpl. apply negb_true_iff, String.eqb_neq. exact H. Qed.

Lemma truthy_JStr_inv s : truthy (JStr s) = true -> s <> "".
Proof. simpl. intros H ->. discriminate. Qed.

Lemma js_get_truthy v k : truthy v = true -> js_get v k = Val (own_prop v k).
Proof. intros H. unfold js_get. now rewrite (truthy_not_nullish _ H). Qed.

Lemma lookup_field_missing fs k : has_field k fs = false -> lookup_field k fs = JUndefined.
Proof.
  unfold has_field. induction fs as [|[k' v] fs IH]; [reflexivity|].
  cbn [existsb fst lookup_field]. destruct (String.eqb k k'); [discriminate | exact IH].
Qed.

(** A field whose name is no member of [Object.prototype] is read from
    the record alone. *)
Lemma own_prop_record fs k :
  existsb (String.eqb k) objectMembers = false -> own_prop (JObj fs) k = lookup_field k fs.
Proof.
  intros Hk. unfold own_prop, inherits. rewrite Hk.
  destruct (has_field k fs) eqn:Hfield; [reflexivity|].
  now rewrite lookup_field_missing.
Qed.

Lemma js_get_record fs k :
  existsb (String.eqb k) objectMembers = false -> js_get (JObj fs) k = Val (lookup_field k fs).
Proof. intros Hk. unfold js_get. cbn [nullish]. now rewrite own_prop_record. Qed.

Lemma js_or_fieldOr fs k fallback :
  js_or (lookup_field k fs) fallback = fieldOr fs k fallback.
Proof.
  unfold fieldOr, js_or.
  induction fs as [|[k' v] fs IH]; [reflexivity|].
  cbn [lookup_field find fst]. destruct (String.eqb k k'); [reflexivity | exact IH].
Qed.

Lemma fieldOr_missing fs k fallback :
  has_field k fs = false -> fieldOr fs k fallback = fallback.
Proof.
  unfold fieldOr, has_field.
  induction fs as [|[k' v] fs IH]; [reflexivity|].
  cbn [existsb find fst]. destruct (String.eqb k k'); [discriminate | exact IH].
Qed.

Lemma map_result_records (f : JsValue -> Result JsValue) (g : Fields -> JsValue)
    (items : list Fields) :
  (forall item, f (JObj item) = Val (g item)) ->
  map_result f (map JObj items) = Val (map g items).
Proof.
  intros Hf. induction items as [|x l IH]; [reflexivity|].
  cbn [map_result map]. rewrite Hf. cbn [rbind]. rewrite IH. reflexivity.
Qed.

(** ** The credential cache *)

Section CacheProperties.

Variable w : World.

Lemma validInFuture_dec s entry : validInFuture w s entry \/ ~ validInFuture w s entry.
Proof.
  unfold validInFuture.
  destruct (own_prop entry "validUntil") as [| |b|x|vu|l|fs|fn];
    try (right; intros (vu' & H & _); discriminate).
  destruct (String.eqb vu "") eqn:Hne.
  - right. intros (vu' & H & Hn & _). injection H as <-.
    apply String.eqb_eq in Hne. contradiction.
  - destruct (currentTime w s <? isoToTimestamp w vu)%float eqn:Hlt.
    + left. exists vu. apply String.eqb_neq in Hne. auto.
    + right. intros (vu' & H & _ & Hlt'). injection H as <-. congruence.
Qed.

(** What [loadSignatureFromCache] computes from a store that has an entry. *)
(** What [loadSignatureFromCache] makes of the value it finds under the
    domain. *)
Lemma load_member domain s content entry :
  cacheFile s = FileHolds content -> member content domain = Val entry ->
  loadSignatureFromCache w domain s =
  (Val (if truthy entry then
          match own_prop entry "validUntil" with
          | JStr validUntil =>
              if negb (String.eqb validUntil "")
                 && (currentTime w s <? isoToTimestamp w validUntil)%float
              then cachedTriple entry else absent
          | _ => absent
          end
        else absent), s).
Proof.
  intros Hfile Hentry.
  unfold loadSignatureFromCache, try_catch, bind, cache_exists, read_cache, ret, lift,
    now_seconds, currentTime, cachedTriple.
  rewrite Hfile. cbn -[member]. rewrite Hfile, Hentry. cbn -[lookup].
  destruct (truthy entry) eqn:Htruthy; simpl; [|reflexivity].
  rewrite !(js_get_truthy _ _ Htruthy).
  destruct (own_prop entry "validUntil") as [| |b|x|vu|l|fs|fn] eqn:Hvu; simpl;
    try reflexivity.
  - destruct b; reflexivity.
  - destruct (negb (_ || _)); reflexivity.
  - destruct (negb (String.eqb vu "")); simpl; [|reflexivity].
    destruct (_ <? _)%float; reflexivity.
Qed.

Lemma load_member_fails domain s content e :
  cacheFile s = FileHolds content -> member content domain = Exc e ->
  loadSignatureFromCache w domain s = (Val absent, s).
Proof.
  intros Hfile Hentry.
  unfold loadSignatureFromCache, try_catch, bind, cache_exists, read_cache, ret, lift.
  rewrite Hfile. cbn -[member]. rewrite Hfile, Hentry. reflexivity.
Qed.

Lemma load_entry domain s m entry :
  cacheFile s = FileStore m -> m !! domain = Some entry ->
  loadSignatureFromCache w domain s =
  (Val (if truthy entry then
          match own_prop entry "validUntil" with
          | JStr validUntil =>
              if negb (String.eqb validUntil "")
                 && (currentTime w s <? isoToTimestamp w validUntil)%float
              then cachedTriple entry else absent
          | _ => absent
          end
        else absent), s).
Proof.
  intros Hfile Hentry. apply (load_member _ _ _ _ Hfile).
  cbn -[lookup]. rewrite Hentry. reflexivity.
Qed.

Lemma load_valid domain s m entry :
  cacheFile s = FileStore m -> m !! domain = Some entry -> validInFuture w s entry ->
  loadSignatureFromCache w domain s = (Val (cachedTriple entry), s).
Proof.
  intros Hfile Hentry (vu & Hvu & Hne & Hlt).
  rewrite (load_entry _ _ _ _ Hfile Hentry), Hvu, Hlt.
  apply String.eqb_neq in Hne. rewrite Hne. simpl.
  destruct entry; simpl in *; try discriminate; reflexivity.
Qed.

(** An entry that is not valid gives nothing, wherever it was found. *)
Lemma answer_not_valid s entry :
  ~ validInFuture w s entry ->
  (if truthy entry then
     match own_prop entry "validUntil" with
     | JStr validUntil =>
         if negb (String.eqb validUntil "")
            && (currentTime w s <? isoToTimestamp w validUntil)%float
         then cachedTriple entry else absent
     | _ => absent
     end
   else absent) = absent.
Proof.
  intros Hnot.
  destruct (truthy entry); [|reflexivity].
  destruct (own_prop entry "validUntil") as [| |b|x|vu|l|fs|fn] eqn:Hvu; try reflexivity.
  destruct (negb (String.eqb vu "")) eqn:Hne; [|reflexivity].
  destruct (_ <? _)%float eqn:Hlt; [|reflexivity].
  exfalso. apply Hnot. exists vu. repeat split; try assumption.
  apply negb_true_iff, String.eqb_neq in Hne. exact Hne.
Qed.

Lemma answer_valid s entry :
  validInFuture w s entry ->
  (if truthy entry then
     match own_prop entry "validUntil" with
     | JStr validUntil =>
         if negb (String.eqb validUntil "")
            && (currentTime w s <? isoToTimestamp w validUntil)%float
         then cachedTriple entry else absent
     | _ => absent
     end
   else absent) = cachedTriple entry.
Proof.
  intros (vu & Hvu & Hne & Hlt). rewrite Hvu, Hlt.
  apply String.eqb_neq in Hne. rewrite Hne. simpl.
  destruct entry; simpl in *; try discriminate; reflexivity.
Qed.

Lemma load_not_valid domain s m entry :
  cacheFile s = FileStore m -> m !! domain = Some entry -> ~ validInFuture w s entry ->
  loadSignatureFromCache w domain s = (Val absent, s).
Proof.
  intros Hfile Hentry Hnot.
  rewrite (load_entry _ _ _ _ Hfile Hentry), (answer_not_valid _ _ Hnot). reflexivity.
Qed.

Lemma load_missing domain s :
  cacheFile s = FileMissing -> loadSignatureFromCache w domain s = (Val absent, s).
Proof.
  intros Hfile. unfold loadSignatureFromCache, try_catch, bind, cache_exists.
  rewrite Hfile. reflexivity.
Qed.

Lemma load_corrupt domain s :
  cacheFile s = FileCorrupt -> loadSignatureFromCache w domain s = (Val absent, s).
Proof.
  intros Hfile. unfold loadSignatureFromCache, try_catch, bind, cache_exists, read_cache.
  rewrite Hfile. cbn. rewrite Hfile. reflexivity.
Qed.

(** An inherited member is no entry: it has no [validUntil]. *)
Lemma builtin_not_valid s members k : ~ validInFuture w s (inherits members k).
Proof.
  unfold inherits. intros (vu & Hvu & _).
  destruct (existsb (String.eqb k) members); [|discriminate].
  cbn in Hvu. discriminate.
Qed.

Lemma load_no_entry domain s m :
  cacheFile s = FileStore m -> m !! domain = None ->
  loadSignatureFromCache w domain s = (Val absent, s).
Proof.
  intros Hfile Hentry.
  rewrite (load_member domain s (CStore m) (inherits objectMembers domain) Hfile).
  - now rewrite (answer_not_valid _ _ (builtin_not_valid s objectMembers domain)).
  - cbn -[lookup]. rewrite Hentry. reflexivity.
Qed.

Lemma load_null domain s :
  cacheFile s = FileHolds CNull -> loadSignatureFromCache w domain s = (Val absent, s).
Proof. intros Hfile. now apply (load_member_fails domain s CNull TypeError). Qed.

(** No member of a boolean, a number or a text has a [validUntil]. *)
Lemma scalar_member_not_valid s p k : ~ validInFuture w s (own_prop (scalar_value p) k).
Proof.
  intros (vu & Hvu & _). destruct p as [b|x|text]; cbn [scalar_value own_prop] in Hvu.
  - unfold inherits in Hvu. destruct (existsb _ _); discriminate.
  - unfold inherits in Hvu. destruct (existsb _ _); discriminate.
  - destruct (String.eqb k "length"); [discriminate|].
    destruct (array_index k) as [i|].
    + unfold char_at in Hvu. destruct (unit_at _ _) as [unit|]; [|discriminate].
      cbn [own_prop] in Hvu. discriminate.
    + unfold inherits in Hvu. destruct (existsb _ _); discriminate.
Qed.

Lemma load_scalar domain s p :
  cacheFile s = FileHolds (CScalar p) -> loadSignatureFromCache w domain s = (Val absent, s).
Proof.
  intros Hfile.
  rewrite (load_member domain s (CScalar p) (own_prop (scalar_value p) domain) Hfile).
  - now rewrite (answer_not_valid _ _ (scalar_member_not_valid s p domain)).
  - destruct p; reflexivity.
Qed.

(** What a read of an array finds under a key that is no index has no
    [validUntil]. *)
Lemma array_member_not_valid s items k :
  array_index k = None -> ~ validInFuture w s (own_prop (JArr items) k).
Proof.
  intros Hk (vu & Hvu & _). cbn [own_prop] in Hvu. rewrite Hk in Hvu.
  destruct (String.eqb k "length"); [discriminate|].
  unfold inherits in Hvu. destruct (existsb _ _); discriminate.
Qed.

Lemma array_member_index items k i :
  array_index k = Some i -> own_prop (JArr items) k = element_at items i.
Proof.
  intros Hk. cbn [own_prop]. rewrite Hk.
  destruct (String.eqb k "length") eqn:Hlength; [|reflexivity].
  apply String.eqb_eq in Hlength. subst k. discriminate.
Qed.

Lemma load_array domain s items :
  cacheFile s = FileHolds (CArray items) ->
  loadSignatureFromCache w domain s =
  (Val (match array_index domain with
        | Some i =>
            if truthy (element_at items i) then
              match own_prop (element_at items i) "validUntil" with
              | JStr validUntil =>
                  if negb (String.eqb validUntil "")
                     && (currentTime w s <? isoToTimestamp w validUntil)%float
                  then cachedTriple (element_at items i) else absent
              | _ => absent
              end
            else absent
        | None => absent
        end), s).
Proof.
  intros Hfile.
  rewrite (load_member domain s (CArray items) (own_prop (JArr items) domain) Hfile);
    [|reflexivity].
  destruct (array_index domain) as [i|] eqn:Hk.
  - rewrite (array_member_index _ _ _ Hk). reflexivity.
  - now rewrite (answer_not_valid _ _ (array_member_not_valid s items domain Hk)).
Qed.

(** [loadSignatureFromCache] always returns, and does not change the state. *)
Lemma load_total domain s :
  exists r, loadSignatureFromCache w domain s = (Val r, s).
Proof.
  destruct (cacheFile s) as [| |[m| |p|items]] eqn:Hfile.
  - eexists. now apply load_missing.
  - eexists. now apply load_corrupt.
  - destruct (m !! domain) as [entry|] eqn:Hentry.
    + eexists. apply (load_entry _ _ _ _ Hfile Hentry).
    + eexists. now apply (load_no_entry _ _ m).
  - eexists. now apply load_null.
  - eexists. now apply (load_scalar _ _ p).
  - eexists. now apply (load_array _ _ items).
Qed.

(** Whatever the file is, the answer depends on the entry it holds for
    the domain. *)
Lemma load_by_entry domain s :
  loadSignatureFromCache w domain s =
  (Val (match entryOf (cacheFile s) domain with
        | Some entry =>
            if truthy entry then
              match own_prop entry "validUntil" with
              | JStr validUntil =>
                  if negb (String.eqb validUntil "")
                     && (currentTime w s <? isoToTimestamp w validUntil)%float
                  then cachedTriple entry else absent
              | _ => absent
              end
            else absent
        | None => absent
        end), s).
Proof.
  destruct (cacheFile s) as [| |[m| |p|items]] eqn:Hfile; cbn -[lookup].
  - now apply load_missing.
  - now apply load_corrupt.
  - destruct (m !! domain) as [entry|] eqn:Hentry.
    + apply (load_entry _ _ _ _ Hfile Hentry).
    + now apply (load_no_entry _ _ m).
  - now apply load_null.
  - now apply (load_scalar _ _ p).
  - rewrite (load_array _ _ items Hfile). destruct (array_index domain); reflexivity.
Qed.

(** C3.  [loadSignatureFromCache] never raises and leaves the state alone.
    It answers absent when the cache file does not exist, when it cannot be
    read or parsed, when it has no entry for the domain, and when the
    entry's [validUntil] is not strictly after the current time; a file
    that parses to something other than a store ([null], a boolean, a
    number, a text, an array) is read in the same way, its entries being
    the elements of an array.  When it answers anything else, the file
    holds an entry for the domain whose [validUntil] is strictly after the
    current time, and the answer is that entry's signature, [validUntil]
    and overview data; unless the file is an array, it is then a store
    that has this entry under the domain. *)
Theorem load_absent_unless_valid :
  forall (domain : string) (s : State),
  exists r,
    loadSignatureFromCache w domain s = (Val r, s) /\
    (cacheFile s = FileMissing -> r = absent) /\
    (cacheFile s = FileCorrupt -> r = absent) /\
    (forall m, cacheFile s = FileStore m -> m !! domain = None -> r = absent) /\
    (forall m entry, cacheFile s = FileStore m -> m !! domain = Some entry ->
       ~ validInFuture w s entry -> r = absent) /\
    (entryOf (cacheFile s) domain = None -> r = absent) /\
    (forall entry, entryOf (cacheFile s) domain = Some entry ->
       ~ validInFuture w s entry -> r = absent) /\
    (r <> absent ->
     exists entry, entryOf (cacheFile s) domain = Some entry /\
       validInFuture w s entry /\ r = cachedTriple entry) /\
    ((forall items, cacheFile s <> FileHolds (CArray items)) ->
     r <> absent ->
     exists m entry,
       cacheFile s = FileStore m /\ m !! domain = Some entry /\
       validInFuture w s entry /\ r = cachedTriple entry).
Proof.
  intros domain s.
  assert (Hstore : forall m, cacheFile s = FileStore m ->
                             entryOf (cacheFile s) domain = m !! domain).
  { intros m ->. reflexivity. }
  assert (Hfound : forall entry,
            entryOf (cacheFile s) domain = Some entry ->
            (forall items, cacheFile s <> FileHolds (CArray items)) ->
            exists m, cacheFile s = FileStore m /\ m !! domain = Some entry).
  { intros entry Hsome Hnoarray.
    destruct (cacheFile s) as [| |[m| |p|items]]; try discriminate.
    - now exists m.
    - exfalso. now apply (Hnoarray items). }
  rewrite load_by_entry.
  destruct (entryOf (cacheFile s) domain) as [entry|] eqn:Hentry.
  - destruct (validInFuture_dec s entry) as [Hvalid|Hnot].
    + exists (cachedTriple entry). rewrite (answer_valid _ _ Hvalid).
      split; [reflexivity|]. repeat apply conj.
      * intros Hfile. rewrite Hfile in Hentry. discriminate.
      * intros Hfile. rewrite Hfile in Hentry. discriminate.
      * intros m Hfile Hnone. pose proof (Hstore m Hfile) as Hsame.
        rewrite Hnone in Hsame. discriminate.
      * intros m e Hfile Hsome Hnot'. pose proof (Hstore m Hfile) as Hsame.
        rewrite Hsome in Hsame. injection Hsame as <-. contradiction.
      * discriminate.
      * intros e He Hnot. assert (e = entry) by congruence. subst e. contradiction.
      * intros _. now exists entry.
      * intros Hnoarray _. destruct (Hfound entry eq_refl Hnoarray) as (m & Hfile & Hsome).
        now exists m, entry.
    + exists absent. rewrite (answer_not_valid _ _ Hnot).
      split; [reflexivity|]. repeat apply conj; try congruence; try reflexivity.
      all: intros; reflexivity.
  - exists absent. split; [reflexivity|].
    repeat apply conj; try congruence; try reflexivity.
    all: intros; reflexivity.
Qed.

Lemma save_computes signature validUntil overviewData domain s :
  saveSignatureToCache w signature validUntil overviewData domain s =
  match assign (startingContent s) domain
          (newEntry w s signature validUntil overviewData) with
  | Exc _ => (Val false, s)
  | Val content =>
      match fs_writeFileSync w (history s) with
      | Written =>
          (Val true,
           mkState (FileHolds (print_content content)) (history s ++ [EvWrite true]))
      | Refused => (Val false, after s (EvWrite false))
      | Truncated => (Val false, mkState FileCorrupt (history s ++ [EvWrite false]))
      end
  end.
Proof.
  unfold saveSignatureToCache, try_catch, bind, cache_exists, read_cache, ret, now_seconds,
    lift, write_cache, startingContent, newEntry, currentTime, after.
  destruct s as [file h]. cbn [cacheFile history].
  destruct file as [| |content]; cbn [cacheFile history];
    (destruct (assign _ domain _) as [content'|e]; [|reflexivity]);
    destruct (fs_writeFileSync w h); reflexivity.
Qed.

Lemma save_state signature validUntil overviewData domain s :
  exists ok,
    saveSignatureToCache w signature validUntil overviewData domain s =
    (Val ok, state_of (saveSignatureToCache w signature validUntil overviewData domain s)).
Proof.
  rewrite save_computes.
  destruct (assign _ _ _); [|eexists; reflexivity].
  destruct (fs_writeFileSync w (history s)); eexists; reflexivity.
Qed.

(** The assignment [cacheData[domain] = entry] on a store. *)
Lemma assign_keyed m domain entry :
  domain <> "__proto__" \/ is_Some (m !! domain) ->
  assign (CStore m) domain entry = Val (CStore (<[domain := entry]> m)).
Proof.
  intros Hkey. unfold assign.
  destruct (String.eqb domain "__proto__") eqn:Hproto; [|reflexivity].
  apply String.eqb_eq in Hproto. destruct Hkey as [Hne | Hsome]; [contradiction|].
  rewrite bool_decide_eq_true_2 by exact Hsome. reflexivity.
Qed.

Lemma assign_proto m entry :
  m !! "__proto__" = None -> assign (CStore m) "__proto__" entry = Val (CStore m).
Proof.
  intros Hnone. unfold assign. cbn [String.eqb Ascii.eqb Bool.eqb andb].
  rewrite bool_decide_eq_false_2; [reflexivity|].
  rewrite Hnone. intros [v Hv]. discriminate.
Qed.

Lemma startingContent_store s :
  storeFile s -> startingContent s = CStore (readableStore s).
Proof.
  unfold startingContent, readableStore.
  intros [-> | [-> | [previous ->]]]; reflexivity.
Qed.

(** The cache files on which the key ["__proto__"] reaches the inherited
    setter: missing, unreadable, or a store without an own property of
    that name. *)
Lemma save_proto signature validUntil overviewData s :
  cacheFile s = FileMissing \/ cacheFile s = FileCorrupt \/
  (exists previous, cacheFile s = FileStore previous /\ previous !! "__proto__" = None) ->
  fs_writeFileSync w (history s) = Written ->
  saveSignatureToCache w signature validUntil overviewData "__proto__" s
  = (Val true,
     mkState (FileStore (omap print_value (readableStore s))) (history s ++ [EvWrite true]))
  /\ omap print_value (readableStore s) !! "__proto__" = None.
Proof.
  intros Hfile Hwrite.
  assert (Hnone : readableStore s !! "__proto__" = None).
  { unfold readableStore.
    destruct Hfile as [-> | [-> | (previous & -> & Hnone)]];
      [apply lookup_empty | apply lookup_empty | exact Hnone]. }
  assert (Hstore : storeFile s).
  { destruct Hfile as [H | [H | (previous & H & _)]];
      [left | right; left | right; right; exists previous]; exact H. }
  rewrite save_computes, (startingContent_store _ Hstore), (assign_proto _ _ Hnone), Hwrite.
  split; [reflexivity|].
  rewrite lookup_omap, Hnone. reflexivity.
Qed.

(** C9.  The entry for the domain ["__proto__"] is lost.  On a cache file
    that is missing, unreadable, or a store without an own property of
    that name, [saveSignatureToCache] for the domain ["__proto__"] writes
    the file and returns [true], but the store written is the previous
    one as [JSON.stringify] prints it: it has no entry for the domain.
    The assignment [cacheData[domain] = ...] has set the prototype of
    [cacheData] instead of a property. *)
Theorem save_reports_success_but_stores_nothing_for_proto :
  forall (signature validUntil overviewData : JsValue) (s : State),
    cacheFile s = FileMissing \/ cacheFile s = FileCorrupt \/
    (exists previous, cacheFile s = FileStore previous /\ previous !! "__proto__" = None) ->
    fs_writeFileSync w (history s) = Written ->
    exists written : gmap string JsValue,
      saveSignatureToCache w signature validUntil overviewData "__proto__" s
      = (Val true, mkState (FileStore written) (history s ++ [EvWrite true])) /\
      written = omap print_value (readableStore s) /\
      written !! "__proto__" = None.
Proof.
  intros signature validUntil overviewData s Hfile Hwrite.
  destruct (save_proto signature validUntil overviewData s Hfile Hwrite) as [Hrun Hnone].
  exists (omap print_value (readableStore s)).
  split; [exact Hrun|]. split; [reflexivity | exact Hnone].
Qed.

End CacheProperties.

(** ** The challenge solver client *)

Section SolverProperties.

Variable w : World.

(** C5.  With no API key configured (both sources unset or empty),
    [getCapsolverToken] returns [null] at once: it does not raise, and the
    state, with its record of requests and waits, is exactly as before. *)
Theorem solve_without_key_is_absent :
  forall (siteUrl : string) (s : State),
    truthy (config_CAPSOLVER_API_KEY w) = false ->
    truthy (env_CAPSOLVER_API_KEY w) = false ->
    getCapsolverToken w siteUrl s = (Val JNull, s).
Proof.
  intros siteUrl s Hconfig Henv.
  unfold getCapsolverToken, js_or. rewrite Hconfig, Henv. reflexivity.
Qed.

(** One round of [pollTask] whose answer is [Response status data]. *)
Lemma pollTask_step apiKey taskId n s status data :
  axios w (history s ++ [EvSleep 1000]) (getTaskRequest apiKey taskId) = Response status data ->
  pollTask w apiKey taskId (S n) s =
  let s' := mkState (cacheFile s)
              (history s ++ [EvSleep 1000; EvHttp (getTaskRequest apiKey taskId)]) in
  if js_is (js_get_opt data "status") "ready" then
    (Val (js_get_opt (js_get_opt data "solution") "token"), s')
  else if js_is (js_get_opt data "status") "failed" || truthy (js_get_opt data "errorId") then
    (Val JNull, s')
  else pollTask w apiKey taskId n s'.
Proof.
  intros Hanswer.
  cbn [pollTask]. unfold bind at 1. unfold sleep, log_event.
  unfold bind at 1. unfold request. cbn [history cacheFile]. rewrite Hanswer.
  cbn [snd]. rewrite <- app_assoc. cbn [app].
  destruct (js_is (js_get_opt data "status") "ready"); [reflexivity|].
  destruct (js_is (js_get_opt data "status") "failed" || truthy (js_get_opt data "errorId"));
    reflexivity.
Qed.

(** One round of [pollTask] whose request is rejected. *)
Lemma pollTask_rejected apiKey taskId n s :
  axios w (history s ++ [EvSleep 1000]) (getTaskRequest apiKey taskId) = Rejected ->
  pollTask w apiKey taskId (S n) s =
  (Exc NetworkError,
   mkState (cacheFile s) (history s ++ [EvSleep 1000; EvHttp (getTaskRequest apiKey taskId)])).
Proof.
  intros Hanswer.
  cbn [pollTask]. unfold bind at 1. unfold sleep, log_event.
  unfold bind at 1. unfold request. cbn [history cacheFile]. rewrite Hanswer.
  rewrite <- app_assoc. reflexivity.
Qed.

Lemma pollTask_pending apiKey taskId n : forall s,
  (forall k, (k < n)%nat ->
     pendingAnswer (axios w (history s ++ pollEvents apiKey taskId k ++ [EvSleep 1000])
                          (getTaskRequest apiKey taskId))) ->
  pollTask w apiKey taskId n s =
  (Val JNull, mkState (cacheFile s) (history s ++ pollEvents apiKey taskId n)).
Proof.
  induction n as [|n IH]; intros s Hall.
  - cbn. rewrite app_nil_r. destruct s; reflexivity.
  - destruct (Hall 0%nat) as (status & data & Hanswer & Hready & Hfailed & Herror); [lia|].
    cbn [pollEvents app] in Hanswer.
    rewrite (pollTask_step _ _ _ _ _ _ Hanswer). cbv zeta.
    rewrite Hready, Hfailed, Herror. cbn [orb].
    rewrite IH.
    + cbn [cacheFile history pollEvents]. rewrite <- app_assoc. reflexivity.
    + intros k Hk. cbn [history]. specialize (Hall (S k)).
      cbn [pollEvents] in Hall. rewrite <- app_assoc. cbn [app]. apply Hall. lia.
Qed.

Lemma pollTask_failed apiKey taskId : forall n k s,
  (k < n)%nat ->
  (forall j, (j < k)%nat ->
     pendingAnswer (axios w (history s ++ pollEvents apiKey taskId j ++ [EvSleep 1000])
                          (getTaskRequest apiKey taskId))) ->
  failedAnswer (axios w (history s ++ pollEvents apiKey taskId k ++ [EvSleep 1000])
                      (getTaskRequest apiKey taskId)) ->
  pollTask w apiKey taskId n s =
  (Val JNull, mkState (cacheFile s) (history s ++ pollEvents apiKey taskId (S k))).
Proof.
  induction n as [|n IH]; intros k s Hk Hbefore Hfail; [lia|].
  destruct k as [|k].
  - destruct Hfail as (status & data & Hanswer & Hready & Hbad).
    cbn [pollEvents app] in Hanswer.
    rewrite (pollTask_step _ _ _ _ _ _ Hanswer). cbv zeta. rewrite Hready.
    replace (js_is (js_get_opt data "status") "failed" || truthy (js_get_opt data "errorId"))
      with true; [reflexivity|].
    symmetry. apply orb_true_iff. exact Hbad.
  - destruct (Hbefore 0%nat) as (status & data & Hanswer & Hready & Hfailed & Herror); [lia|].
    cbn [pollEvents app] in Hanswer.
    rewrite (pollTask_step _ _ _ _ _ _ Hanswer). cbv zeta.
    rewrite Hready, Hfailed, Herror. cbn [orb].
    rewrite (IH k).
    + cbn [cacheFile history]. rewrite <- app_assoc. reflexivity.
    + lia.
    + intros j Hj. cbn [history]. specialize (Hbefore (S j)).
      cbn [pollEvents] in Hbefore. rewrite <- app_assoc. cbn [app]. apply Hbefore. lia.
    + cbn [history]. cbn [pollEvents] in Hfail. rewrite <- app_assoc. cbn [app]. exact Hfail.
Qed.

(** Polling creates no task, mints nothing and leaves the cache file
    alone, however the polls are answered. *)
Lemma pollTask_quiet apiKey taskId n : forall s,
  exists r h,
    pollTask w apiKey taskId n s = (r, mkState (cacheFile s) (history s ++ h)) /\
    solveCount h = 0%nat /\ mintCount h = 0%nat.
Proof.
  induction n as [|n IH]; intros s.
  - exists (Val JNull), []. cbn. rewrite app_nil_r. destruct s. auto.
  - destruct (axios w (history s ++ [EvSleep 1000]) (getTaskRequest apiKey taskId))
      as [|status data] eqn:Hanswer.
    + rewrite (pollTask_rejected _ _ _ _ Hanswer). eexists _, _. split; [reflexivity|].
      split; reflexivity.
    + rewrite (pollTask_step _ _ _ _ _ _ Hanswer). cbv zeta.
      destruct (js_is (js_get_opt data "status") "ready").
      { eexists _, _. split; [reflexivity|]. split; reflexivity. }
      destruct (js_is (js_get_opt data "status") "failed" || truthy (js_get_opt data "errorId")).
      { eexists _, _. split; [reflexivity|]. split; reflexivity. }
      destruct (IH (mkState (cacheFile s)
                      (history s ++ [EvSleep 1000; EvHttp (getTaskRequest apiKey taskId)])))
        as (r & h & Hrun & Hsolve & Hmint).
      rewrite Hrun. cbn [cacheFile history].
      exists r, ([EvSleep 1000; EvHttp (getTaskRequest apiKey taskId)] ++ h).
      rewrite app_assoc. split; [reflexivity|].
      unfold solveCount, mintCount in *. rewrite !List.filter_app, !length_app, Hsolve, Hmint.
      split; reflexivity.
Qed.

(** What [getCapsolverToken] does once a task was created. *)
Lemma solve_created siteUrl s status data :
  truthy (configuredKey w) = true ->
  axios w (history s) (createTaskRequest (configuredKey w) siteUrl) = Response status data ->
  truthy (js_get_opt data "taskId") = true ->
  getCapsolverToken w siteUrl s =
  try_catch
    (pollTask w (configuredKey w) (js_get_opt data "taskId") maxAttempts)
    (fun _ => ret JNull)
    (after s (EvHttp (createTaskRequest (configuredKey w) siteUrl))).
Proof.
  intros Hkey Hcreate Htask.
  unfold getCapsolverToken. fold (configuredKey w). rewrite Hkey. cbn [negb].
  unfold try_catch, bind at 1. unfold request. rewrite Hcreate. cbn [snd].
  rewrite Htask. reflexivity.
Qed.

(** A token comes out of exactly one solve: [getCapsolverToken] never
    raises and never touches the cache file; when it returns something
    truthy it has created one task, polled, and minted nothing. *)
Lemma solve_history siteUrl s :
  exists token h,
    getCapsolverToken w siteUrl s = (Val token, mkState (cacheFile s) (history s ++ h)) /\
    mintCount h = 0%nat /\
    (truthy token = true -> solveCount h = 1%nat).
Proof.
  unfold getCapsolverToken. fold (configuredKey w).
  destruct (truthy (configuredKey w)) eqn:Hkey; cbn [negb].
  2:{ exists JNull, []. rewrite app_nil_r. destruct s. repeat split. discriminate. }
  unfold try_catch, bind at 1. unfold request.
  destruct (axios w (history s) (createTaskRequest (configuredKey w) siteUrl))
    as [|status data] eqn:Hcreate.
  { eexists JNull, _. split; [reflexivity|]. split; [reflexivity | discriminate]. }
  cbn [snd]. destruct (truthy (js_get_opt data "taskId")) eqn:Htask; cbn [negb].
  2:{ eexists JNull, _. split; [reflexivity|]. split; [reflexivity | discriminate]. }
  destruct (pollTask_quiet (configuredKey w) (js_get_opt data "taskId") maxAttempts
              (mkState (cacheFile s)
                 (history s ++ [EvHttp (createTaskRequest (configuredKey w) siteUrl)])))
    as (r & h & Hrun & Hsolve & Hmint).
  rewrite Hrun. cbn [cacheFile history]. rewrite <- app_assoc.
  assert (Hcount : solveCount ([EvHttp (createTaskRequest (configuredKey w) siteUrl)] ++ h)
                   = 1%nat /\
                   mintCount ([EvHttp (createTaskRequest (configuredKey w) siteUrl)] ++ h)
                   = 0%nat).
  { unfold solveCount, mintCount in *. rewrite !List.filter_app, !length_app, Hsolve, Hmint.
    split; reflexivity. }
  destruct Hcount as [H1 H0].
  destruct r as [token|e].
  - eexists token, _. split; [reflexivity|]. split; [exact H0 | intros _; exact H1].
  - eexists JNull, _. split; [reflexivity|]. split; [exact H0 | discriminate].
Qed.

(** With a key the solver is asked once, whatever comes of it. *)
Lemma solve_with_key siteUrl s :
  truthy (configuredKey w) = true ->
  exists token h,
    getCapsolverToken w siteUrl s = (Val token, mkState (cacheFile s) (history s ++ h)) /\
    solveCount h = 1%nat /\ mintCount h = 0%nat.
Proof.
  intros Hkey. unfold getCapsolverToken. fold (configuredKey w). rewrite Hkey. cbn [negb].
  unfold try_catch, bind at 1. unfold request.
  destruct (axios w (history s) (createTaskRequest (configuredKey w) siteUrl))
    as [|status data] eqn:Hcreate.
  { eexists JNull, _. split; [reflexivity|]. split; reflexivity. }
  cbn [snd]. destruct (truthy (js_get_opt data "taskId")) eqn:Htask; cbn [negb].
  2:{ eexists JNull, _. split; [reflexivity|]. split; reflexivity. }
  destruct (pollTask_quiet (configuredKey w) (js_get_opt data "taskId") maxAttempts
              (mkState (cacheFile s)
                 (history s ++ [EvHttp (createTaskRequest (configuredKey w) siteUrl)])))
    as (r & h & Hrun & Hsolve & Hmint).
  rewrite Hrun. cbn [cacheFile history]. rewrite <- app_assoc.
  assert (Hcount : solveCount ([EvHttp (createTaskRequest (configuredKey w) siteUrl)] ++ h)
                   = 1%nat /\
                   mintCount ([EvHttp (createTaskRequest (configuredKey w) siteUrl)] ++ h)
                   = 0%nat).
  { unfold solveCount, mintCount in *. rewrite !List.filter_app, !length_app, Hsolve, Hmint.
    split; reflexivity. }
  destruct r as [token|e].
  - eexists token, _. split; [reflexivity | exact Hcount].
  - eexists JNull, _. split; [reflexivity | exact Hcount].
Qed.

(** C4.  Assume a key is configured and task creation returned a task
    identifier.  If each of the 30 polls is answered with a status that is
    neither ["ready"] nor ["failed"] and without an [errorId], then
    [getCapsolverToken] returns [null] after exactly 30 rounds, each a wait
    of 1000 ms followed by one poll, and does nothing else.  If instead the
    polls before poll [k] (with [k < 30]) went on and poll [k] reports
    failure, [getCapsolverToken] returns [null] right after that poll: the
    record ends with it. *)
Theorem solve_polls_thirty_times_or_stops_at_failure :
  forall (siteUrl : string) (s : State) (status : Z) (data : JsValue),
    truthy (configuredKey w) = true ->
    axios w (history s) (createTaskRequest (configuredKey w) siteUrl) = Response status data ->
    truthy (js_get_opt data "taskId") = true ->
    let taskId := js_get_opt data "taskId" in
    ((forall k, (k < 30)%nat -> pendingAnswer (pollAnswer w s siteUrl taskId k)) ->
     getCapsolverToken w siteUrl s =
     (Val JNull, mkState (cacheFile s) (historyAfterPolls w s siteUrl taskId 30)))
    /\
    (forall k, (k < 30)%nat ->
       (forall j, (j < k)%nat -> pendingAnswer (pollAnswer w s siteUrl taskId j)) ->
       failedAnswer (pollAnswer w s siteUrl taskId k) ->
       getCapsolverToken w siteUrl s =
       (Val JNull, mkState (cacheFile s) (historyAfterPolls w s siteUrl taskId (S k)))).
Proof.
  intros siteUrl s status data Hkey Hcreate Htask taskId.
  assert (Hshape : forall n,
    (history (after s (EvHttp (createTaskRequest (configuredKey w) siteUrl)))
       ++ pollEvents (configuredKey w) taskId n)
    = historyAfterPolls w s siteUrl taskId n).
  { intros n. unfold historyAfterPolls, after. cbn [history].
    rewrite <- app_assoc. reflexivity. }
  split.
  - intros Hall. rewrite (solve_created _ _ _ _ Hkey Hcreate Htask).
    fold taskId. unfold try_catch, maxAttempts.
    rewrite pollTask_pending.
    + rewrite Hshape. reflexivity.
    + intros k Hk. rewrite app_assoc, Hshape. apply Hall. exact Hk.
  - intros k Hk Hbefore Hfail. rewrite (solve_created _ _ _ _ Hkey Hcreate Htask).
    fold taskId. unfold try_catch, maxAttempts.
    rewrite (pollTask_failed _ _ 30%nat k).
    + rewrite Hshape. reflexivity.
    + exact Hk.
    + intros j Hj. rewrite app_assoc, Hshape. apply Hbefore. exact Hj.
    + rewrite app_assoc, Hshape. exact Hfail.
Qed.

End SolverProperties.

(** ** The signature exchange client *)

Section MintProperties.

Variable w : World.

Lemma mint_computes token domain s :
  getSignatureAndOverview w token domain s =
  let s1 := after s (EvHttp (overviewRequest token domain)) in
  match axios w (history s) (overviewRequest token domain) with
  | Rejected => (Val absent, s1)
  | Response status data =>
      if status =? 200 then
        match credentialOf data with
        | Some (signature, validUntil, overviewData) =>
            (Val (signature, validUntil, overviewData),
             state_of (saveSignatureToCache w signature validUntil overviewData domain s1))
        | None => (Val absent, s1)
        end
      else (Val absent, s1)
  end.
Proof.
  unfold getSignatureAndOverview, try_catch, bind at 1. unfold request.
  destruct (axios w (history s) (overviewRequest token domain)) as [|status data];
    [reflexivity|].
  cbv zeta. fold (after s (EvHttp (overviewRequest token domain))).
  destruct (status =? 200); cbn [negb]; [|reflexivity].
  destruct data as [| |b|x|str|items|fs|fn]; try reflexivity.
  destruct items as [|tag [|second rest]]; try reflexivity.
  cbn [isArray array_length length andb Nat.ltb Nat.leb own_index nth credentialOf].
  destruct (truthy _ && truthy _); [|reflexivity].
  unfold bind.
  destruct (save_state w
              (js_get_opt (js_get_opt second "signedInput") "signature")
              (js_get_opt (js_get_opt (js_get_opt second "signedInput") "input") "validUntil")
              (js_get_opt second "data") domain
              (after s (EvHttp (overviewRequest token domain)))) as [ok ->].
  reflexivity.
Qed.

(** C2, as amended.  [getSignatureAndOverview] never raises.  It returns a
    credential exactly when the platform answers with status 200 and a body
    that carries one ([credentialOf]); it has then called
    [saveSignatureToCache] with that credential before returning, and the
    state is the one that call left.  In every other case (request
    rejected, status other than 200, body without a credential) it returns
    absent and has only made the request. *)
Theorem mint_returns_credential_iff_status_200_and_shape :
  forall (token : JsValue) (domain : string) (s : State),
  exists r s',
    getSignatureAndOverview w token domain s = (Val r, s') /\
    (forall data signature validUntil overviewData,
       axios w (history s) (overviewRequest token domain) = Response 200 data ->
       credentialOf data = Some (signature, validUntil, overviewData) ->
       r = (signature, validUntil, overviewData) /\
       s' = state_of (saveSignatureToCache w signature validUntil overviewData domain
                        (afterOverview token domain s))) /\
    (axios w (history s) (overviewRequest token domain) = Rejected ->
       r = absent /\ s' = afterOverview token domain s) /\
    (forall status data,
       axios w (history s) (overviewRequest token domain) = Response status data ->
       status <> 200 \/ credentialOf data = None ->
       r = absent /\ s' = afterOverview token domain s) /\
    (r <> absent <->
     exists data,
       axios w (history s) (overviewRequest token domain) = Response 200 data /\
       credentialOf data = Some r).
Proof.
  intros token domain s. rewrite mint_computes. cbv zeta. unfold afterOverview.
  destruct (axios w (history s) (overviewRequest token domain)) as [|status data] eqn:Hanswer.
  - eexists _, _. split; [reflexivity|].
    split; [|split; [|split; [|split]]].
    + intros; discriminate.
    + intros _. split; reflexivity.
    + intros; discriminate.
    + intros H. contradiction.
    + intros (data & Hd & _). discriminate.
  - destruct (status =? 200) eqn:Hstatus.
    + apply Z.eqb_eq in Hstatus. subst status.
      destruct (credentialOf data) as [[[signature validUntil] overviewData]|] eqn:Hcred.
      * eexists _, _. split; [reflexivity|].
        split; [|split; [|split; [|split]]].
        -- intros d sg vu ov Hd Hc. injection Hd as <-. rewrite Hcred in Hc.
           injection Hc as <- <- <-. split; reflexivity.
        -- intros; discriminate.
        -- intros st d Hd [Hst | Hc]; injection Hd as <- <-; congruence.
        -- intros _. exists data. split; [reflexivity | exact Hcred].
        -- intros _ Heq. unfold credentialOf in Hcred.
           destruct data as [| |b|x|str|[|tag [|second rest]]|fs|fn]; try discriminate.
           destruct (truthy _ && truthy _) eqn:Ht; [|discriminate].
           injection Hcred as <- <- <-. unfold absent in Heq. injection Heq as Hsig _ _.
           rewrite Hsig in Ht. discriminate.
      * eexists _, _. split; [reflexivity|].
        split; [|split; [|split; [|split]]].
        -- intros d sg vu ov Hd Hc. injection Hd as <-. congruence.
        -- intros; discriminate.
        -- intros st d Hd _. split; reflexivity.
        -- intros H. contradiction.
        -- intros (d & Hd & Hc). injection Hd as <-. congruence.
    + apply Z.eqb_neq in Hstatus.
      eexists _, _. split; [reflexivity|].
      split; [|split; [|split; [|split]]].
      * intros d sg vu ov Hd Hc. injection Hd as Hst _. congruence.
      * intros; discriminate.
      * intros st d Hd _. split; reflexivity.
      * intros H. contradiction.
      * intros (d & Hd & Hc). injection Hd as Hst _. congruence.
Qed.

(** C10.  The credential minted for the domain ["__proto__"] is returned
    but not cached, whatever the tag of the response.  When the platform
    answers 200 with an array [tag :: second :: rest] whose second element
    carries a truthy [signedInput.signature] and
    [signedInput.input.validUntil], the cache file is missing, unreadable
    or a store without an own property ["__proto__"], and the write
    succeeds, [getSignatureAndOverview] returns the credential and has
    written the file; yet the file holds no entry for the domain, and
    [loadSignatureFromCache] answers absent right afterwards. *)
Theorem mint_returns_but_caches_nothing_for_proto :
  forall (token : JsValue) (s : State) (tag second : JsValue) (rest : list JsValue),
    let signature := js_get_opt (js_get_opt second "signedInput") "signature" in
    let validUntil :=
      js_get_opt (js_get_opt (js_get_opt second "signedInput") "input") "validUntil" in
    let overviewData := js_get_opt second "data" in
    let s1 := after s (EvHttp (overviewPost token "__proto__")) in
    axios w (history s) (overviewPost token "__proto__")
      = Response 200 (JArr (tag :: second :: rest)) ->
    truthy signature = true ->
    truthy validUntil = true ->
    cacheFile s = FileMissing \/ cacheFile s = FileCorrupt \/
    (exists previous, cacheFile s = FileStore previous /\ previous !! "__proto__" = None) ->
    fs_writeFileSync w (history s1) = Written ->
    exists s',
      getSignatureAndOverview w token "__proto__" s
        = (Val (signature, validUntil, overviewData), s') /\
      history s' = history s1 ++ [EvWrite true] /\
      entryOf (cacheFile s') "__proto__" = None /\
      loadSignatureFromCache w "__proto__" s' = (Val absent, s').
Proof.
  intros token s tag second rest signature validUntil overviewData s1
    Hanswer Hsig Hvu Hfile Hw.
  change (overviewPost token "__proto__") with (overviewRequest token "__proto__") in *.
  rewrite mint_computes, Hanswer. cbn [Z.eqb Pos.eqb credentialOf].
  fold signature validUntil overviewData. rewrite Hsig, Hvu. cbn [andb]. cbv zeta.
  change (after s (EvHttp (overviewRequest token "__proto__"))) with s1.
  destruct (save_proto w signature validUntil overviewData s1 Hfile Hw) as [Hrun Hnone].
  rewrite Hrun. cbn [state_of snd].
  eexists. split; [reflexivity|]. split; [reflexivity|].
  split; [exact Hnone|].
  now apply (load_no_entry w _ _ (omap print_value (readableStore s1))).
Qed.

End MintProperties.

(** ** Response normalisation *)

Lemma js_get_opt_defined v k :
  js_get_opt v k <> JUndefined -> js_get v k = Val (js_get_opt v k).
Proof.
  unfold js_get, js_get_opt. destruct (nullish v); [congruence | reflexivity].
Qed.

Lemma truthy_defined v : truthy v = true -> v <> JUndefined.
Proof. intros H ->. discriminate. Qed.

Lemma simplifyBacklink_record item :
  simplifyBacklink (JObj item) = Val (normalizedBacklink item).
Proof.
  unfold simplifyBacklink, normalizedBacklink. rewrite !js_get_record by reflexivity. cbn [rbind].
  rewrite !js_or_fieldOr. reflexivity.
Qed.

Lemma simplifyIdea_record label item :
  simplifyIdea label (JObj item) = Val (normalizedIdea label item).
Proof.
  unfold simplifyIdea, normalizedIdea. rewrite !js_get_record by reflexivity. cbn [rbind].
  rewrite !js_or_fieldOr. reflexivity.
Qed.

(** What [formatBacklinks] does when its guard holds. *)
Lemma formatBacklinks_payload tag second rest :
  truthy (js_get_opt (js_get_opt second "topBacklinks") "backlinks") = true ->
  formatBacklinks (JArr (tag :: second :: rest)) =
  array_map simplifyBacklink (js_get_opt (js_get_opt second "topBacklinks") "backlinks").
Proof.
  intros Hpayload. unfold formatBacklinks.
  cbn [truthy isArray array_length length own_index nth andb Nat.ltb Nat.leb js_index nullish].
  rewrite Hpayload. cbn [rbind].
  assert (Htop : js_get_opt second "topBacklinks" <> JUndefined).
  { intros Heq. rewrite Heq in Hpayload. discriminate. }
  rewrite (js_get_opt_defined _ _ Htop). cbn [rbind].
  rewrite (js_get_opt_defined _ _ (truthy_defined _ Hpayload)). reflexivity.
Qed.

(** C7.  [formatBacklinks] maps each record of the backlinks array to the
    seven fields [anchor], [domainRating], [title], [urlFrom], [urlTo],
    [edu], [gov], in the order received; a field the record lacks gets
    [''], [0] or [false] according to its type.  An input that is not an
    array of length greater than 1 with a [topBacklinks.backlinks] payload
    gives the empty list, without raising. *)
Theorem formatBacklinks_seven_fields_or_empty :
  (forall (tag second : JsValue) (rest : list JsValue) (items : list Fields),
     js_get_opt (js_get_opt second "topBacklinks") "backlinks" = JArr (map JObj items) ->
     formatBacklinks (JArr (tag :: second :: rest)) = Val (JArr (map normalizedBacklink items)))
  /\
  (forall (item : Fields) (k : string) (fallback : JsValue),
     has_field k item = false -> fieldOr item k fallback = fallback)
  /\
  (forall v : JsValue, ~ hasBacklinksPayload v -> formatBacklinks v = Val (JArr [])).
Proof.
  split; [|split].
  - intros tag second rest items Hpayload.
    rewrite formatBacklinks_payload; rewrite Hpayload; [|reflexivity].
    cbn [array_map].
    rewrite (map_result_records simplifyBacklink normalizedBacklink items simplifyBacklink_record).
    reflexivity.
  - intros item k fallback. apply fieldOr_missing.
  - intros v Hnone. unfold formatBacklinks.
    destruct v as [| |b|x|str|items|fs|fn]; try reflexivity.
    + cbn [truthy isArray andb]. destruct b; reflexivity.
    + cbn [truthy isArray andb]. destruct (negb _); reflexivity.
    + cbn [truthy isArray andb]. destruct (negb _); reflexivity.
    + destruct items as [|tag [|second rest]]; try reflexivity.
      cbn [truthy isArray array_length length own_index nth andb Nat.ltb Nat.leb].
      destruct (truthy (js_get_opt (js_get_opt second "topBacklinks") "backlinks")) eqn:Hp;
        [|reflexivity].
      exfalso. apply Hnone. now exists tag, second, rest.
Qed.

Lemma ideasOfGroup_results data group label items :
  groupResults data group items ->
  ideasOfGroup data group label = Val (map (normalizedIdea label) items).
Proof.
  unfold ideasOfGroup. intros [Hresults | [Hnone ->]].
  - assert (Htruthy : truthy (js_get_opt (js_get_opt data group) "results") = true)
      by now rewrite Hresults.
    rewrite Htruthy.
    assert (Hgroup : js_get_opt data group <> JUndefined).
    { intros Heq. rewrite Heq in Htruthy. discriminate. }
    rewrite (js_get_opt_defined _ _ Hgroup). cbn [rbind].
    rewrite (js_get_opt_defined _ _ (truthy_defined _ Htruthy)). cbn [rbind].
    rewrite Hresults. cbn [js_iter rbind].
    apply map_result_records. apply simplifyIdea_record.
  - rewrite Hnone. reflexivity.
Qed.

(** C8.  [formatKeywordIdeas] returns one list: the entries made from
    [allIdeas.results], labelled ['keyword ideas'], in the order received,
    followed by the entries made from [questionIdeas.results], labelled
    ['question ideas'], in the order received.  The value of an entry has
    the five fields [keyword], [country], [difficulty], [volume],
    [updatedAt]; a field the record lacks gets ['No keyword'], ['-'],
    ['Unknown'], ['Unknown'], ['-']. *)
Theorem formatKeywordIdeas_groups_in_order :
  (forall (tag data : JsValue) (rest : list JsValue) (keywordItems questionItems : list Fields),
     groupResults data "allIdeas" keywordItems ->
     groupResults data "questionIdeas" questionItems ->
     formatKeywordIdeas (JArr (tag :: data :: rest)) =
     Val (JArr (map (normalizedIdea "keyword ideas") keywordItems
                ++ map (normalizedIdea "question ideas") questionItems)))
  /\
  (forall (item : Fields) (k : string) (fallback : JsValue),
     has_field k item = false -> fieldOr item k fallback = fallback).
Proof.
  split.
  - intros tag data rest keywordItems questionItems Hkeyword Hquestion.
    unfold formatKeywordIdeas.
    cbn [truthy isArray array_length length negb orb Nat.ltb Nat.leb own_index nth].
    rewrite (ideasOfGroup_results _ _ _ _ Hkeyword),
            (ideasOfGroup_results _ _ _ _ Hquestion).
    reflexivity.
  - intros item k fallback. apply fieldOr_missing.
Qed.

Lemma notOkResponse_not_okTagged data : ~ okTagged data -> notOkResponse data = true.
Proof.
  intros Hnot. unfold notOkResponse.
  destruct data as [| |b|x|str|items|fs|fn]; try reflexivity.
  destruct items as [|tag [|second rest]]; try reflexivity.
  cbn [isArray array_length length negb orb Nat.ltb Nat.leb own_index nth].
  destruct (js_is tag "Ok") eqn:Htag; [|reflexivity].
  exfalso. apply Hnot. destruct tag; try discriminate.
  apply String.eqb_eq in Htag. subst. now exists second, rest.
Qed.

Section TaggedResponses.

Variable w : World.

(** C6.  When the body of the keyword-difficulty response, or of the
    traffic response, is not an array of length at least 2 whose first
    element is ["Ok"], the function raises an [McpError] that says the
    response format is invalid (type [API_ERROR], status 500); it does
    not return a result. *)
Theorem untagged_response_is_a_hard_error :
  forall data : JsValue, ~ okTagged data ->
  (forall (keyword country : string) (s s1 : State) (token : JsValue),
     getCapsolverToken w (keywordDifficultySiteUrl w keyword country) s = (Val token, s1) ->
     truthy token = true ->
     axios w (history s1) (keywordDifficultyRequest w token keyword country)
       = Response 200 data ->
     getKeywordDifficulty w keyword country s =
     (Exc (McpError ("Invalid response format from Ahrefs API for keyword: " +:+ keyword)
                    API_ERROR 500 None),
      after s1 (EvHttp (keywordDifficultyRequest w token keyword country))))
  /\
  (forall (domainOrUrl mode country : string) (s s1 : State) (token : JsValue),
     getCapsolverToken w (trafficSiteUrl domainOrUrl mode) s = (Val token, s1) ->
     truthy token = true ->
     axios w (history s1) (trafficRequest w token domainOrUrl mode country)
       = Response 200 data ->
     checkTraffic w domainOrUrl mode country s =
     (Exc (McpError ("Invalid response format from Ahrefs API for domain: " +:+ domainOrUrl)
                    API_ERROR 500 None),
      after s1 (EvHttp (trafficRequest w token domainOrUrl mode country)))).
Proof.
  intros data Hnot. pose proof (notOkResponse_not_okTagged data Hnot) as Hbad.
  split.
  - intros keyword country s s1 token Hsolve Htoken Hanswer.
    unfold getKeywordDifficulty, try_catch, bind at 1. cbv zeta. rewrite Hsolve, Htoken.
    cbn [negb]. unfold bind, request. rewrite Hanswer. cbn [Z.eqb Pos.eqb negb].
    rewrite Hbad. reflexivity.
  - intros domainOrUrl mode country s s1 token Hsolve Htoken Hanswer.
    unfold checkTraffic, try_catch, bind at 1. cbv zeta. rewrite Hsolve, Htoken.
    cbn [negb]. unfold bind, request. rewrite Hanswer. cbn [Z.eqb Pos.eqb negb].
    rewrite Hbad. reflexivity.
Qed.

End TaggedResponses.
(** ** The entries the service writes are credentials *)

Section StoreInvariant.

Variable w : World.

Lemma cacheEntry_isCredential signature validUntil overviewData timestamp :
  truthy signature = true -> truthy validUntil = true ->
  isCredential (cacheEntry signature validUntil overviewData timestamp).
Proof. intros Hsig Hvu. split; assumption. Qed.

(** Before the first write there is no store, hence nothing to check. *)
Lemma no_store_credentials s :
  cacheFile s = FileMissing \/ cacheFile s = FileCorrupt -> credentialStore s.
Proof. intros [H | H] m d e Hfile; congruence. Qed.

Lemma no_store_texts s :
  cacheFile s = FileMissing \/ cacheFile s = FileCorrupt -> textStore s.
Proof. intros [H | H] m d e Hfile; congruence. Qed.

Lemma textCredential_isCredential entry : textCredential entry -> isCredential entry.
Proof.
  intros (signature & validUntil & Hsig & Hs & Hvu & Hv).
  split; [rewrite Hsig | rewrite Hvu]; now apply truthy_JStr.
Qed.

Lemma textStore_credentialStore s : textStore s -> credentialStore s.
Proof.
  intros Hinv m d e Hfile Hentry.
  apply textCredential_isCredential. exact (Hinv m d e Hfile Hentry).
Qed.

Lemma print_value_record fs : print_value (JObj fs) = Some (JObj (print_fields fs)).
Proof.
  reflexivity.
Qed.

(** Printing keeps a field that is a text. *)
Lemma print_fields_text k fs text :
  lookup_field k fs = JStr text -> lookup_field k (print_fields fs) = JStr text.
Proof.
  induction fs as [|[k' item] fs IH]; [discriminate|].
  cbn [lookup_field print_fields].
  destruct (String.eqb k k') eqn:Hk.
  - intros ->. cbn [print_value lookup_field]. rewrite Hk. reflexivity.
  - intros Hrest. destruct (print_value item); [|exact (IH Hrest)].
    cbn [lookup_field]. rewrite Hk. exact (IH Hrest).
Qed.

(** Printing keeps a field unchanged when printing keeps its value. *)
Lemma print_fields_survivor k fs :
  has_field k fs = true -> survives (lookup_field k fs) ->
  lookup_field k (print_fields fs) = lookup_field k fs.
Proof.
  unfold survives.
  induction fs as [|[k' item] fs IH]; [discriminate|].
  cbn [has_field existsb fst lookup_field print_fields].
  destruct (String.eqb k k') eqn:Hk.
  - intros _ Hitem. rewrite Hitem. cbn [lookup_field]. rewrite Hk. reflexivity.
  - cbn [orb]. intros Hhas Hrest. destruct (print_value item); [|exact (IH Hhas Hrest)].
    cbn [lookup_field]. rewrite Hk. exact (IH Hhas Hrest).
Qed.

(** Only a record has a [signature] that is a text. *)
Lemma textCredential_record entry :
  textCredential entry ->
  exists fs signature validUntil,
    entry = JObj fs /\
    lookup_field "signature" fs = JStr signature /\ signature <> "" /\
    lookup_field "validUntil" fs = JStr validUntil /\ validUntil <> "".
Proof.
  intros (signature & validUntil & Hsig & Hs & Hvu & Hv).
  destruct entry as [| |b|x|str|items|fs|fn]; try discriminate.
  exists fs, signature, validUntil. split; [reflexivity|].
  rewrite own_prop_record in Hsig, Hvu by reflexivity. auto.
Qed.

Lemma record_textCredential fs signature validUntil :
  lookup_field "signature" fs = JStr signature -> signature <> "" ->
  lookup_field "validUntil" fs = JStr validUntil -> validUntil <> "" ->
  textCredential (JObj fs).
Proof.
  intros Hsig Hs Hvu Hv. exists signature, validUntil.
  rewrite !own_prop_record by reflexivity. auto.
Qed.

Lemma print_keeps_textCredential entry printed :
  textCredential entry -> print_value entry = Some printed -> textCredential printed.
Proof.
  intros Hentry Hprint.
  destruct (textCredential_record _ Hentry) as (fs & signature & validUntil & -> & Hsig & Hs & Hvu & Hv).
  rewrite print_value_record in Hprint. injection Hprint as <-.
  apply (record_textCredential _ signature validUntil); auto using print_fields_text.
Qed.

Lemma cacheEntry_textCredential signature validUntil overviewData timestamp :
  signature <> "" -> validUntil <> "" ->
  textCredential (cacheEntry (JStr signature) (JStr validUntil) overviewData timestamp).
Proof.
  intros Hs Hv. now apply (record_textCredential _ signature validUntil).
Qed.

(** Printing a store keeps its entries that are credentials. *)
Lemma print_store_texts (m : gmap string JsValue) :
  (forall d e, m !! d = Some e -> textCredential e) ->
  forall d e, omap print_value m !! d = Some e -> textCredential e.
Proof.
  intros Hinv d e. rewrite lookup_omap.
  destruct (m !! d) as [entry|] eqn:Hentry; [|discriminate].
  cbn. intros Hprint. exact (print_keeps_textCredential _ _ (Hinv d entry Hentry) Hprint).
Qed.

Lemma readableStore_texts s :
  textStore s -> forall d e, readableStore s !! d = Some e -> textCredential e.
Proof.
  intros Hinv d e. unfold readableStore.
  destruct (cacheFile s) as [| |[m| |p|items]] eqn:Hfile;
    try (rewrite lookup_empty; discriminate).
  exact (Hinv m d e Hfile).
Qed.

Lemma save_keeps_texts signature validUntil overviewData domain s :
  signature <> "" -> validUntil <> "" ->
  textStore s ->
  textStore (state_of (saveSignatureToCache w (JStr signature) (JStr validUntil)
                         overviewData domain s)).
Proof.
  intros Hs Hv Hinv. rewrite save_computes.
  destruct (assign (startingContent s) domain _) as [content|e] eqn:Hassign;
    [|exact Hinv].
  destruct (fs_writeFileSync w (history s)); cbn [state_of snd];
    [|exact Hinv|intros m d e Hfile; discriminate].
  intros m d e Hfile Hentry. cbn [cacheFile] in Hfile.
  unfold startingContent in Hassign.
  assert (Hstart : (exists m0, content = CStore m0 /\
                      forall d e, m0 !! d = Some e -> textCredential e) \/
                   exists items, content = CArray items).
  { destruct (cacheFile s) as [| |[m0| |p|items]] eqn:Hfile0; cbn [assign] in Hassign.
    - left. destruct (_ && _); injection Hassign as <-; eexists; split; try reflexivity.
      + intros d' e'. rewrite lookup_empty. discriminate.
      + intros d' e' He'. destruct (decide (d' = domain)) as [->|Hne].
        * rewrite lookup_insert_eq in He'. injection He' as <-.
          unfold newEntry. now apply cacheEntry_textCredential.
        * rewrite lookup_insert_ne, lookup_empty in He' by congruence. discriminate.
    - left. destruct (_ && _); injection Hassign as <-; eexists; split; try reflexivity.
      + intros d' e'. rewrite lookup_empty. discriminate.
      + intros d' e' He'. destruct (decide (d' = domain)) as [->|Hne].
        * rewrite lookup_insert_eq in He'. injection He' as <-.
          unfold newEntry. now apply cacheEntry_textCredential.
        * rewrite lookup_insert_ne, lookup_empty in He' by congruence. discriminate.
    - left. destruct (_ && _); injection Hassign as <-; eexists; split; try reflexivity.
      + intros d' e' He'. exact (Hinv m0 d' e' Hfile0 He').
      + intros d' e' He'. destruct (decide (d' = domain)) as [->|Hne].
        * rewrite lookup_insert_eq in He'. injection He' as <-.
          unfold newEntry. now apply cacheEntry_textCredential.
        * rewrite lookup_insert_ne in He' by congruence. exact (Hinv m0 d' e' Hfile0 He').
    - discriminate.
    - discriminate.
    - right. destruct (String.eqb domain "length"); [discriminate|].
      destruct (array_index domain); injection Hassign as <-; eexists; reflexivity. }
  destruct Hstart as [(m0 & -> & Hm0) | (items & ->)]; cbn [print_content] in Hfile.
  - injection Hfile as <-. exact (print_store_texts m0 Hm0 d e Hentry).
  - discriminate.
Qed.

Lemma credentialOf_truthy body signature validUntil overviewData :
  credentialOf body = Some (signature, validUntil, overviewData) ->
  truthy signature = true /\ truthy validUntil = true.
Proof.
  unfold credentialOf.
  destruct body as [| |b|x|str|[|tag [|second rest]]|fs|fn]; try discriminate.
  destruct (truthy _ && truthy _) eqn:Ht; [|discriminate].
  intros H. injection H as <- <- _. now apply andb_true_iff in Ht.
Qed.

(** What a text-minded peer puts in a credential. *)
Lemma credentialOf_texts h request status body signature validUntil overviewData :
  textPeer w ->
  axios w h request = Response status body ->
  credentialOf body = Some (signature, validUntil, overviewData) ->
  exists sig vu, signature = JStr sig /\ sig <> "" /\ validUntil = JStr vu /\ vu <> "".
Proof.
  intros Hpeer Hanswer Hcred.
  destruct (credentialOf_truthy _ _ _ _ Hcred) as [Hsig Hvu].
  assert (Hshape : exists tag second rest,
            body = JArr (tag :: second :: rest) /\
            signature = js_get_opt (js_get_opt second "signedInput") "signature" /\
            validUntil = js_get_opt (js_get_opt (js_get_opt second "signedInput") "input")
                           "validUntil" /\
            overviewData = js_get_opt second "data").
  { unfold credentialOf in Hcred.
    destruct body as [| |b|x|str|[|tag [|second rest]]|fs|fn]; try discriminate.
    destruct (truthy _ && truthy _); [|discriminate].
    injection Hcred as <- <- <-. exists tag, second, rest. auto. }
  destruct (Hpeer h request status body signature validUntil overviewData
              Hanswer Hshape Hsig Hvu) as [[sig ->] [vu ->]].
  exists sig, vu. repeat apply conj; try reflexivity; now apply truthy_JStr_inv.
Qed.

Lemma mint_keeps_texts token domain s :
  textPeer w -> textStore s ->
  textStore (state_of (getSignatureAndOverview w token domain s)).
Proof.
  intros Hpeer Hinv. rewrite mint_computes. cbv zeta.
  destruct (axios w (history s) (overviewRequest token domain)) as [|status data] eqn:Hanswer;
    [exact Hinv|].
  destruct (status =? 200); [|exact Hinv].
  destruct (credentialOf data) as [[[signature validUntil] overviewData]|] eqn:Hcred;
    [|exact Hinv].
  destruct (credentialOf_texts _ _ _ _ _ _ _ Hpeer Hanswer Hcred)
    as (sig & vu & -> & Hs & -> & Hv).
  cbn [state_of snd]. apply save_keeps_texts; assumption.
Qed.

(** [getSignatureAndOverview] always returns. *)
Lemma mint_total token domain s :
  exists r, getSignatureAndOverview w token domain s =
            (Val r, state_of (getSignatureAndOverview w token domain s)).
Proof.
  rewrite mint_computes. cbv zeta.
  destruct (axios w (history s) (overviewRequest token domain)) as [|status data];
    [eexists; reflexivity|].
  destruct (status =? 200); [|eexists; reflexivity].
  destruct (credentialOf data) as [[[signature validUntil] overviewData]|];
    eexists; reflexivity.
Qed.

(** The tail of [getBacklinks], from the list request on, leaves the cache
    file alone. *)
Lemma list_fetch_cache domain signature validUntil overviewData s :
  cacheFile
    (state_of
       (try_catch
          (bind (request w (backlinksListRequest signature validUntil domain))
             (fun response =>
                let '(status, data) := response in
                if negb (status =? 200) then
                  throw (McpError ("Failed to get backlinks for domain: " +:+ domain)
                                  API_ERROR status None)
                else
                  bind (lift (formatBacklinks data))
                    (fun backlinks =>
                       ret (JObj [("overview", overviewData); ("backlinks", backlinks)]))))
          (rethrow ("Failed to get backlinks for domain: " +:+ domain)) s))
  = cacheFile s.
Proof.
  unfold try_catch, bind at 1. unfold request.
  destruct (axios w (history s) (backlinksListRequest signature validUntil domain))
    as [|status data]; [reflexivity|].
  destruct (status =? 200); cbn [negb]; [|reflexivity].
  unfold bind, lift. destruct (formatBacklinks data); reflexivity.
Qed.

(** The tail of [getBacklinks], from the list request on, adds that
    request and nothing else. *)
Lemma list_fetch_history domain signature validUntil overviewData s :
  history
    (state_of
       (try_catch
          (bind (request w (backlinksListRequest signature validUntil domain))
             (fun response =>
                let '(status, data) := response in
                if negb (status =? 200) then
                  throw (McpError ("Failed to get backlinks for domain: " +:+ domain)
                                  API_ERROR status None)
                else
                  bind (lift (formatBacklinks data))
                    (fun backlinks =>
                       ret (JObj [("overview", overviewData); ("backlinks", backlinks)]))))
          (rethrow ("Failed to get backlinks for domain: " +:+ domain)) s))
  = history s ++ [EvHttp (backlinksListRequest signature validUntil domain)].
Proof.
  unfold try_catch, bind at 1. unfold request.
  destruct (axios w (history s) (backlinksListRequest signature validUntil domain))
    as [|status data]; [reflexivity|].
  destruct (status =? 200); cbn [negb]; [|reflexivity].
  unfold bind, lift. destruct (formatBacklinks data); reflexivity.
Qed.

(** [saveSignatureToCache] adds at most one write to the record. *)
Lemma save_history signature validUntil overviewData domain s :
  exists hw,
    history (state_of (saveSignatureToCache w signature validUntil overviewData domain s))
    = history s ++ hw /\
    (hw = [] \/ exists ok, hw = [EvWrite ok]).
Proof.
  rewrite save_computes.
  destruct (assign _ _ _); [|exists []; split; [symmetry; apply app_nil_r | now left]].
  destruct (fs_writeFileSync w (history s));
    [exists [EvWrite true]|exists [EvWrite false]|exists [EvWrite false]];
    (split; [reflexivity | right; eexists; reflexivity]).
Qed.

(** The signature exchange adds its request and at most one write. *)
Lemma mint_run token domain s :
  exists hw,
    history (state_of (getSignatureAndOverview w token domain s))
    = history s ++ EvHttp (overviewRequest token domain) :: hw /\
    (hw = [] \/ exists ok, hw = [EvWrite ok]).
Proof.
  rewrite mint_computes. cbv zeta. unfold after.
  destruct (axios w (history s) (overviewRequest token domain)) as [|status data];
    [exists []; split; [reflexivity | now left]|].
  destruct (status =? 200); [|exists []; split; [reflexivity | now left]].
  destruct (credentialOf data) as [[[signature validUntil] overviewData]|];
    [|exists []; split; [reflexivity | now left]].
  destruct (save_history signature validUntil overviewData domain
              (mkState (cacheFile s) (history s ++ [EvHttp (overviewRequest token domain)])))
    as (hw & Hhistory & Hhw).
  exists hw. split; [|exact Hhw].
  cbn [state_of snd]. cbn [state_of snd history] in Hhistory. rewrite Hhistory.
  rewrite <- app_assoc. reflexivity.
Qed.

(** With a peer that hands out texts, [getBacklinks] leaves in the cache
    file only entries whose signature and [validUntil] are non-empty
    texts. *)
Lemma getBacklinks_keeps_texts domain s :
  textPeer w -> textStore s -> textStore (state_of (getBacklinks w domain s)).
Proof.
  intros Hpeer Hinv.
  destruct (load_total w domain s) as [[[signature validUntil] overviewData] Hload].
  unfold getBacklinks. unfold try_catch, bind at 1. rewrite Hload. cbv zeta.
  destruct (negb (truthy signature) || negb (truthy validUntil)) eqn:Hmiss.
  - destruct (solve_history w (backlinksSiteUrl domain) s) as (token & h & Hsolve & _).
    unfold bind at 1. unfold bind at 1. rewrite Hsolve.
    destruct (truthy token); cbn [negb].
    + destruct (mint_total token domain (mkState (cacheFile s) (history s ++ h)))
        as [[[signature' validUntil'] overviewData'] Hmint].
      pose proof (mint_keeps_texts token domain
                    (mkState (cacheFile s) (history s ++ h)) Hpeer Hinv) as Hkept.
      unfold bind at 1. rewrite Hmint.
      set (sb := state_of (getSignatureAndOverview w token domain
                             (mkState (cacheFile s) (history s ++ h)))) in *.
      destruct (negb (truthy signature') || negb (truthy validUntil')).
      * exact Hkept.
      * unfold ret at 1.
        intros m d e Hfile Hentry. apply (Hkept m d e); [|exact Hentry].
        rewrite <- Hfile. symmetry.
        apply (list_fetch_cache domain signature' validUntil' overviewData' sb).
    + exact Hinv.
  - unfold bind at 1. unfold ret at 1.
    intros m d e Hfile Hentry. apply (Hinv m d e); [|exact Hentry].
    rewrite <- Hfile. symmetry.
    apply (list_fetch_cache domain signature validUntil overviewData s).
Qed.

End StoreInvariant.

(** ** The credential provider inside [getBacklinks] *)

Section ProviderProperties.

Variable w : World.

(** The list request, and what [getBacklinks] makes of its answer, once a
    credential is at hand. *)
Lemma getBacklinks_cached domain s signature validUntil overviewData :
  loadSignatureFromCache w domain s = (Val (signature, validUntil, overviewData), s) ->
  truthy signature = true -> truthy validUntil = true ->
  getBacklinks w domain s =
  (listOutcome domain overviewData
     (axios w (history s) (backlinksListRequest signature validUntil domain)),
   after s (EvHttp (backlinksListRequest signature validUntil domain))).
Proof.
  intros Hload Hsig Hvu.
  unfold getBacklinks, try_catch, bind at 1. rewrite Hload. cbv zeta.
  rewrite Hsig, Hvu. cbn [negb orb]. unfold bind at 1. unfold ret at 1.
  unfold bind at 1. unfold request. unfold listOutcome, backlinksFailure, after.
  destruct (axios w (history s) (backlinksListRequest signature validUntil domain))
    as [|status data]; [reflexivity|].
  destruct (status =? 200); cbn [negb]; [|reflexivity].
  unfold bind, lift. destruct (formatBacklinks data); reflexivity.
Qed.

(** The same after a cache miss, a solve and a mint. *)
Lemma getBacklinks_minted domain s token sa signature validUntil overviewData sb :
  loadSignatureFromCache w domain s = (Val absent, s) ->
  getCapsolverToken w (backlinksSiteUrl domain) s = (Val token, sa) ->
  truthy token = true ->
  getSignatureAndOverview w token domain sa = (Val (signature, validUntil, overviewData), sb) ->
  truthy signature = true -> truthy validUntil = true ->
  getBacklinks w domain s =
  (listOutcome domain overviewData
     (axios w (history sb) (backlinksListRequest signature validUntil domain)),
   after sb (EvHttp (backlinksListRequest signature validUntil domain))).
Proof.
  intros Hload Hsolve Htoken Hmint Hsig Hvu.
  unfold getBacklinks, try_catch, bind at 1. rewrite Hload. unfold absent. cbv zeta.
  cbn [truthy negb orb]. unfold bind at 1. unfold bind at 1. rewrite Hsolve, Htoken.
  cbn [negb]. unfold bind at 1. rewrite Hmint. rewrite Hsig, Hvu. cbn [negb orb].
  unfold ret at 1. unfold bind at 1. unfold request. unfold listOutcome, backlinksFailure, after.
  destruct (axios w (history sb) (backlinksListRequest signature validUntil domain))
    as [|status data]; [reflexivity|].
  destruct (status =? 200); cbn [negb]; [|reflexivity].
  unfold bind, lift. destruct (formatBacklinks data); reflexivity.
Qed.

Lemma count_snoc_list domain signature validUntil h :
  solveCount (h ++ [EvHttp (backlinksListRequest signature validUntil domain)]) = solveCount h /\
  mintCount (h ++ [EvHttp (backlinksListRequest signature validUntil domain)]) = mintCount h.
Proof.
  unfold solveCount, mintCount. rewrite !List.filter_app, !length_app. cbn. lia.
Qed.

(** A valid cached credential: [getBacklinks] only fetches the list. *)
Lemma cache_hit domain s store entry :
  cacheFile s = FileStore store ->
  store !! domain = Some entry ->
  truthy (own_prop entry "signature") = true ->
  validInFuture w s entry ->
  getBacklinks w domain s =
  (listOutcome domain (own_prop entry "overviewData")
     (axios w (history s)
        (backlinksListRequest (own_prop entry "signature") (own_prop entry "validUntil") domain)),
   after s (EvHttp (backlinksListRequest (own_prop entry "signature")
                                         (own_prop entry "validUntil") domain))).
Proof.
  intros Hfile Hentry Hsig Hvalid.
  apply getBacklinks_cached.
  - apply (load_valid w _ _ _ _ Hfile Hentry Hvalid).
  - exact Hsig.
  - destruct Hvalid as (vu & Hvu & Hne & _). rewrite Hvu. now apply truthy_JStr.
Qed.

(** What a call that finds nothing usable in the cache adds to the
    record: the events of the solver, then nothing, or the overview
    request, at most one write and at most the list request. *)
Lemma getBacklinks_miss_history domain s signature validUntil overviewData :
  loadSignatureFromCache w domain s = (Val (signature, validUntil, overviewData), s) ->
  negb (truthy signature) || negb (truthy validUntil) = true ->
  exists token hs tail,
    getCapsolverToken w (backlinksSiteUrl domain) s
      = (Val token, mkState (cacheFile s) (history s ++ hs)) /\
    history (state_of (getBacklinks w domain s)) = history s ++ hs ++ tail /\
    (tail = [] \/
     exists hw rest,
       truthy token = true /\
       tail = EvHttp (overviewRequest token domain) :: hw ++ rest /\
       (hw = [] \/ exists ok, hw = [EvWrite ok]) /\
       (rest = [] \/
        exists sig vu, rest = [EvHttp (backlinksListRequest sig vu domain)])).
Proof.
  intros Hload Hmiss.
  destruct (solve_history w (backlinksSiteUrl domain) s) as (token & hs & Hsolve & _).
  exists token, hs.
  unfold getBacklinks. unfold try_catch, bind at 1. rewrite Hload. cbv zeta. rewrite Hmiss.
  unfold bind at 1. unfold bind at 1. rewrite Hsolve.
  destruct (truthy token) eqn:Htoken; cbn [negb].
  - destruct (mint_total w token domain (mkState (cacheFile s) (history s ++ hs)))
      as [[[signature' validUntil'] overviewData'] Hminted].
    destruct (mint_run w token domain (mkState (cacheFile s) (history s ++ hs)))
      as (hw & Hhistory & Hhw).
    cbn [history] in Hhistory.
    unfold bind at 1. rewrite Hminted.
    set (sb := state_of (getSignatureAndOverview w token domain
                           (mkState (cacheFile s) (history s ++ hs)))) in *.
    destruct (negb (truthy signature') || negb (truthy validUntil')).
    + exists (EvHttp (overviewRequest token domain) :: hw ++ []).
      split; [reflexivity|]. split.
      * rewrite app_nil_r, <- app_assoc in *. exact Hhistory.
      * right. exists hw, []. repeat apply conj; auto.
    + unfold ret at 1.
      exists (EvHttp (overviewRequest token domain)
                :: hw ++ [EvHttp (backlinksListRequest signature' validUntil' domain)]).
      split; [reflexivity|]. split.
      * etransitivity;
          [apply (list_fetch_history w domain signature' validUntil' overviewData' sb)|].
        rewrite Hhistory, <- !app_assoc. reflexivity.
      * right. exists hw, [EvHttp (backlinksListRequest signature' validUntil' domain)].
        repeat apply conj; auto. right. now exists signature', validUntil'.
  - exists []. split; [reflexivity|]. split; [now rewrite app_nil_r | now left].
Qed.

(** After the solver, a call creates no further task. *)
Lemma miss_tail_counts token domain tail :
  (tail = [] \/
   exists hw rest,
     truthy token = true /\
     tail = EvHttp (overviewRequest token domain) :: hw ++ rest /\
     (hw = [] \/ exists ok, hw = [EvWrite ok]) /\
     (rest = [] \/
      exists sig vu, rest = [EvHttp (backlinksListRequest sig vu domain)])) ->
  solveCount tail = 0%nat /\ (mintCount tail <= 1)%nat.
Proof.
  intros [-> | (hw & rest & _ & -> & Hhw & Hrest)]; [split; [reflexivity | cbn; lia]|].
  destruct Hhw as [-> | [ok ->]]; destruct Hrest as [-> | (sig & vu & ->)];
    split; cbn; lia.
Qed.

(** A call that finds nothing usable in the cache, with a key for the
    solver, creates exactly one task. *)
Lemma getBacklinks_miss_solves domain s :
  loadSignatureFromCache w domain s = (Val absent, s) ->
  truthy (configuredKey w) = true ->
  solveCount (history (state_of (getBacklinks w domain s)))
  = (solveCount (history s) + 1)%nat.
Proof.
  intros Hload Hkey.
  destruct (getBacklinks_miss_history domain s JNull JNull JNull Hload eq_refl)
    as (token & hs & tail & Hsolve & Hhistory & Htail).
  destruct (solve_with_key w (backlinksSiteUrl domain) s Hkey) as (token' & hs' & Hrun & Hone & _).
  rewrite Hsolve in Hrun. injection Hrun as _ Hsame. apply app_inv_head in Hsame. subst hs'.
  destruct (miss_tail_counts _ _ _ Htail) as [Hzero _].
  rewrite Hhistory. unfold solveCount in *.
  rewrite !List.filter_app, !length_app, Hone, Hzero. lia.
Qed.

(** C1.  For the domain ["__proto__"] the second call is not served from
    the cache.  Take a cache file that is missing, unreadable or a store
    without an own property ["__proto__"], a key for the solver, and a
    first call that solves, mints a credential with a date as
    [validUntil] and writes the cache file successfully.  The file it
    leaves holds no entry for the domain, so a second call made right
    afterwards, before that [validUntil], finds nothing in the cache and
    creates a solver task again: two solves over the two calls, where one
    was to be expected. *)
Theorem second_call_for_proto_solves_again :
  forall (s0 sa : State) (token body signature overviewData : JsValue) (validUntil : string),
    cacheFile s0 = FileMissing \/ cacheFile s0 = FileCorrupt \/
    (exists previous, cacheFile s0 = FileStore previous /\ previous !! "__proto__" = None) ->
    truthy (configuredKey w) = true ->
    getCapsolverToken w (backlinksPage "__proto__") s0 = (Val token, sa) ->
    truthy token = true ->
    axios w (history sa) (overviewPost token "__proto__") = Response 200 body ->
    credentialOf body = Some (signature, JStr validUntil, overviewData) ->
    fs_writeFileSync w (history sa ++ [EvHttp (overviewPost token "__proto__")]) = Written ->
    let s1 := state_of (getBacklinks w "__proto__" s0) in
    (currentTime w s1 <? isoToTimestamp w validUntil)%float = true ->
    let s2 := state_of (getBacklinks w "__proto__" s1) in
    entryOf (cacheFile s1) "__proto__" = None /\
    loadSignatureFromCache w "__proto__" s1 = (Val absent, s1) /\
    solveCount (history s1) = (solveCount (history s0) + 1)%nat /\
    solveCount (history s2) = (solveCount (history s0) + 2)%nat.
Proof.
  intros s0 sa token body signature overviewData validUntil
    Hfile Hkey Hsolve Htoken Hanswer Hcred Hwrite s1 Hnow s2.
  change (overviewPost token "__proto__") with (overviewRequest token "__proto__") in *.
  change (backlinksPage "__proto__") with (backlinksSiteUrl "__proto__") in Hsolve.
  change (history sa ++ [EvHttp (overviewRequest token "__proto__")])
    with (history (afterOverview token "__proto__" sa)) in Hwrite.
  destruct (credentialOf_truthy _ _ _ _ Hcred) as [Hsig Hvu].
  assert (Hload : loadSignatureFromCache w "__proto__" s0 = (Val absent, s0)).
  { destruct Hfile as [H | [H | (previous & H & Hnone)]].
    - now apply load_missing.
    - now apply load_corrupt.
    - now apply (load_no_entry w _ _ previous). }
  (* the solve *)
  destruct (solve_history w (backlinksSiteUrl "__proto__") s0) as (token' & hs & Hrun & _).
  rewrite Hsolve in Hrun. injection Hrun as <- ->.
  assert (Hfile' : cacheFile (afterOverview token "__proto__"
                                (mkState (cacheFile s0) (history s0 ++ hs))) = FileMissing \/
                   cacheFile (afterOverview token "__proto__"
                                (mkState (cacheFile s0) (history s0 ++ hs))) = FileCorrupt \/
                   (exists previous,
                      cacheFile (afterOverview token "__proto__"
                                   (mkState (cacheFile s0) (history s0 ++ hs)))
                      = FileStore previous /\ previous !! "__proto__" = None))
    by exact Hfile.
  (* the mint and the save *)
  pose proof (mint_computes w token "__proto__"
                (mkState (cacheFile s0) (history s0 ++ hs))) as Hmint.
  cbv zeta in Hmint. rewrite Hanswer in Hmint. cbn [Z.eqb Pos.eqb] in Hmint.
  rewrite Hcred in Hmint.
  fold (afterOverview token "__proto__" (mkState (cacheFile s0) (history s0 ++ hs))) in Hmint.
  destruct (save_proto w signature (JStr validUntil) overviewData _ Hfile' Hwrite)
    as [Hsave Hnone].
  rewrite Hsave in Hmint. cbn [state_of snd] in Hmint.
  (* the first call *)
  pose proof (getBacklinks_minted _ _ _ _ _ _ _ _ Hload Hsolve Htoken Hmint Hsig Hvu)
    as Hfirst.
  assert (Hfile1 : cacheFile s1 =
                   FileStore (omap print_value
                                (readableStore
                                   (afterOverview token "__proto__"
                                      (mkState (cacheFile s0) (history s0 ++ hs)))))).
  { subst s1. rewrite Hfirst. reflexivity. }
  assert (Hload1 : loadSignatureFromCache w "__proto__" s1 = (Val absent, s1)).
  { now apply (load_no_entry w _ _ _ Hfile1). }
  assert (Hcount1 : solveCount (history s1) = (solveCount (history s0) + 1)%nat).
  { subst s1. now apply getBacklinks_miss_solves. }
  repeat apply conj.
  - rewrite Hfile1. exact Hnone.
  - exact Hload1.
  - exact Hcount1.
  - subst s2. rewrite (getBacklinks_miss_solves _ _ Hload1 Hkey). lia.
Qed.

End ProviderProperties.

(** * The statements at work

    Each statement above that has premises is applied here to one of the
    scenarios. *)

Module Witness.

Import Scenario.

Lemma warm_credentials : credentialStore warm.
Proof.
  intros m d e Hfile Hentry. injection Hfile as <-.
  destruct (decide (d = domain)) as [->|Hd].
  - rewrite lookup_insert_eq in Hentry. injection Hentry as <-. split; reflexivity.
  - rewrite lookup_insert_ne in Hentry by congruence.
    destruct (decide (d = "other.org")) as [->|Hd'].
    + rewrite lookup_insert_eq in Hentry. injection Hentry as <-. split; reflexivity.
    + rewrite lookup_insert_ne, lookup_empty in Hentry by congruence. discriminate.
Defined.

Lemma warm_texts : textStore warm.
Proof.
  intros m d e Hfile Hentry. injection Hfile as <-.
  destruct (decide (d = domain)) as [->|Hd].
  - rewrite lookup_insert_eq in Hentry. injection Hentry as <-.
    exists "sig-0", expiry. repeat apply conj; try reflexivity; discriminate.
  - rewrite lookup_insert_ne in Hentry by congruence.
    destruct (decide (d = "other.org")) as [->|Hd'].
    + rewrite lookup_insert_eq in Hentry. injection Hentry as <-.
      exists "sig-0", expired. repeat apply conj; try reflexivity; discriminate.
    + rewrite lookup_insert_ne, lookup_empty in Hentry by congruence. discriminate.
Defined.

(** C1 at work: two calls for ["__proto__"] starting from no cache, the
    second before the credential expires. *)
Lemma second_call_for_proto_witness :
  (currentTime working (state_of (getBacklinks working "__proto__" fresh))
     <? isoToTimestamp working expiry)%float = true
  /\
  cacheFile (state_of (getBacklinks working "__proto__" fresh)) = FileStore ∅
  /\
  solveCount (history (state_of (getBacklinks working "__proto__"
                                   (state_of (getBacklinks working "__proto__" fresh)))))
  = 2%nat
  /\
  mintCount (history (state_of (getBacklinks working "__proto__"
                                  (state_of (getBacklinks working "__proto__" fresh)))))
  = 2%nat.
Proof.
  assert (Hnow : (currentTime working (state_of (getBacklinks working "__proto__" fresh))
                    <? isoToTimestamp working expiry)%float = true)
    by (vm_compute; reflexivity).
  split; [exact Hnow|]. split; [vm_compute; reflexivity|]. split.
  - refine (proj2 (proj2 (proj2
             (second_call_for_proto_solves_again working fresh
                (state_of (getCapsolverToken working (backlinksSiteUrl "__proto__") fresh))
                token (overviewBody (JStr "Ok")) (JStr "sig-1") overviewData expiry
                (or_introl eq_refl) eq_refl eq_refl eq_refl _ eq_refl _ Hnow)))).
    + vm_compute. reflexivity.
    + vm_compute. reflexivity.
  - vm_compute. reflexivity.
Defined.

(** C3 at work: a missing file, an unreadable file, an expired entry, a
    valid entry. *)
Lemma load_witness :
  result_of (loadSignatureFromCache working domain fresh) = Val absent /\
  result_of (loadSignatureFromCache working domain corrupt) = Val absent /\
  result_of (loadSignatureFromCache working "other.org" warm) = Val absent /\
  result_of (loadSignatureFromCache working domain warm)
    = Val (JStr "sig-0", JStr expiry, JObj [("domainRating", JNum 40)]).
Proof.
  split; [|split; [|split]].
  - destruct (load_absent_unless_valid working domain fresh) as (r & Hrun & Hmissing & _).
    rewrite Hrun. cbn [result_of fst]. f_equal. apply Hmissing. reflexivity.
  - destruct (load_absent_unless_valid working domain corrupt) as (r & Hrun & _ & Hcorrupt & _).
    rewrite Hrun. cbn [result_of fst]. f_equal. apply Hcorrupt. reflexivity.
  - destruct (load_absent_unless_valid working "other.org" warm)
      as (r & Hrun & _ & _ & _ & Hexpired & _).
    rewrite Hrun. cbn [result_of fst]. f_equal.
    refine (Hexpired _ (entry expired) eq_refl _ _).
    + vm_compute. reflexivity.
    + intros (vu & Hvu & _ & Hlt). injection Hvu as <-. vm_compute in Hlt. discriminate.
  - vm_compute. reflexivity.
Defined.

(** C4 at work: a task that never completes, and one that fails at the
    third poll. *)
Lemma solve_polling_witness :
  getCapsolverToken stalled solverUrl fresh
    = (Val JNull, mkState FileMissing (historyAfterPolls stalled fresh solverUrl task 30))
  /\
  getCapsolverToken failing solverUrl fresh
    = (Val JNull, mkState FileMissing (historyAfterPolls failing fresh solverUrl task 3)).
Proof.
  split.
  - refine (proj1 (solve_polls_thirty_times_or_stops_at_failure stalled solverUrl fresh 200
                     (JObj [("taskId", task)]) eq_refl eq_refl eq_refl) _).
    intros k Hk. exists 200, processing. repeat split.
  - refine (proj2 (solve_polls_thirty_times_or_stops_at_failure failing solverUrl fresh 200
                     (JObj [("taskId", task)]) eq_refl eq_refl eq_refl) 2%nat _ _ _).
    + lia.
    + intros j Hj. exists 200, processing.
      destruct j as [|[|j]]; [repeat split | repeat split | lia].
    + exists 200, failed. split; [reflexivity|]. split; [reflexivity|]. left. reflexivity.
Defined.

(** C5 at work. *)
Lemma solve_without_key_witness :
  truthy (config_CAPSOLVER_API_KEY keyless) = false /\
  truthy (env_CAPSOLVER_API_KEY keyless) = false /\
  getCapsolverToken keyless solverUrl fresh = (Val JNull, fresh).
Proof.
  split; [reflexivity|]. split; [reflexivity|].
  apply solve_without_key_is_absent; reflexivity.
Defined.

(** C6 at work: a body tagged ["Error"]. *)
Lemma untagged_response_witness :
  result_of (getKeywordDifficulty working "seo tools" "us" fresh)
    = Exc (McpError "Invalid response format from Ahrefs API for keyword: seo tools"
                    API_ERROR 500 None)
  /\
  result_of (checkTraffic working domain "subdomains" "None" fresh)
    = Exc (McpError "Invalid response format from Ahrefs API for domain: example.com"
                    API_ERROR 500 None).
Proof.
  assert (Hnot : ~ okTagged notOkBody).
  { intros (second & rest & Heq). discriminate. }
  destruct (untagged_response_is_a_hard_error working notOkBody Hnot) as [Hkd Htraffic].
  split.
  - rewrite (Hkd "seo tools" "us" fresh
               (state_of (getCapsolverToken working
                            (keywordDifficultySiteUrl working "seo tools" "us") fresh))
               token eq_refl eq_refl eq_refl).
    reflexivity.
  - rewrite (Htraffic domain "subdomains" "None" fresh
               (state_of (getCapsolverToken working
                            (trafficSiteUrl domain "subdomains") fresh))
               token eq_refl eq_refl eq_refl).
    reflexivity.
Defined.

(** C7 at work: two records with fields left out, and a response without
    [topBacklinks]. *)
Lemma formatBacklinks_witness :
  formatBacklinks backlinksBody
    = Val (JArr [JObj [("anchor", JStr "home"); ("domainRating", JNum 71);
                       ("title", JStr ""); ("urlFrom", JStr ""); ("urlTo", JStr "");
                       ("edu", JBool true); ("gov", JBool false)];
                 JObj [("anchor", JStr ""); ("domainRating", JNum 0);
                       ("title", JStr "Blog"); ("urlFrom", JStr ""); ("urlTo", JStr "");
                       ("edu", JBool false); ("gov", JBool false)]])
  /\
  formatBacklinks (JArr [JStr "Ok"; JObj [("overview", JNull)]]) = Val (JArr []).
Proof.
  destruct formatBacklinks_seven_fields_or_empty as (Hitems & _ & Hnone).
  split.
  - exact (Hitems (JStr "Ok") backlinksData [] backlinkItems eq_refl).
  - apply Hnone. intros (tag & second & rest & Heq & Hpayload).
    injection Heq as <- <- <-. discriminate.
Defined.

(** C8 at work: the example of the specification. *)
Lemma formatKeywordIdeas_witness :
  formatKeywordIdeas keywordIdeasBody
    = Val (JArr [JObj [("label", JStr "keyword ideas");
                       ("value", JObj [("keyword", JStr "a"); ("country", JStr "-");
                                       ("difficulty", JStr "Unknown");
                                       ("volume", JStr "Unknown");
                                       ("updatedAt", JStr "-")])];
                 JObj [("label", JStr "question ideas");
                       ("value", JObj [("keyword", JStr "b"); ("country", JStr "-");
                                       ("difficulty", JStr "Unknown");
                                       ("volume", JStr "Unknown");
                                       ("updatedAt", JStr "-")])]]).
Proof.
  exact (proj1 formatKeywordIdeas_groups_in_order (JStr "Ok") keywordIdeasData []
           [[("keyword", JStr "a")]] [[("keyword", JStr "b")]]
           (or_introl eq_refl) (or_introl eq_refl)).
Defined.

(** C9 at work: a save for ["__proto__"] into the warm cache. *)
Lemma save_proto_witness :
  result_of (saveSignatureToCache working (JStr "sig-2") (JStr expiry) JNull
               "__proto__" warm) = Val true
  /\
  (exists written,
     cacheFile (state_of (saveSignatureToCache working (JStr "sig-2") (JStr expiry) JNull
                            "__proto__" warm)) = FileStore written /\
     written !! "__proto__" = None /\
     written !! domain = Some (entry expiry)).
Proof.
  destruct (save_reports_success_but_stores_nothing_for_proto working
              (JStr "sig-2") (JStr expiry) JNull warm)
    as (written & Hrun & Hwritten & Hnone).
  - right. right. eexists. split; [reflexivity|]. vm_compute. reflexivity.
  - reflexivity.
  - rewrite Hrun. cbn [result_of state_of fst snd cacheFile].
    split; [reflexivity|]. exists written.
    split; [reflexivity|]. split; [exact Hnone|].
    rewrite Hwritten. vm_compute. reflexivity.
Defined.

(** C10 at work: the overview response for ["__proto__"] is tagged
    ["Error"]. *)
Lemma mint_proto_witness :
  result_of (getSignatureAndOverview untagged token "__proto__" fresh)
    = Val (JStr "sig-1", JStr expiry, overviewData)
  /\
  entryOf (cacheFile (state_of (getSignatureAndOverview untagged token "__proto__" fresh)))
    "__proto__" = None
  /\
  result_of (loadSignatureFromCache untagged "__proto__"
               (state_of (getSignatureAndOverview untagged token "__proto__" fresh)))
    = Val absent.
Proof.
  destruct (mint_returns_but_caches_nothing_for_proto untagged token fresh (JStr "Error")
              signedOverview [] eq_refl eq_refl eq_refl (or_introl eq_refl) eq_refl)
    as (s' & Hrun & _ & Hentry & Hload).
  rewrite Hrun. cbn [result_of state_of fst snd].
  split; [reflexivity|]. split; [exact Hentry|].
  rewrite Hload. reflexivity.
Defined.

(** C2, as stated, fails here: the platform answers with status 201, a 2xx
    status, and a body that carries a credential, and
    [getSignatureAndOverview] returns absent without saving anything. *)
Lemma mint_absent_on_status_201 :
  axios created201 (history fresh) (overviewRequest token domain)
    = Response 201 (overviewBody (JStr "Ok"))
  /\
  (200 <= 201 < 300)
  /\
  credentialOf (overviewBody (JStr "Ok")) = Some (JStr "sig-1", JStr expiry, overviewData)
  /\
  getSignatureAndOverview created201 token domain fresh
    = (Val absent, afterOverview token domain fresh).
Proof.
  split; [reflexivity|]. split; [lia|]. split; [reflexivity|]. vm_compute. reflexivity.
Qed.

(** C2 as amended, at work: status 200 gives the credential and saves it;
    status 201 gives absent. *)
Lemma mint_witness :
  getSignatureAndOverview working token domain fresh
    = (Val (JStr "sig-1", JStr expiry, overviewData),
       state_of (saveSignatureToCache working (JStr "sig-1") (JStr expiry) overviewData domain
                   (afterOverview token domain fresh)))
  /\
  result_of (getSignatureAndOverview created201 token domain fresh) = Val absent.
Proof.
  split.
  - destruct (mint_returns_credential_iff_status_200_and_shape working token domain fresh)
      as (r & s' & Hrun & Hok & _).
    destruct (Hok (overviewBody (JStr "Ok")) (JStr "sig-1") (JStr expiry) overviewData
                eq_refl eq_refl) as [-> ->].
    exact Hrun.
  - destruct (mint_returns_credential_iff_status_200_and_shape created201 token domain fresh)
      as (r & s' & Hrun & _ & _ & Hother & _).
    assert (H201 : 201 <> 200) by lia.
    destruct (Hother 201 (overviewBody (JStr "Ok")) eq_refl (or_introl H201)) as [Habsent _].
    rewrite Hrun, Habsent. reflexivity.
Defined.

End Witness.

(** * Further properties of the service *)

(** ** The challenge solver client *)

Section MoreSolverProperties.

Variable w : World.

Lemma pollTask_ready apiKey taskId token : forall n k s,
  (k < n)%nat ->
  (forall j, (j < k)%nat ->
     pendingAnswer (axios w (history s ++ pollEvents apiKey taskId j ++ [EvSleep 1000])
                          (getTaskRequest apiKey taskId))) ->
  readyAnswer (axios w (history s ++ pollEvents apiKey taskId k ++ [EvSleep 1000])
                     (getTaskRequest apiKey taskId)) token ->
  pollTask w apiKey taskId n s =
  (Val token, mkState (cacheFile s) (history s ++ pollEvents apiKey taskId (S k))).
Proof.
  induction n as [|n IH]; intros k s Hk Hbefore Hready; [lia|].
  destruct k as [|k].
  - destruct Hready as (status & data & Hanswer & Hstatus & Htoken).
    cbn [pollEvents app] in Hanswer.
    rewrite (pollTask_step _ _ _ _ _ _ _ Hanswer). cbv zeta. rewrite Hstatus, Htoken.
    reflexivity.
  - destruct (Hbefore 0%nat) as (status & data & Hanswer & Hnotready & Hfailed & Herror); [lia|].
    cbn [pollEvents app] in Hanswer.
    rewrite (pollTask_step _ _ _ _ _ _ _ Hanswer). cbv zeta.
    rewrite Hnotready, Hfailed, Herror. cbn [orb].
    rewrite (IH k).
    + cbn [cacheFile history]. rewrite <- app_assoc. reflexivity.
    + lia.
    + intros j Hj. cbn [history]. specialize (Hbefore (S j)).
      cbn [pollEvents] in Hbefore. rewrite <- app_assoc. cbn [app]. apply Hbefore. lia.
    + cbn [history]. cbn [pollEvents] in Hready. rewrite <- app_assoc. cbn [app]. exact Hready.
Qed.

Lemma after_create_polls s siteUrl taskId n :
  history (after s (EvHttp (createTaskRequest (configuredKey w) siteUrl)))
    ++ pollEvents (configuredKey w) taskId n
  = historyAfterPolls w s siteUrl taskId n.
Proof. unfold historyAfterPolls, after. cbn [history]. rewrite <- app_assoc. reflexivity. Qed.

(** X1.  When the polls before poll [k] (with [k < 30]) went on and poll
    [k] answers ["ready"], [getCapsolverToken] returns [solution.token] of
    that answer right after it: [k + 1] rounds of wait and poll, no more. *)
Theorem solve_returns_token_at_first_ready :
  forall (siteUrl : string) (s : State) (status : Z) (data token : JsValue) (k : nat),
    truthy (configuredKey w) = true ->
    axios w (history s) (createTaskRequest (configuredKey w) siteUrl) = Response status data ->
    truthy (js_get_opt data "taskId") = true ->
    let taskId := js_get_opt data "taskId" in
    (k < 30)%nat ->
    (forall j, (j < k)%nat -> pendingAnswer (pollAnswer w s siteUrl taskId j)) ->
    readyAnswer (pollAnswer w s siteUrl taskId k) token ->
    getCapsolverToken w siteUrl s =
    (Val token, mkState (cacheFile s) (historyAfterPolls w s siteUrl taskId (S k))).
Proof.
  intros siteUrl s status data token k Hkey Hcreate Htask taskId Hk Hbefore Hready.
  rewrite (solve_created w _ _ _ _ Hkey Hcreate Htask). fold taskId.
  unfold try_catch, maxAttempts.
  rewrite (pollTask_ready _ _ token 30%nat k).
  - rewrite after_create_polls. reflexivity.
  - exact Hk.
  - intros j Hj. rewrite app_assoc, after_create_polls. apply Hbefore. exact Hj.
  - rewrite app_assoc, after_create_polls. exact Hready.
Qed.

(** X2.  When the answer to [createTask] carries no task identifier, or
    the request is rejected, [getCapsolverToken] returns [null] having
    made that one request: it does not wait and does not poll. *)
Theorem solve_without_task_does_not_poll :
  forall (siteUrl : string) (s : State),
    truthy (configuredKey w) = true ->
    (axios w (history s) (createTaskRequest (configuredKey w) siteUrl) = Rejected \/
     exists status data,
       axios w (history s) (createTaskRequest (configuredKey w) siteUrl)
         = Response status data /\
       truthy (js_get_opt data "taskId") = false) ->
    getCapsolverToken w siteUrl s =
    (Val JNull, after s (EvHttp (createTaskRequest (configuredKey w) siteUrl))).
Proof.
  intros siteUrl s Hkey Hcreate.
  unfold getCapsolverToken. fold (configuredKey w). rewrite Hkey. cbn [negb].
  unfold try_catch, bind at 1. unfold request.
  destruct Hcreate as [-> | (status & data & -> & Htask)]; [reflexivity|].
  cbn [snd]. rewrite Htask. reflexivity.
Qed.

(** Polling alone: at most [n] rounds, nothing else. *)
Lemma pollTask_bounded apiKey taskId n : forall s,
  exists r k,
    (k <= n)%nat /\
    pollTask w apiKey taskId n s =
    (r, mkState (cacheFile s) (history s ++ pollEvents apiKey taskId k)).
Proof.
  induction n as [|n IH]; intros s.
  - exists (Val JNull), 0%nat. split; [lia|]. cbn. rewrite app_nil_r. destruct s. reflexivity.
  - destruct (axios w (history s ++ [EvSleep 1000]) (getTaskRequest apiKey taskId))
      as [|status data] eqn:Hanswer.
    + rewrite (pollTask_rejected _ _ _ _ _ Hanswer). eexists _, 1%nat. split; [lia|]. reflexivity.
    + rewrite (pollTask_step _ _ _ _ _ _ _ Hanswer). cbv zeta.
      destruct (js_is (js_get_opt data "status") "ready").
      { eexists _, 1%nat. split; [lia|]. reflexivity. }
      destruct (js_is (js_get_opt data "status") "failed" || truthy (js_get_opt data "errorId")).
      { eexists _, 1%nat. split; [lia|]. reflexivity. }
      destruct (IH (mkState (cacheFile s)
                      (history s ++ [EvSleep 1000; EvHttp (getTaskRequest apiKey taskId)])))
        as (r & k & Hk & Hrun).
      rewrite Hrun. cbn [cacheFile history].
      exists r, (S k). split; [lia|]. rewrite <- app_assoc. reflexivity.
Qed.

(** X3.  [getCapsolverToken] never raises, whatever the peers answer and
    even when requests are rejected.  It leaves the state untouched (no
    key), or it has created one task and gone through at most 30 rounds of
    wait and poll; it never changes the cache file. *)
Theorem solve_never_raises_and_is_bounded :
  forall (siteUrl : string) (s : State),
  exists (token : JsValue) (s' : State),
    getCapsolverToken w siteUrl s = (Val token, s') /\
    cacheFile s' = cacheFile s /\
    ((token = JNull /\ s' = s) \/
     exists taskId k,
       (k <= 30)%nat /\ history s' = historyAfterPolls w s siteUrl taskId k).
Proof.
  intros siteUrl s.
  unfold getCapsolverToken. fold (configuredKey w).
  destruct (truthy (configuredKey w)) eqn:Hkey; cbn [negb].
  2:{ exists JNull, s. split; [reflexivity|]. split; [reflexivity|]. left. split; reflexivity. }
  unfold try_catch, bind at 1. unfold request.
  destruct (axios w (history s) (createTaskRequest (configuredKey w) siteUrl))
    as [|status data] eqn:Hcreate.
  { eexists JNull, _. split; [reflexivity|]. split; [reflexivity|].
    right. exists JNull, 0%nat. split; [lia|]. reflexivity. }
  cbn [snd]. destruct (truthy (js_get_opt data "taskId")) eqn:Htask; cbn [negb].
  2:{ eexists JNull, _. split; [reflexivity|]. split; [reflexivity|].
      right. exists JNull, 0%nat. split; [lia|]. reflexivity. }
  destruct (pollTask_bounded (configuredKey w) (js_get_opt data "taskId") maxAttempts
              (mkState (cacheFile s)
                 (history s ++ [EvHttp (createTaskRequest (configuredKey w) siteUrl)])))
    as (r & k & Hk & Hrun).
  rewrite Hrun. cbn [cacheFile history].
  assert (Hh : (history s ++ [EvHttp (createTaskRequest (configuredKey w) siteUrl)])
               ++ pollEvents (configuredKey w) (js_get_opt data "taskId") k
               = historyAfterPolls w s siteUrl (js_get_opt data "taskId") k).
  { unfold historyAfterPolls. rewrite <- app_assoc. reflexivity. }
  destruct r as [token|e].
  - eexists token, _. split; [reflexivity|]. split; [reflexivity|].
    right. exists (js_get_opt data "taskId"), k. split; [exact Hk | exact Hh].
  - eexists JNull, _. split; [reflexivity|]. split; [reflexivity|].
    right. exists (js_get_opt data "taskId"), k. split; [exact Hk | exact Hh].
Qed.

End MoreSolverProperties.

(** ** The credential cache *)

Lemma substring_all_append (s t : string) : substring 0 (String.length s) (s +:+ t) = s.
Proof.
  induction s as [|c s IH].
  - destruct t; reflexivity.
  - change (String c (substring 0 (String.length s) (s +:+ t)) = String c s).
    f_equal. exact IH.
Qed.

Lemma substring_whole (t : string) : substring 0 (String.length t) t = t.
Proof.
  induction t as [|c t IH]; [reflexivity|].
  change (String c (substring 0 (String.length t) t) = String c t). f_equal. exact IH.
Qed.

Lemma substring_tail_append (s t : string) :
  substring (String.length s) (String.length t) (s +:+ t) = t.
Proof.
  induction s as [|c s IH]; [apply substring_whole | exact IH].
Qed.

Lemma length_append (s t : string) :
  String.length (s +:+ t) = (String.length s + String.length t)%nat.
Proof.
  induction s as [|c s IH]; [reflexivity|].
  change (S (String.length (s +:+ t)) = S (String.length s + String.length t)).
  f_equal. exact IH.
Qed.

Lemma endsWith_append (s t : string) : endsWith (s +:+ t) t = true.
Proof.
  unfold endsWith. rewrite length_append.
  replace (String.length s + String.length t - String.length t)%nat with (String.length s)
    by lia.
  rewrite substring_tail_append, String.eqb_refl, andb_true_r.
  apply Nat.leb_le. lia.
Qed.

Section MoreCacheProperties.

Variable w : World.

(** X4.  [isoToTimestamp] reads a trailing ["Z"] as the offset
    ["+00:00"]: the date handed to the parser is the text before the
    ["Z"] followed by ["+00:00"]; a text that does not end in ["Z"] is
    handed over as it is.  The result is the parser's milliseconds
    divided by 1000. *)
Theorem isoToTimestamp_reads_Z_as_utc :
  (forall prefix : string,
     isoToTimestamp w (prefix +:+ "Z")
     = (Date_getTime w (prefix +:+ "+00:00") / 1000)%float)
  /\
  (forall text : string,
     endsWith text "Z" = false ->
     isoToTimestamp w text = (Date_getTime w text / 1000)%float).
Proof.
  split.
  - intros prefix. unfold isoToTimestamp. rewrite endsWith_append.
    rewrite length_append. cbn [String.length].
    replace (String.length prefix + 1 - 1)%nat with (String.length prefix) by lia.
    rewrite substring_all_append. reflexivity.
  - intros text Hno. unfold isoToTimestamp. rewrite Hno. reflexivity.
Qed.

(** [saveSignatureToCache] on a file that is missing, unreadable or a
    store, for a key the assignment sets as an own property. *)
Lemma save_keyed signature validUntil overviewData domain s :
  storeFile s ->
  domain <> "__proto__" \/ is_Some (readableStore s !! domain) ->
  fs_writeFileSync w (history s) = Written ->
  saveSignatureToCache w signature validUntil overviewData domain s
  = (Val true,
     mkState (FileStore (omap print_value
                           (<[domain := newEntry w s signature validUntil overviewData]>
                              (readableStore s))))
             (history s ++ [EvWrite true])).
Proof.
  intros Hstore Hkey Hwrite.
  rewrite save_computes, (startingContent_store _ Hstore), (assign_keyed _ _ _ Hkey), Hwrite.
  reflexivity.
Qed.

(** The record that is stored, when printing keeps its four values. *)
Lemma printed_entry signature validUntil overviewData timestamp :
  survives signature -> survives validUntil -> survives overviewData ->
  survives (JNum timestamp) ->
  print_value (cacheEntry signature validUntil overviewData timestamp)
  = Some (credentialRecord signature validUntil overviewData timestamp).
Proof.
  unfold survives, cacheEntry, credentialRecord. intros Hsig Hvu Hov Ht.
  rewrite print_value_record. cbn [print_fields]. rewrite Hsig, Hvu, Hov, Ht. reflexivity.
Qed.

(** What a later read finds in the record that is stored. *)
Lemma stored_entry_fields signature validUntil overviewData timestamp :
  survives signature -> survives overviewData \/ overviewData = JUndefined ->
  exists printed,
    print_value (cacheEntry signature (JStr validUntil) overviewData timestamp) = Some printed /\
    truthy printed = true /\
    own_prop printed "signature" = signature /\
    own_prop printed "validUntil" = JStr validUntil /\
    own_prop printed "overviewData" = overviewData.
Proof.
  unfold survives, cacheEntry. intros Hsig Hov.
  rewrite print_value_record. eexists. split; [reflexivity|].
  cbn [print_fields]. rewrite Hsig. cbn [print_value].
  destruct Hov as [Hov | ->].
  - rewrite Hov. repeat apply conj; reflexivity.
  - cbn [print_value]. repeat apply conj; reflexivity.
Qed.

(** X5.  A credential saved is a credential found.  On a cache file that
    is missing, unreadable or a store, for a domain that the assignment
    sets as an own property (any domain but ["__proto__"], and
    ["__proto__"] when the store already has it), after a successful
    write of a signature and overview data that printing keeps as they
    are and of a non-empty [validUntil] text, [loadSignatureFromCache] for
    the same domain returns exactly the signature, [validUntil] and
    overview data that were saved as long as the current time is before
    [validUntil], and absent from then on. *)
Theorem load_after_save :
  forall (signature overviewData : JsValue) (validUntil domain : string) (s : State),
    storeFile s ->
    domain <> "__proto__" \/ is_Some (readableStore s !! domain) ->
    fs_writeFileSync w (history s) = Written ->
    validUntil <> "" ->
    survives signature ->
    survives overviewData \/ overviewData = JUndefined ->
    let s' := state_of (saveSignatureToCache w signature (JStr validUntil) overviewData
                          domain s) in
    loadSignatureFromCache w domain s' =
    (Val (if (currentTime w s' <? isoToTimestamp w validUntil)%float
          then (signature, JStr validUntil, overviewData)
          else absent), s').
Proof.
  intros signature overviewData validUntil domain s Hstore Hkey Hw Hne Hsig Hov s'.
  subst s'. rewrite (save_keyed _ _ _ _ _ Hstore Hkey Hw). cbn [state_of snd].
  destruct (stored_entry_fields signature validUntil overviewData (currentTime w s) Hsig Hov)
    as (printed & Hprinted & Htruthy & Hs & Hv & Ho).
  erewrite load_entry; [|reflexivity|].
  2:{ rewrite lookup_omap, lookup_insert_eq. exact Hprinted. }
  unfold cachedTriple. rewrite Hs, Hv, Ho.
  apply String.eqb_neq in Hne. rewrite Hne. cbn [negb andb].
  rewrite Htruthy. reflexivity.
Qed.

(** X25.  [saveSignatureToCache] merges.  On a cache file that is missing,
    unreadable or a store, for a domain that the assignment sets as an
    own property, it never raises.  When the write succeeds it returns
    [true] and the file holds a store in which the domain has the record
    of the four values [signature], [validUntil], [overviewData] and
    [timestamp] as [JSON.stringify] prints it (the record itself when
    printing keeps the values), and every other domain has what it had in
    a readable previous store, printed again (unchanged when printing
    keeps it); nothing else is present.  When the write fails it returns
    [false]. *)
Theorem save_merges_entry :
  forall (signature validUntil overviewData : JsValue) (domain : string) (s : State),
    storeFile s ->
    domain <> "__proto__" \/ is_Some (readableStore s !! domain) ->
    exists (ok : bool) (s' : State),
      saveSignatureToCache w signature validUntil overviewData domain s = (Val ok, s') /\
      (fs_writeFileSync w (history s) <> Written -> ok = false) /\
      (fs_writeFileSync w (history s) = Written ->
       ok = true /\
       exists written : gmap string JsValue,
         cacheFile s' = FileStore written /\
         written !! domain
           = print_value (JObj [("signature", signature); ("validUntil", validUntil);
                                ("overviewData", overviewData);
                                ("timestamp", JNum (currentTime w s))]) /\
         (survives signature -> survives validUntil -> survives overviewData ->
          survives (JNum (currentTime w s)) ->
          written !! domain
            = Some (credentialRecord signature validUntil overviewData (currentTime w s))) /\
         (forall other, other <> domain ->
            written !! other = readableStore s !! other ≫= print_value) /\
         (forall other entry, other <> domain ->
            readableStore s !! other = Some entry -> survives entry ->
            written !! other = Some entry)).
Proof.
  intros signature validUntil overviewData domain s Hstore Hkey.
  destruct (fs_writeFileSync w (history s)) eqn:Hw.
  - rewrite (save_keyed _ _ _ _ _ Hstore Hkey Hw).
    eexists _, _. split; [reflexivity|]. split; [congruence|].
    intros _. split; [reflexivity|].
    eexists. split; [reflexivity|]. repeat apply conj.
    + rewrite lookup_omap, lookup_insert_eq. reflexivity.
    + intros Hsig Hvu Hov Ht. rewrite lookup_omap, lookup_insert_eq.
      exact (printed_entry _ _ _ _ Hsig Hvu Hov Ht).
    + intros other Hne. rewrite lookup_omap, lookup_insert_ne by congruence. reflexivity.
    + intros other entry Hne Hentry Hkept.
      rewrite lookup_omap, lookup_insert_ne, Hentry by congruence. exact Hkept.
  - rewrite save_computes, (startingContent_store _ Hstore), (assign_keyed _ _ _ Hkey), Hw.
    eexists _, _. split; [reflexivity|]. split; [reflexivity | discriminate].
  - rewrite save_computes, (startingContent_store _ Hstore), (assign_keyed _ _ _ Hkey), Hw.
    eexists _, _. split; [reflexivity|]. split; [reflexivity | discriminate].
Qed.


End MoreCacheProperties.

(** ** [getBacklinks] *)

Section MoreProviderProperties.

Variable w : World.

(** The first steps of [getBacklinks] when the cache gives nothing. *)
Lemma getBacklinks_no_token domain s token sa :
  loadSignatureFromCache w domain s = (Val absent, s) ->
  getCapsolverToken w (backlinksSiteUrl domain) s = (Val token, sa) ->
  truthy token = false ->
  getBacklinks w domain s =
  (Exc (McpError ("Failed to get verification token for domain: " +:+ domain)
                 API_ERROR 500 None), sa).
Proof.
  intros Hload Hsolve Htoken.
  unfold getBacklinks, try_catch, bind at 1. rewrite Hload. unfold absent. cbv zeta.
  cbn [truthy negb orb]. unfold bind at 1. unfold bind at 1. rewrite Hsolve, Htoken.
  reflexivity.
Qed.

Lemma getBacklinks_no_signature domain s token sa sb :
  loadSignatureFromCache w domain s = (Val absent, s) ->
  getCapsolverToken w (backlinksSiteUrl domain) s = (Val token, sa) ->
  truthy token = true ->
  getSignatureAndOverview w token domain sa = (Val absent, sb) ->
  getBacklinks w domain s =
  (Exc (McpError ("Failed to get signature for domain: " +:+ domain) API_ERROR 500 None), sb).
Proof.
  intros Hload Hsolve Htoken Hmint.
  unfold getBacklinks, try_catch, bind at 1. rewrite Hload. unfold absent. cbv zeta.
  cbn [truthy negb orb]. unfold bind at 1. unfold bind at 1. rewrite Hsolve, Htoken.
  cbn [negb]. unfold bind at 1. rewrite Hmint. reflexivity.
Qed.

Lemma mint_absent token domain s :
  (axios w (history s) (overviewRequest token domain) = Rejected \/
   exists status data,
     axios w (history s) (overviewRequest token domain) = Response status data /\
     (status <> 200 \/ credentialOf data = None)) ->
  getSignatureAndOverview w token domain s = (Val absent, afterOverview token domain s).
Proof.
  intros Hanswer. rewrite mint_computes. cbv zeta. unfold afterOverview.
  destruct Hanswer as [-> | (status & data & -> & Hbad)]; [reflexivity|].
  destruct (status =? 200) eqn:Hstatus; [|reflexivity].
  apply Z.eqb_eq in Hstatus. destruct Hbad as [Hne | ->]; [contradiction | reflexivity].
Qed.

Lemma mint_credential token domain s body signature validUntil overviewData :
  axios w (history s) (overviewRequest token domain) = Response 200 body ->
  credentialOf body = Some (signature, validUntil, overviewData) ->
  getSignatureAndOverview w token domain s =
  (Val (signature, validUntil, overviewData),
   state_of (saveSignatureToCache w signature validUntil overviewData domain
               (afterOverview token domain s))).
Proof.
  intros Hanswer Hcred. rewrite mint_computes. cbv zeta. rewrite Hanswer.
  cbn [Z.eqb Pos.eqb]. rewrite Hcred. reflexivity.
Qed.

(** X6.  Without a credential [getBacklinks] stops early.  When the cache
    gives nothing and the solver gives no token, it raises the
    [API_ERROR] "Failed to get verification token" with status 500 and has
    asked neither for a signature nor for the list.  When there is a token
    but the overview request is rejected, or answered with a status other
    than 200 or with a body that carries no credential, it raises the
    [API_ERROR] "Failed to get signature" with status 500 right after that
    request: the list is not asked for and nothing is written. *)
Theorem getBacklinks_stops_without_credential :
  forall (domain : string) (s sa : State) (token : JsValue),
    loadSignatureFromCache w domain s = (Val absent, s) ->
    getCapsolverToken w (backlinksSiteUrl domain) s = (Val token, sa) ->
    (truthy token = false ->
     getBacklinks w domain s =
     (Exc (McpError ("Failed to get verification token for domain: " +:+ domain)
                    API_ERROR 500 None), sa))
    /\
    (truthy token = true ->
     (axios w (history sa) (overviewRequest token domain) = Rejected \/
      exists status data,
        axios w (history sa) (overviewRequest token domain) = Response status data /\
        (status <> 200 \/ credentialOf data = None)) ->
     getBacklinks w domain s =
     (Exc (McpError ("Failed to get signature for domain: " +:+ domain) API_ERROR 500 None),
      afterOverview token domain sa)).
Proof.
  intros domain s sa token Hload Hsolve. split.
  - intros Htoken. exact (getBacklinks_no_token _ _ _ _ Hload Hsolve Htoken).
  - intros Htoken Hanswer.
    apply (getBacklinks_no_signature _ _ _ _ _ Hload Hsolve Htoken).
    now apply mint_absent.
Qed.

(** X7.  A stale entry is replaced.  When the cache file is a store that
    has an entry for the domain whose [validUntil] is not strictly after
    the current time, and the solve, the signature exchange and the write
    succeed, [getBacklinks] makes three more steps after the solve: the
    POST of [{captcha, mode: 'subdomains', url: domain}] to the overview
    endpoint, one successful write, and the POST to the list endpoint of
    [{reportType: 'TopBacklinks', signedInput: {signature, input:
    {validUntil, mode: 'subdomains', url: domain + '/'}}}] with the new
    signature and [validUntil].  The store it leaves has under the domain
    the record [{signature, validUntil, overviewData, timestamp}] of the
    new credential as [JSON.stringify] prints it (the record itself when
    printing keeps its four values), and under every other domain the
    entry it had, printed again (the same entry when printing keeps
    it). *)
Theorem getBacklinks_replaces_stale_entry :
  forall (domain : string) (s sa : State) (store : gmap string JsValue)
         (stale token body signature validUntil overviewData : JsValue),
    cacheFile s = FileStore store ->
    store !! domain = Some stale ->
    ~ validInFuture w s stale ->
    getCapsolverToken w (backlinksPage domain) s = (Val token, sa) ->
    truthy token = true ->
    axios w (history sa) (overviewPost token domain) = Response 200 body ->
    credentialOf body = Some (signature, validUntil, overviewData) ->
    fs_writeFileSync w (history sa ++ [EvHttp (overviewPost token domain)]) = Written ->
    let s' := state_of (getBacklinks w domain s) in
    let timestamp := currentTime w (after sa (EvHttp (overviewPost token domain))) in
    history s' = history sa ++ [EvHttp (overviewPost token domain); EvWrite true;
                                EvHttp (listPost signature validUntil domain)]
    /\
    exists written : gmap string JsValue,
      cacheFile s' = FileStore written /\
      written !! domain
        = print_value (JObj [("signature", signature); ("validUntil", validUntil);
                             ("overviewData", overviewData);
                             ("timestamp", JNum timestamp)]) /\
      (survives signature -> survives validUntil -> survives overviewData ->
       survives (JNum timestamp) ->
       written !! domain
         = Some (JObj [("signature", signature); ("validUntil", validUntil);
                       ("overviewData", overviewData); ("timestamp", JNum timestamp)])) /\
      (forall other, other <> domain -> written !! other = store !! other ≫= print_value) /\
      (forall other entry, other <> domain -> store !! other = Some entry ->
         survives entry -> written !! other = Some entry).
Proof.
  intros domain s sa store stale token body signature validUntil overviewData
    Hfile Hentry Hstale Hsolve Htoken Hanswer Hcred Hwrite s' timestamp.
  change (overviewPost token domain) with (overviewRequest token domain) in *.
  change (backlinksPage domain) with (backlinksSiteUrl domain) in Hsolve.
  change (listPost signature validUntil domain)
    with (backlinksListRequest signature validUntil domain).
  destruct (credentialOf_truthy _ _ _ _ Hcred) as [Hsig Hvu].
  pose proof (load_not_valid w _ _ _ _ Hfile Hentry Hstale) as Hload.
  pose proof (mint_credential _ _ _ _ _ _ _ Hanswer Hcred) as Hmint.
  destruct (solve_history w (backlinksSiteUrl domain) s) as (token' & hs & Hrun & _).
  rewrite Hsolve in Hrun. injection Hrun as <- ->.
  assert (Hstore : storeFile (afterOverview token domain
                                (mkState (cacheFile s) (history s ++ hs)))).
  { right; right. exists store. exact Hfile. }
  assert (Hkey : domain <> "__proto__" \/
                 is_Some (readableStore (afterOverview token domain
                                           (mkState (cacheFile s) (history s ++ hs)))
                            !! domain)).
  { right. unfold readableStore, afterOverview, after. cbn [cacheFile].
    rewrite Hfile, Hentry. eexists; reflexivity. }
  subst s'.
  rewrite (getBacklinks_minted w _ _ _ _ _ _ _ _ Hload Hsolve Htoken Hmint Hsig Hvu).
  rewrite (save_keyed w _ _ _ _ _ Hstore Hkey Hwrite).
  cbn [state_of snd after cacheFile history]. unfold readableStore, afterOverview, after.
  cbn [cacheFile history]. rewrite Hfile. split.
  { rewrite <- !app_assoc. reflexivity. }
  eexists. split; [reflexivity|]. repeat apply conj.
  - rewrite lookup_omap, lookup_insert_eq. reflexivity.
  - intros Hs Hv Ho Ht. rewrite lookup_omap, lookup_insert_eq.
    exact (printed_entry _ _ _ _ Hs Hv Ho Ht).
  - intros other Hne. rewrite lookup_omap, lookup_insert_ne by congruence. reflexivity.
  - intros other entry Hne Hother Hkept.
    rewrite lookup_omap, lookup_insert_ne, Hother by congruence. exact Hkept.
Qed.

(** X8.  A failed cache write does not fail the call.  After a cache miss,
    a solve and a signature exchange that gave a credential,
    [getBacklinks] POSTs to the list endpoint
    [{reportType: 'TopBacklinks', signedInput: {signature, input:
    {validUntil, mode: 'subdomains', url: domain + '/'}}}] with that
    credential and answers from the list response, whether
    [saveSignatureToCache] could write or not: between the overview
    request and the list request there is at most one write, successful
    exactly when the disk accepts it, and exactly one when the cache file
    is missing, unreadable or a store. *)
Theorem getBacklinks_survives_failed_write :
  forall (domain : string) (s sa : State)
         (token body signature validUntil overviewData : JsValue),
    loadSignatureFromCache w domain s = (Val absent, s) ->
    getCapsolverToken w (backlinksPage domain) s = (Val token, sa) ->
    truthy token = true ->
    axios w (history sa) (overviewPost token domain) = Response 200 body ->
    credentialOf body = Some (signature, validUntil, overviewData) ->
    exists written : list Event,
      (written = [] \/
       exists ok : bool,
         written = [EvWrite ok] /\
         (ok = true <->
          fs_writeFileSync w (history sa ++ [EvHttp (overviewPost token domain)])
          = Written)) /\
      (storeFile s -> written <> []) /\
      let h := history sa ++ EvHttp (overviewPost token domain) :: written in
      result_of (getBacklinks w domain s)
        = listOutcome domain overviewData
            (axios w h (listPost signature validUntil domain)) /\
      history (state_of (getBacklinks w domain s))
        = h ++ [EvHttp (listPost signature validUntil domain)].
Proof.
  intros domain s sa token body signature validUntil overviewData
    Hload Hsolve Htoken Hanswer Hcred.
  change (overviewPost token domain) with (overviewRequest token domain) in *.
  change (backlinksPage domain) with (backlinksSiteUrl domain) in Hsolve.
  change (listPost signature validUntil domain)
    with (backlinksListRequest signature validUntil domain).
  destruct (credentialOf_truthy _ _ _ _ Hcred) as [Hsig Hvu].
  pose proof (mint_credential _ _ _ _ _ _ _ Hanswer Hcred) as Hmint.
  rewrite (getBacklinks_minted w _ _ _ _ _ _ _ _ Hload Hsolve Htoken Hmint Hsig Hvu).
  destruct (solve_history w (backlinksSiteUrl domain) s) as (token' & hs & Hrun & _).
  rewrite Hsolve in Hrun. injection Hrun as <- ->.
  rewrite save_computes.
  change (history (afterOverview token domain (mkState (cacheFile s) (history s ++ hs))))
    with ((history s ++ hs) ++ [EvHttp (overviewRequest token domain)]).
  cbn [history].
  destruct (assign _ _ _) as [content|e] eqn:Hassign.
  - destruct (fs_writeFileSync w ((history s ++ hs) ++ [EvHttp (overviewRequest token domain)]))
      eqn:Hw;
      [exists [EvWrite true]; split; [right; exists true; split; [reflexivity|tauto]|]
      |exists [EvWrite false];
       split; [right; exists false; split; [reflexivity|split; discriminate]|]
      |exists [EvWrite false];
       split; [right; exists false; split; [reflexivity|split; discriminate]|]];
      (split; [discriminate|]);
      cbv zeta; unfold afterOverview, after;
      cbn [result_of state_of fst snd cacheFile history];
      rewrite <- !app_assoc; split; reflexivity.
  - exists []. split; [left; reflexivity|]. split.
    + intros Hstore. exfalso.
      assert (Hs : storeFile (afterOverview token domain
                                (mkState (cacheFile s) (history s ++ hs)))) by exact Hstore.
      rewrite (startingContent_store _ Hs) in Hassign. unfold assign in Hassign.
      destruct (_ && _); discriminate.
    + cbv zeta; unfold afterOverview, after;
        cbn [result_of state_of fst snd cacheFile history];
        rewrite <- !app_assoc; split; reflexivity.
Qed.

(** X9.  What a call served from the cache answers.  With a valid cached
    credential, a 200 answer to the list request gives
    [{ overview, backlinks }] where [overview] is the overview data kept
    in the cache and [backlinks] the normalised list; an answer with
    another status raises an [API_ERROR] that carries that status; a
    rejected request raises an [UNEXPECTED_ERROR] with status 500 whose
    cause is the rejection. *)
Theorem cached_call_answers_from_list_response :
  forall (domain : string) (s : State) (store : gmap string JsValue) (entry : JsValue),
    credentialStore s ->
    cacheFile s = FileStore store ->
    store !! domain = Some entry ->
    validInFuture w s entry ->
    let request := backlinksListRequest (own_prop entry "signature")
                     (own_prop entry "validUntil") domain in
    (forall data backlinks,
       axios w (history s) request = Response 200 data ->
       formatBacklinks data = Val backlinks ->
       result_of (getBacklinks w domain s)
       = Val (JObj [("overview", own_prop entry "overviewData"); ("backlinks", backlinks)]))
    /\
    (forall status data,
       axios w (history s) request = Response status data ->
       status <> 200 ->
       result_of (getBacklinks w domain s)
       = Exc (McpError ("Failed to get backlinks for domain: " +:+ domain)
                       API_ERROR status None))
    /\
    (axios w (history s) request = Rejected ->
     result_of (getBacklinks w domain s)
     = Exc (McpError ("Failed to get backlinks for domain: " +:+ domain)
                     UNEXPECTED_ERROR 500 (Some NetworkError))).
Proof.
  intros domain s store entry Hinv Hfile Hentry Hvalid request.
  destruct (Hinv store domain entry Hfile Hentry) as [Hsig _].
  rewrite (cache_hit w _ _ _ _ Hfile Hentry Hsig Hvalid). fold request.
  cbn [result_of fst]. unfold listOutcome, backlinksFailure.
  split; [|split].
  - intros data backlinks -> Hformat. cbn [Z.eqb Pos.eqb]. rewrite Hformat. reflexivity.
  - intros status data -> Hne. apply Z.eqb_neq in Hne. rewrite Hne. reflexivity.
  - intros ->. reflexivity.
Qed.

End MoreProviderProperties.

(** ** Errors of the exported functions *)

Lemma wrapError_isMcpError message e : isMcpError (wrapError message e) = true.
Proof. destruct e; reflexivity. Qed.

Lemma rethrow_onlyMcpError {A} (m : Eff A) (message : string) (s : State) :
  onlyMcpError (result_of (try_catch m (rethrow message) s)).
Proof.
  unfold try_catch, rethrow, throw, result_of.
  destruct (m s) as [[a|e] s']; cbn [fst onlyMcpError]; [exact I|].
  apply wrapError_isMcpError.
Qed.

(** X10.  Whatever the inputs, the peers and the disk do, the only
    exception that leaves [getBacklinks], [getKeywordIdeas],
    [getKeywordDifficulty] and [checkTraffic] is an [McpError]: a rejected
    request or a malformed payload that makes the normaliser fail comes
    out wrapped. *)
Theorem exported_functions_raise_only_McpError :
  forall (w : World) (s : State),
    (forall domain, onlyMcpError (result_of (getBacklinks w domain s))) /\
    (forall keyword country searchEngine,
       onlyMcpError (result_of (getKeywordIdeas w keyword country searchEngine s))) /\
    (forall keyword country,
       onlyMcpError (result_of (getKeywordDifficulty w keyword country s))) /\
    (forall domainOrUrl mode country,
       onlyMcpError (result_of (checkTraffic w domainOrUrl mode country s))).
Proof.
  intros w s. repeat apply conj; intros; apply rethrow_onlyMcpError.
Qed.

(** ** Normalisers on malformed and on well-formed payloads *)

Lemma simplifyBacklink_nullish v : nullish v = true -> simplifyBacklink v = Exc TypeError.
Proof. intros H. unfold simplifyBacklink, js_get. rewrite H. reflexivity. Qed.

Lemma simplifyBacklink_defined v :
  nullish v = false -> exists r, simplifyBacklink v = Val r.
Proof. intros H. unfold simplifyBacklink, js_get. rewrite H. eexists. reflexivity. Qed.

Lemma simplifyIdea_nullish label v : nullish v = true -> simplifyIdea label v = Exc TypeError.
Proof. intros H. unfold simplifyIdea, js_get. rewrite H. reflexivity. Qed.

Lemma simplifyIdea_defined label v :
  nullish v = false -> exists r, simplifyIdea label v = Val r.
Proof. intros H. unfold simplifyIdea, js_get. rewrite H. eexists. reflexivity. Qed.

(** A traversal fails with [TypeError] as soon as one element is
    [null] or [undefined], when that is the only way [f] fails. *)
Lemma map_result_nullish (f : JsValue -> Result JsValue) (l : list JsValue) :
  (forall v, nullish v = true -> f v = Exc TypeError) ->
  (forall v, nullish v = false -> exists r, f v = Val r) ->
  Exists (fun v => nullish v = true) l ->
  map_result f l = Exc TypeError.
Proof.
  intros Hbad Hgood. induction l as [|x l IH]; intros Hex; [inversion Hex|].
  cbn [map_result]. destruct (nullish x) eqn:Hx.
  - rewrite (Hbad x Hx). reflexivity.
  - destruct (Hgood x Hx) as [r ->]. cbn [rbind].
    inversion Hex as [? ? Hhere | ? ? Hlater]; subst; [congruence|].
    rewrite (IH Hlater). reflexivity.
Qed.

Lemma map_result_defined (f : JsValue -> Result JsValue) (l : list JsValue) :
  (forall v, nullish v = false -> exists r, f v = Val r) ->
  Forall (fun v => nullish v = false) l ->
  exists l', map_result f l = Val l' /\ length l' = length l.
Proof.
  intros Hgood. induction l as [|x l IH]; intros Hall.
  - exists []. split; reflexivity.
  - inversion Hall as [|? ? Hx Hrest]; subst.
    destruct (Hgood x Hx) as [r Hr]. destruct (IH Hrest) as (l' & Hl' & Hlen).
    exists (r :: l'). cbn [map_result]. rewrite Hr. cbn [rbind]. rewrite Hl'. cbn [rbind].
    split; [reflexivity|]. cbn [length]. rewrite Hlen. reflexivity.
Qed.

(** X11.  [formatBacklinks] is soft only about a missing payload.  When
    [topBacklinks.backlinks] is there (truthy) but is not an array, it
    raises a [TypeError]; when it is an array with a [null] or [undefined]
    item, it raises a [TypeError]; when it is an array without such items,
    it returns one entry per item. *)
Theorem formatBacklinks_raises_on_malformed_payload :
  forall (tag second : JsValue) (rest : list JsValue),
    let payload := js_get_opt (js_get_opt second "topBacklinks") "backlinks" in
    (truthy payload = true -> isArray payload = false ->
     formatBacklinks (JArr (tag :: second :: rest)) = Exc TypeError)
    /\
    (forall items,
       payload = JArr items ->
       Exists (fun v => nullish v = true) items ->
       formatBacklinks (JArr (tag :: second :: rest)) = Exc TypeError)
    /\
    (forall items,
       payload = JArr items ->
       Forall (fun v => nullish v = false) items ->
       exists entries,
         formatBacklinks (JArr (tag :: second :: rest)) = Val (JArr entries) /\
         length entries = length items).
Proof.
  intros tag second rest payload. split; [|split].
  - intros Htruthy Hnot. rewrite (formatBacklinks_payload _ _ _ Htruthy). fold payload.
    destruct payload; try discriminate; reflexivity.
  - intros items Hitems Hex.
    rewrite formatBacklinks_payload; fold payload; rewrite Hitems; [|reflexivity].
    cbn [array_map].
    rewrite (map_result_nullish _ _ simplifyBacklink_nullish simplifyBacklink_defined Hex).
    reflexivity.
  - intros items Hitems Hall.
    rewrite formatBacklinks_payload; fold payload; rewrite Hitems; [|reflexivity].
    cbn [array_map].
    destruct (map_result_defined _ _ simplifyBacklink_defined Hall) as (l' & -> & Hlen).
    exists l'. split; [reflexivity | exact Hlen].
Qed.

(** What one group contributes when its [results] is there. *)
Lemma ideasOfGroup_present data group label results :
  js_get_opt (js_get_opt data group) "results" = results ->
  truthy results = true ->
  ideasOfGroup data group label =
  rbind (js_iter results) (map_result (simplifyIdea label)).
Proof.
  intros Hresults Htruthy. unfold ideasOfGroup. rewrite Hresults, Htruthy.
  assert (Hgroup : js_get_opt data group <> JUndefined).
  { intros Heq. rewrite Heq in Hresults. subst results. discriminate. }
  rewrite (js_get_opt_defined _ _ Hgroup). cbn [rbind].
  assert (Hdef : js_get_opt (js_get_opt data group) "results" <> JUndefined).
  { rewrite Hresults. now apply truthy_defined. }
  rewrite (js_get_opt_defined _ _ Hdef), Hresults. reflexivity.
Qed.

(** X12.  [formatKeywordIdeas] returns the empty list, without raising,
    for every input that is not an array of at least two elements.  It
    is not soft about a malformed group: when [allIdeas.results] is an
    object, or an array with a [null] or [undefined] item, it raises a
    [TypeError]; and when [allIdeas.results] is fine but
    [questionIdeas.results] is an object, it raises a [TypeError] too,
    so the keyword ideas already read are lost. *)
Theorem formatKeywordIdeas_empty_or_raises :
  (forall v : JsValue,
     (forall tag data rest, v <> JArr (tag :: data :: rest)) ->
     formatKeywordIdeas v = Val (JArr []))
  /\
  (forall (tag data : JsValue) (rest : list JsValue) (fields : Fields),
     js_get_opt (js_get_opt data "allIdeas") "results" = JObj fields ->
     formatKeywordIdeas (JArr (tag :: data :: rest)) = Exc TypeError)
  /\
  (forall (tag data : JsValue) (rest items : list JsValue),
     js_get_opt (js_get_opt data "allIdeas") "results" = JArr items ->
     Exists (fun v => nullish v = true) items ->
     formatKeywordIdeas (JArr (tag :: data :: rest)) = Exc TypeError)
  /\
  (forall (tag data : JsValue) (rest : list JsValue) (items : list Fields) (fields : Fields),
     groupResults data "allIdeas" items ->
     js_get_opt (js_get_opt data "questionIdeas") "results" = JObj fields ->
     formatKeywordIdeas (JArr (tag :: data :: rest)) = Exc TypeError).
Proof.
  split; [|split; [|split]].
  - intros v Hshape. unfold formatKeywordIdeas.
    destruct v as [| |b|x|str|items|fs|fn]; try reflexivity.
    + cbn [truthy isArray negb orb]. destruct b; reflexivity.
    + cbn [truthy isArray negb orb]. rewrite orb_true_r. reflexivity.
    + cbn [truthy isArray negb orb]. rewrite orb_true_r. reflexivity.
    + destruct items as [|tag [|data rest]]; try reflexivity.
      exfalso. exact (Hshape tag data rest eq_refl).
  - intros tag data rest fields Hresults. unfold formatKeywordIdeas.
    cbn [truthy isArray array_length length negb orb Nat.ltb Nat.leb own_index nth].
    rewrite (ideasOfGroup_present _ _ _ _ Hresults eq_refl). reflexivity.
  - intros tag data rest items Hresults Hex. unfold formatKeywordIdeas.
    cbn [truthy isArray array_length length negb orb Nat.ltb Nat.leb own_index nth].
    rewrite (ideasOfGroup_present _ _ _ _ Hresults eq_refl). cbn [js_iter rbind].
    rewrite (map_result_nullish _ _ (simplifyIdea_nullish "keyword ideas")
               (simplifyIdea_defined "keyword ideas") Hex).
    reflexivity.
  - intros tag data rest items fields Hkeyword Hresults. unfold formatKeywordIdeas.
    cbn [truthy isArray array_length length negb orb Nat.ltb Nat.leb own_index nth].
    rewrite (ideasOfGroup_results _ _ _ _ Hkeyword). cbn [rbind].
    rewrite (ideasOfGroup_present _ _ _ _ Hresults eq_refl). reflexivity.
Qed.

(** *** Keyword difficulty *)

Lemma serpMetrics_falsy linkData :
  truthy (lookup_field "metrics" linkData) = false -> serpMetrics linkData = [].
Proof.
  unfold serpMetrics. destruct (lookup_field "metrics" linkData); try reflexivity.
  discriminate.
Qed.

Lemma serpResultItem_reads item expected :
  SerpItem item expected -> serpResultItem item = Val expected.
Proof.
  intros Hitem. destruct Hitem as
    [item tag payload Hcontent Htag
    |item organic tag rest payload Hcontent Hlink Htag
    |item organic linkData rest rest' Hcontent Hlink Hmetrics];
    unfold serpResultItem; rewrite js_get_record, Hcontent by reflexivity; cbn [rbind truthy own_index nth js_is].
  - apply String.eqb_neq in Htag. rewrite Htag. reflexivity.
  - cbn [String.eqb Ascii.eqb Bool.eqb andb]. rewrite js_get_record, Hlink by reflexivity.
    cbn [rbind truthy own_index nth js_is andb].
    apply String.eqb_neq in Htag. rewrite Htag. reflexivity.
  - cbn [String.eqb Ascii.eqb Bool.eqb andb]. rewrite js_get_record, Hlink by reflexivity.
    cbn [rbind truthy own_index nth js_is andb String.eqb Ascii.eqb Bool.eqb].
    rewrite !js_get_record by reflexivity. cbn [rbind]. rewrite !js_or_fieldOr.
    unfold serpEntry.
    destruct Hmetrics as [Hfalsy | [metrics Hrecord]].
    + rewrite Hfalsy, (serpMetrics_falsy _ Hfalsy), app_nil_r. reflexivity.
    + unfold serpMetrics. rewrite Hrecord. cbn [truthy].
      rewrite !own_prop_record by reflexivity. rewrite !js_or_fieldOr. reflexivity.
Qed.

Lemma serp_items_read items expected :
  Forall2 SerpItem items expected -> map_result serpResultItem items = Val expected.
Proof.
  induction 1 as [|item r items expected Hitem _ IH]; [reflexivity|].
  cbn [map_result]. rewrite (serpResultItem_reads _ _ Hitem). cbn [rbind]. rewrite IH.
  reflexivity.
Qed.

(** X13.  [formatKeywordDifficulty] keeps, in the order received, one
    entry for each SERP item tagged ["organic"] whose link is tagged
    ["Some"], and drops the others; an entry has [title], [url] and
    [position], and the six metrics when the link has [metrics].
    [difficulty] and [shortage] default to [0], [lastUpdate] to [''].
    Without [serp.results] the result list is empty.  On [null] or
    [undefined] the function raises a [TypeError]. *)
Theorem formatKeywordDifficulty_keeps_organic_results :
  (forall (kdData : Fields) (items : list JsValue) (expected : list (option JsValue)),
     js_get_opt (lookup_field "serp" kdData) "results" = JArr items ->
     Forall2 SerpItem items expected ->
     formatKeywordDifficulty (JObj kdData)
     = Val (normalizedDifficulty kdData (omap id expected)))
  /\
  (forall kdData : Fields,
     truthy (js_get_opt (lookup_field "serp" kdData) "results") = false ->
     formatKeywordDifficulty (JObj kdData) = Val (normalizedDifficulty kdData []))
  /\
  (forall v : JsValue, nullish v = true -> formatKeywordDifficulty v = Exc TypeError).
Proof.
  split; [|split].
  - intros kdData items expected Hresults Hitems.
    unfold formatKeywordDifficulty. rewrite !js_get_record by reflexivity. cbn [rbind].
    rewrite Hresults. cbn [truthy js_iter rbind].
    rewrite (serp_items_read _ _ Hitems). cbn [rbind].
    unfold normalizedDifficulty. rewrite !js_or_fieldOr. reflexivity.
  - intros kdData Hnone.
    unfold formatKeywordDifficulty. rewrite !js_get_record by reflexivity. cbn [rbind].
    rewrite Hnone. cbn [rbind].
    unfold normalizedDifficulty. rewrite !js_or_fieldOr. reflexivity.
  - intros v Hv. unfold formatKeywordDifficulty, js_get. rewrite Hv. reflexivity.
Qed.

(** X14.  [formatTraffic] gives the five fields of the traffic record:
    the four lists default to the empty list, the two averages (read
    under [traffic], which may be missing) to [0].  On [null] or
    [undefined] the function raises a [TypeError]. *)
Theorem formatTraffic_defaults :
  (forall trafficData : Fields,
     formatTraffic (JObj trafficData) = Val (normalizedTraffic trafficData))
  /\
  (forall trafficData : Fields,
     has_field "traffic" trafficData = false ->
     own_prop (own_prop (normalizedTraffic trafficData) "traffic") "trafficMonthlyAvg" = JNum 0
     /\
     own_prop (own_prop (normalizedTraffic trafficData) "traffic") "costMontlyAvg" = JNum 0)
  /\
  (forall trafficData : Fields,
     has_field "top_pages" trafficData = false ->
     own_prop (normalizedTraffic trafficData) "top_pages" = JArr [])
  /\
  (forall v : JsValue, nullish v = true -> formatTraffic v = Exc TypeError).
Proof.
  split; [|split; [|split]].
  - intros trafficData. unfold formatTraffic. rewrite !js_get_record by reflexivity. cbn [rbind].
    unfold normalizedTraffic. rewrite !js_or_fieldOr. reflexivity.
  - intros trafficData Hmissing.
    assert (Hnone : lookup_field "traffic" trafficData = JUndefined).
    { clear -Hmissing. unfold has_field in Hmissing.
      induction trafficData as [|[k v] fs IH]; [reflexivity|].
      cbn [existsb fst lookup_field] in *. destruct (String.eqb "traffic" k); [discriminate|].
      exact (IH Hmissing). }
    cbn. rewrite Hnone. split; reflexivity.
  - intros trafficData Hmissing. cbn. now apply fieldOr_missing.
  - intros v Hv. unfold formatTraffic, js_get. rewrite Hv. reflexivity.
Qed.

(** ** The three query functions *)

Section MoreQueryProperties.

Variable w : World.

Lemma pollEvents_counts apiKey taskId n :
  solveCount (pollEvents apiKey taskId n) = 0%nat /\
  mintCount (pollEvents apiKey taskId n) = 0%nat /\
  writeCount (pollEvents apiKey taskId n) = 0%nat /\
  listCount (pollEvents apiKey taskId n) = 0%nat.
Proof.
  induction n as [|n IH]; [repeat apply conj; reflexivity|].
  destruct IH as (Hsolve & Hmint & Hwrite & Hlist). repeat apply conj.
  - exact Hsolve.
  - exact Hmint.
  - exact Hwrite.
  - exact Hlist.
Qed.

(** One run of the solver: the cache file is left alone, the record grows
    by at most one [createTask] (exactly one when a token comes out), no
    overview request, no write and no list request. *)
Lemma solve_run siteUrl s :
  exists token h,
    getCapsolverToken w siteUrl s = (Val token, mkState (cacheFile s) (history s ++ h)) /\
    (solveCount h <= 1)%nat /\ mintCount h = 0%nat /\ writeCount h = 0%nat /\
    listCount h = 0%nat /\ (truthy token = true -> solveCount h = 1%nat).
Proof.
  unfold getCapsolverToken. fold (configuredKey w).
  destruct (truthy (configuredKey w)) eqn:Hkey; cbn [negb].
  2:{ exists JNull, []. rewrite app_nil_r. destruct s.
      split; [reflexivity|]. repeat apply conj; cbn; try lia; discriminate. }
  unfold try_catch, bind at 1. unfold request.
  destruct (axios w (history s) (createTaskRequest (configuredKey w) siteUrl))
    as [|status data] eqn:Hcreate.
  { eexists JNull, _. split; [reflexivity|]. repeat apply conj; cbn; try lia; discriminate. }
  cbn [snd]. destruct (truthy (js_get_opt data "taskId")) eqn:Htask; cbn [negb].
  2:{ eexists JNull, _. split; [reflexivity|]. repeat apply conj; cbn; try lia; discriminate. }
  destruct (pollTask_bounded w (configuredKey w) (js_get_opt data "taskId") maxAttempts
              (mkState (cacheFile s)
                 (history s ++ [EvHttp (createTaskRequest (configuredKey w) siteUrl)])))
    as (r & k & _ & Hrun).
  rewrite Hrun. cbn [cacheFile history]. rewrite <- app_assoc.
  destruct (pollEvents_counts (configuredKey w) (js_get_opt data "taskId") k)
    as (Hsolve & Hmint & Hwrite & Hlist).
  set (h := [EvHttp (createTaskRequest (configuredKey w) siteUrl)]
            ++ pollEvents (configuredKey w) (js_get_opt data "taskId") k).
  assert (Hcount : solveCount h = 1%nat /\ mintCount h = 0%nat /\ writeCount h = 0%nat /\
                   listCount h = 0%nat).
  { subst h. unfold solveCount, mintCount, writeCount, listCount in *.
    rewrite !List.filter_app, !length_app, Hsolve, Hmint, Hwrite, Hlist.
    repeat apply conj; reflexivity. }
  destruct Hcount as (H1 & H2 & H3 & H4).
  destruct r as [token|e].
  - exists token, h. split; [reflexivity|]. repeat apply conj; try assumption; lia.
  - exists JNull, h. split; [reflexivity|]. repeat apply conj; try assumption; lia.
Qed.

(** X15.  [getKeywordIdeas] after the solver: without a token it raises
    the "Failed to get verification token" error and makes no further
    request; with a token it makes one POST and its result is read off
    the answer: a rejected request gives [McpError(failure,
    UNEXPECTED_ERROR, 500)] with the cause, a status other than 200 gives
    [McpError(failure, API_ERROR, status)], and a 200 answer is handed to
    [formatKeywordIdeas] without any check of its tag. *)
Theorem getKeywordIdeas_follows_solver_and_answer :
  forall (keyword country searchEngine : string) (s s1 : State) (token : JsValue),
    getCapsolverToken w (keywordIdeasSiteUrl w keyword country) s = (Val token, s1) ->
    getKeywordIdeas w keyword country searchEngine s =
    if truthy token then
      (dataOutcome ("Failed to get keyword ideas for keyword: " +:+ keyword)
         formatKeywordIdeas
         (axios w (history s1) (keywordIdeasRequest token keyword country searchEngine)),
       after s1 (EvHttp (keywordIdeasRequest token keyword country searchEngine)))
    else
      (Exc (McpError ("Failed to get verification token for keyword: " +:+ keyword)
                     API_ERROR 500 None), s1).
Proof.
  intros keyword country searchEngine s s1 token Hsolve.
  unfold getKeywordIdeas, try_catch, bind at 1.
  fold (keywordIdeasSiteUrl w keyword country). rewrite Hsolve.
  destruct (truthy token); cbn [negb]; [|reflexivity].
  fold (keywordIdeasRequest token keyword country searchEngine).
  unfold bind at 1. unfold request, dataOutcome, after.
  destruct (axios w (history s1) (keywordIdeasRequest token keyword country searchEngine))
    as [|status data]; [reflexivity|].
  destruct (status =? 200); cbn [negb]; [|reflexivity].
  unfold lift. destruct (formatKeywordIdeas data); reflexivity.
Qed.

(** X16.  [getKeywordDifficulty] after the solver: without a token it
    raises the "Failed to get verification token" error and makes no
    further request; with a token it makes one POST to the keyword
    difficulty endpoint, of [{captcha: token, country, keyword}] with the
    headers [accept], [content-type] and a [referer] that is the challenge
    page, and its result is read off the answer: rejected gives
    [UNEXPECTED_ERROR] 500 with the cause, a status other than 200 gives
    [API_ERROR] with that status, a 200 answer not tagged ["Ok"] gives the
    "Invalid response format" error, and otherwise the second element goes
    to [formatKeywordDifficulty], a [TypeError] of which is wrapped. *)
Theorem getKeywordDifficulty_follows_solver_and_answer :
  forall (keyword country : string) (s s1 : State) (token : JsValue),
    getCapsolverToken w (difficultyPage w keyword country) s = (Val token, s1) ->
    getKeywordDifficulty w keyword country s =
    if truthy token then
      (dataOutcome ("Failed to get keyword difficulty for keyword: " +:+ keyword)
         (taggedBody ("Invalid response format from Ahrefs API for keyword: " +:+ keyword)
                     formatKeywordDifficulty)
         (axios w (history s1) (difficultyPost w token keyword country)),
       after s1 (EvHttp (difficultyPost w token keyword country)))
    else
      (Exc (McpError ("Failed to get verification token for keyword: " +:+ keyword)
                     API_ERROR 500 None), s1).
Proof.
  intros keyword country s s1 token Hsolve.
  change (difficultyPost w token keyword country)
    with (keywordDifficultyRequest w token keyword country).
  change (difficultyPage w keyword country)
    with (keywordDifficultySiteUrl w keyword country) in Hsolve.
  unfold getKeywordDifficulty, try_catch, bind at 1. rewrite Hsolve.
  destruct (truthy token); cbn [negb]; [|reflexivity].
  unfold bind at 1. unfold request, dataOutcome, taggedBody, after.
  destruct (axios w (history s1) (keywordDifficultyRequest w token keyword country))
    as [|status data]; [reflexivity|].
  destruct (status =? 200); cbn [negb]; [|reflexivity].
  destruct (notOkResponse data); [reflexivity|].
  unfold lift. destruct (formatKeywordDifficulty (own_index data 1)); reflexivity.
Qed.

(** X17.  [checkTraffic] after the solver: without a token it raises the
    "Failed to get verification token" error and makes no further
    request; with a token it makes one GET to the traffic endpoint whose
    single parameter [input] is the text [JSON.stringify] makes of
    [{captcha: token, country, protocol: 'None', mode, url: domainOrUrl}],
    with the headers [accept], [content-type] and a [referer] that is the
    challenge page, and its result is read off the answer in the same way
    as for keyword difficulty, with [formatTraffic]. *)
Theorem checkTraffic_follows_solver_and_answer :
  forall (domainOrUrl mode country : string) (s s1 : State) (token : JsValue),
    getCapsolverToken w (trafficPage domainOrUrl mode) s = (Val token, s1) ->
    checkTraffic w domainOrUrl mode country s =
    if truthy token then
      (dataOutcome ("Failed to check traffic for domain: " +:+ domainOrUrl)
         (taggedBody ("Invalid response format from Ahrefs API for domain: " +:+ domainOrUrl)
                     formatTraffic)
         (axios w (history s1) (trafficGet w token domainOrUrl mode country)),
       after s1 (EvHttp (trafficGet w token domainOrUrl mode country)))
    else
      (Exc (McpError ("Failed to get verification token for domain: " +:+ domainOrUrl)
                     API_ERROR 500 None), s1).
Proof.
  intros domainOrUrl mode country s s1 token Hsolve.
  change (trafficGet w token domainOrUrl mode country)
    with (trafficRequest w token domainOrUrl mode country).
  change (trafficPage domainOrUrl mode) with (trafficSiteUrl domainOrUrl mode) in Hsolve.
  unfold checkTraffic, try_catch, bind at 1. rewrite Hsolve.
  destruct (truthy token); cbn [negb]; [|reflexivity].
  unfold bind at 1. unfold request, dataOutcome, taggedBody, after.
  destruct (axios w (history s1) (trafficRequest w token domainOrUrl mode country))
    as [|status data]; [reflexivity|].
  destruct (status =? 200); cbn [negb]; [|reflexivity].
  destruct (notOkResponse data); [reflexivity|].
  unfold lift. destruct (formatTraffic (own_index data 1)); reflexivity.
Qed.

Lemma quiet_with_request s h (req : Request) :
  (solveCount h <= 1)%nat -> mintCount h = 0%nat -> writeCount h = 0%nat ->
  isSolve (EvHttp req) = false -> isMint (EvHttp req) = false ->
  quietRun s (after (mkState (cacheFile s) (history s ++ h)) (EvHttp req)).
Proof.
  intros Hsolve Hmint Hwrite Hs Hm. split; [reflexivity|].
  exists (h ++ [EvHttp req]). split.
  - unfold after. cbn [history]. rewrite <- app_assoc. reflexivity.
  - unfold solveCount, mintCount, writeCount in *.
    rewrite !List.filter_app, !length_app. cbn [List.filter]. rewrite Hs, Hm.
    cbn [isWrite length]. repeat apply conj; lia.
Qed.

Lemma quiet_solver_only s h :
  (solveCount h <= 1)%nat -> mintCount h = 0%nat -> writeCount h = 0%nat ->
  quietRun s (mkState (cacheFile s) (history s ++ h)).
Proof.
  intros Hsolve Hmint Hwrite. split; [reflexivity|]. exists h. repeat apply conj; auto.
Qed.

Lemma getKeywordIdeas_quiet keyword country searchEngine s :
  quietRun s (state_of (getKeywordIdeas w keyword country searchEngine s)).
Proof.
  destruct (solve_run (keywordIdeasSiteUrl w keyword country) s)
    as (token & h & Hrun & Hsolve & Hmint & Hwrite & _ & _).
  unfold getKeywordIdeas, try_catch, bind at 1.
  fold (keywordIdeasSiteUrl w keyword country). rewrite Hrun.
  destruct (truthy token); cbn [negb].
  2:{ cbn [throw state_of snd]. now apply quiet_solver_only. }
  fold (keywordIdeasRequest token keyword country searchEngine).
  unfold bind at 1. unfold request.
  assert (Hq := quiet_with_request s h
                  (keywordIdeasRequest token keyword country searchEngine)
                  Hsolve Hmint Hwrite eq_refl eq_refl).
  unfold after in Hq. cbn [cacheFile history] in *.
  destruct (axios w (history s ++ h) (keywordIdeasRequest token keyword country searchEngine))
    as [|status data]; [exact Hq|].
  destruct (status =? 200); cbn [negb]; [|exact Hq].
  unfold lift. destruct (formatKeywordIdeas data); exact Hq.
Qed.

Lemma getKeywordDifficulty_quiet keyword country s :
  quietRun s (state_of (getKeywordDifficulty w keyword country s)).
Proof.
  destruct (solve_run (keywordDifficultySiteUrl w keyword country) s)
    as (token & h & Hrun & Hsolve & Hmint & Hwrite & _ & _).
  unfold getKeywordDifficulty, try_catch, bind at 1. rewrite Hrun.
  destruct (truthy token); cbn [negb].
  2:{ cbn [throw state_of snd]. now apply quiet_solver_only. }
  unfold bind at 1. unfold request.
  assert (Hq := quiet_with_request s h
                  (keywordDifficultyRequest w token keyword country)
                  Hsolve Hmint Hwrite eq_refl eq_refl).
  unfold after in Hq. cbn [cacheFile history] in *.
  destruct (axios w (history s ++ h) (keywordDifficultyRequest w token keyword country))
    as [|status data]; [exact Hq|].
  destruct (status =? 200); cbn [negb]; [|exact Hq].
  destruct (notOkResponse data); [exact Hq|].
  unfold lift. destruct (formatKeywordDifficulty (own_index data 1)); exact Hq.
Qed.

Lemma checkTraffic_quiet domainOrUrl mode country s :
  quietRun s (state_of (checkTraffic w domainOrUrl mode country s)).
Proof.
  destruct (solve_run (trafficSiteUrl domainOrUrl mode) s)
    as (token & h & Hrun & Hsolve & Hmint & Hwrite & _ & _).
  unfold checkTraffic, try_catch, bind at 1. rewrite Hrun.
  destruct (truthy token); cbn [negb].
  2:{ cbn [throw state_of snd]. now apply quiet_solver_only. }
  unfold bind at 1. unfold request.
  assert (Hq := quiet_with_request s h
                  (trafficRequest w token domainOrUrl mode country)
                  Hsolve Hmint Hwrite eq_refl eq_refl).
  unfold after in Hq. cbn [cacheFile history] in *.
  destruct (axios w (history s ++ h) (trafficRequest w token domainOrUrl mode country))
    as [|status data]; [exact Hq|].
  destruct (status =? 200); cbn [negb]; [|exact Hq].
  destruct (notOkResponse data); [exact Hq|].
  unfold lift. destruct (formatTraffic (own_index data 1)); exact Hq.
Qed.

(** X18.  [getKeywordIdeas], [getKeywordDifficulty] and [checkTraffic]
    never read or write the credential cache and never ask for a
    signature: whatever the peers answer, the cache file is the same
    after the call, and the call has added to the record at most one
    [createTask] request, no overview request and no write. *)
Theorem queries_leave_cache_and_never_mint :
  forall (s : State),
    (forall keyword country searchEngine,
       quietRun s (state_of (getKeywordIdeas w keyword country searchEngine s)))
    /\
    (forall keyword country,
       quietRun s (state_of (getKeywordDifficulty w keyword country s)))
    /\
    (forall domainOrUrl mode country,
       quietRun s (state_of (checkTraffic w domainOrUrl mode country s))).
Proof.
  intros s. repeat apply conj; intros.
  - apply getKeywordIdeas_quiet.
  - apply getKeywordDifficulty_quiet.
  - apply checkTraffic_quiet.
Qed.

(** ** The effects of [getBacklinks], in order *)

Lemma onlyAfterb_sound earlier later h :
  forall seen,
    onlyAfterb earlier later seen h = true ->
    forall before e rest,
      h = before ++ e :: rest -> later e = true -> seen || existsb earlier before = true.
Proof.
  induction h as [|a h IH]; intros seen Hb before e rest Heq Hlater.
  - destruct before; discriminate.
  - cbn [onlyAfterb] in Hb. apply andb_prop in Hb as [Hhead Htail].
    destruct before as [|b before]; cbn [app] in Heq; injection Heq as -> ->.
    + rewrite Hlater in Hhead. rewrite Hhead. reflexivity.
    + specialize (IH _ Htail before e rest eq_refl Hlater).
      cbn [existsb]. rewrite orb_assoc. exact IH.
Qed.

Lemma onlyAfterb_onlyAfter earlier later h :
  onlyAfterb earlier later false h = true -> onlyAfter earlier later h.
Proof.
  intros Hb before e rest Heq Hlater.
  exact (onlyAfterb_sound earlier later h false Hb before e rest Heq Hlater).
Qed.

Lemma onlyAfterb_seen earlier later h : onlyAfterb earlier later true h = true.
Proof.
  induction h as [|a h IH]; [reflexivity|].
  cbn [onlyAfterb orb]. rewrite IH. destruct (later a); reflexivity.
Qed.

Lemma onlyAfterb_none earlier later h :
  length (List.filter later h) = 0%nat ->
  forall seen, onlyAfterb earlier later seen h = true.
Proof.
  induction h as [|a h IH]; intros Hnone seen; [reflexivity|].
  cbn [List.filter onlyAfterb] in *. destruct (later a); [discriminate|].
  cbn [andb]. now apply IH.
Qed.

Lemma onlyAfterb_app earlier later h1 h2 :
  forall seen,
    onlyAfterb earlier later seen (h1 ++ h2)
    = onlyAfterb earlier later seen h1
      && onlyAfterb earlier later (seen || existsb earlier h1) h2.
Proof.
  induction h1 as [|a h1 IH]; intros seen.
  - cbn [app onlyAfterb existsb andb]. rewrite orb_false_r. reflexivity.
  - cbn [app onlyAfterb existsb]. rewrite IH, andb_assoc, orb_assoc. reflexivity.
Qed.

Lemma existsb_counted (p : Event -> bool) h :
  length (List.filter p h) = 1%nat -> existsb p h = true.
Proof.
  induction h as [|a h IH]; [discriminate|].
  cbn [List.filter existsb]. destruct (p a); [reflexivity|]. exact IH.
Qed.

Lemma onlyLastb_onlyLast kind h : onlyLastb kind h = true -> onlyLast kind h.
Proof.
  intros Hb before. revert h Hb.
  induction before as [|b before IH]; intros h Hb e rest Heq Hkind; subst h.
  - cbn [app onlyLastb] in Hb. rewrite Hkind in Hb.
    destruct rest; [reflexivity | discriminate].
  - cbn [app onlyLastb] in Hb. apply andb_prop in Hb as [_ Hb].
    exact (IH _ Hb e rest eq_refl Hkind).
Qed.

Lemma onlyLastb_none_app kind h1 h2 :
  length (List.filter kind h1) = 0%nat -> onlyLastb kind (h1 ++ h2) = onlyLastb kind h2.
Proof.
  induction h1 as [|a h1 IH]; intros Hnone; [reflexivity|].
  cbn [List.filter app onlyLastb] in *. destruct (kind a); [discriminate|].
  cbn [andb]. now apply IH.
Qed.

Lemma getBacklinks_run domain s :
  exists h : list Event,
    history (state_of (getBacklinks w domain s)) = history s ++ h /\ BacklinksRun domain h.
Proof.
  destruct (load_total w domain s) as [[[signature validUntil] overviewData] Hload].
  unfold getBacklinks. unfold try_catch, bind at 1. rewrite Hload. cbv zeta.
  destruct (negb (truthy signature) || negb (truthy validUntil)) eqn:Hmiss.
  - destruct (solve_run (backlinksSiteUrl domain) s)
      as (token & h & Hsolve & Hle & Hmint0 & Hwrite0 & Hlist0 & Hone).
    unfold bind at 1. unfold bind at 1. rewrite Hsolve.
    destruct (truthy token); cbn [negb].
    + specialize (Hone eq_refl).
      destruct (mint_total w token domain (mkState (cacheFile s) (history s ++ h)))
        as [[[signature' validUntil'] overviewData'] Hminted].
      destruct (mint_run w token domain (mkState (cacheFile s) (history s ++ h)))
        as (hw & Hhistory & Hhw).
      cbn [history] in Hhistory.
      unfold bind at 1. rewrite Hminted.
      set (sb := state_of (getSignatureAndOverview w token domain
                             (mkState (cacheFile s) (history s ++ h)))) in *.
      destruct (negb (truthy signature') || negb (truthy validUntil')).
      * exists (h ++ (EvHttp (overviewRequest token domain) :: hw) ++ []). split.
        { rewrite app_nil_r, app_assoc. exact Hhistory. }
        apply run_minted; auto.
      * unfold ret at 1.
        exists (h ++ (EvHttp (overviewRequest token domain) :: hw)
                  ++ [EvHttp (backlinksListRequest signature' validUntil' domain)]).
        split.
        { etransitivity;
            [apply (list_fetch_history w domain signature' validUntil' overviewData' sb)|].
          rewrite Hhistory, <- !app_assoc. reflexivity. }
        apply run_minted; auto. right. now exists signature', validUntil'.
    + exists h. split; [reflexivity|]. now apply run_unsolved.
  - unfold bind at 1. unfold ret at 1.
    exists [EvHttp (backlinksListRequest signature validUntil domain)]. split.
    + apply (list_fetch_history w domain signature validUntil overviewData s).
    + apply run_cached.
Qed.

Lemma run_counts domain h :
  BacklinksRun domain h ->
  (solveCount h <= 1)%nat /\ (mintCount h <= 1)%nat /\ (writeCount h <= 1)%nat /\
  (listCount h <= 1)%nat /\ orderly h.
Proof.
  intros [signature validUntil
         |h0 Hsolve Hmint Hwrite Hlist
         |h0 token hw tail Hsolve Hmint Hwrite Hlist Hhw Htail].
  - unfold orderly. repeat apply conj; cbn; lia.
  - unfold orderly. repeat apply conj; lia.
  - unfold orderly, solveCount, mintCount, writeCount, listCount in *.
    rewrite !List.filter_app, !length_app, Hsolve, Hmint, Hwrite, Hlist.
    destruct Hhw as [-> | [ok ->]]; destruct Htail as [-> | (signature & validUntil & ->)];
      repeat apply conj; cbn; lia.
Qed.

Lemma run_order domain h :
  BacklinksRun domain h ->
  onlyAfter isSolve isMint h /\ onlyAfter isMint isWrite h /\ onlyLast isList h.
Proof.
  intros [signature validUntil
         |h0 Hsolve Hmint Hwrite Hlist
         |h0 token hw tail Hsolve Hmint Hwrite Hlist Hhw Htail].
  - repeat apply conj;
      [apply onlyAfterb_onlyAfter|apply onlyAfterb_onlyAfter|apply onlyLastb_onlyLast];
      reflexivity.
  - repeat apply conj.
    + apply onlyAfterb_onlyAfter. now apply onlyAfterb_none.
    + apply onlyAfterb_onlyAfter. now apply onlyAfterb_none.
    + apply onlyLastb_onlyLast.
      rewrite <- (app_nil_r h0), (onlyLastb_none_app _ _ _ Hlist). reflexivity.
  - repeat apply conj.
    + apply onlyAfterb_onlyAfter. rewrite onlyAfterb_app.
      rewrite (onlyAfterb_none _ _ _ Hmint), (existsb_counted _ _ Hsolve).
      cbn [orb andb]. apply onlyAfterb_seen.
    + apply onlyAfterb_onlyAfter. rewrite onlyAfterb_app.
      rewrite (onlyAfterb_none _ _ _ Hwrite). cbn [orb andb].
      destruct (existsb isMint h0);
        destruct Hhw as [-> | [ok ->]];
        destruct Htail as [-> | (signature & validUntil & ->)]; reflexivity.
    + apply onlyLastb_onlyLast. rewrite (onlyLastb_none_app _ _ _ Hlist).
      destruct Hhw as [-> | [ok ->]];
        destruct Htail as [-> | (signature & validUntil & ->)]; reflexivity.
Qed.

(** X19.  The effects of one [getBacklinks], whatever the peers, the disk
    and the cache do.  One call costs at most one solve, one signature
    exchange, one write and one list request.  They come in order: an
    overview request is made only after a [createTask] request of the
    same call, the cache file is written only after an overview request
    of the same call, and a list request is the last thing the call
    does. *)
Theorem getBacklinks_effects_in_order :
  forall (domain : string) (s : State),
  exists h : list Event,
    history (state_of (getBacklinks w domain s)) = history s ++ h /\
    (solveCount h <= 1)%nat /\ (mintCount h <= 1)%nat /\ (writeCount h <= 1)%nat /\
    (listCount h <= 1)%nat /\
    orderly h /\
    onlyAfter isSolve isMint h /\ onlyAfter isMint isWrite h /\ onlyLast isList h.
Proof.
  intros domain s.
  destruct (getBacklinks_run domain s) as (h & Hhistory & Hrun).
  destruct (run_counts _ _ Hrun) as (H1 & H2 & H3 & H4 & H5).
  destruct (run_order _ _ Hrun) as (H6 & H7 & H8).
  exists h. do 8 (split; [assumption|]). assumption.
Qed.

(** ** The cache invariant over the life of the process *)

Lemma runCall_keeps_texts call s :
  textPeer w -> textStore s -> textStore (state_of (runCall w call s)).
Proof.
  intros Hpeer Hinv. destruct call as [domain|keyword country searchEngine|keyword country
                                      |domainOrUrl mode country]; cbn [runCall].
  - now apply getBacklinks_keeps_texts.
  - destruct (getKeywordIdeas_quiet keyword country searchEngine s) as [Hfile _].
    intros m d e Hm. rewrite Hfile in Hm. exact (Hinv m d e Hm).
  - destruct (getKeywordDifficulty_quiet keyword country s) as [Hfile _].
    intros m d e Hm. rewrite Hfile in Hm. exact (Hinv m d e Hm).
  - destruct (checkTraffic_quiet domainOrUrl mode country s) as [Hfile _].
    intros m d e Hm. rewrite Hfile in Hm. exact (Hinv m d e Hm).
Qed.

Lemma runCalls_keep_texts calls :
  textPeer w -> forall s, textStore s -> textStore (runCalls w calls s).
Proof.
  intros Hpeer. induction calls as [|call calls IH]; intros s Hinv; [exact Hinv|].
  cbn [runCalls]. apply IH. now apply runCall_keeps_texts.
Qed.

(** X20.  The cache file only ever holds credentials.  With a platform
    that hands out signatures and [validUntil] dates that are texts, as
    the code declares them, and starting from a cache file that is
    missing, unreadable, or a store of which every entry has a signature
    and a [validUntil] that are non-empty texts, any series of calls to
    the four exported functions, whatever each returns or raises and
    whatever the peers and the disk do, leaves a cache file of which, when
    it is a store, every entry has a signature and a [validUntil] that
    are non-empty texts, hence truthy. *)
Theorem credentials_invariant_over_any_calls :
  forall (calls : list Call) (s : State),
    textPeer w -> textStore s ->
    textStore (runCalls w calls s) /\ credentialStore (runCalls w calls s).
Proof.
  intros calls s Hpeer Hinv.
  pose proof (runCalls_keep_texts calls Hpeer s Hinv) as Hkept.
  split; [exact Hkept | now apply textStore_credentialStore].
Qed.

End MoreQueryProperties.

(** ** Controllers and tool handlers *)

Section MoreLayerProperties.

Variable w : World.
Variable handleControllerError : Thrown -> ErrorContext -> Outcome ControllerResponse.
Variable stringifyPretty : JsValue -> string.
Variable formatErrorForMcpTool : Thrown -> JsValue.

Local Abbreviation handleGetBacklinks :=
  (Tool.handleGetBacklinks w handleControllerError stringifyPretty formatErrorForMcpTool).
Local Abbreviation handleKeywordGenerator :=
  (Tool.handleKeywordGenerator w handleControllerError stringifyPretty formatErrorForMcpTool).
Local Abbreviation handleKeywordDifficulty :=
  (Tool.handleKeywordDifficulty w handleControllerError stringifyPretty formatErrorForMcpTool).
Local Abbreviation handleGetTraffic :=
  (Tool.handleGetTraffic w handleControllerError stringifyPretty formatErrorForMcpTool).
Local Abbreviation reply := (Tool.reply formatErrorForMcpTool).

Lemma str_or_nonempty s fallback : s <> "" -> str_or s fallback = s.
Proof. intros H. unfold str_or. apply String.eqb_neq in H. rewrite H. reflexivity. Qed.

Lemma respond_missing missing context service s :
  Controller.respond handleControllerError stringifyPretty "" missing context service s
  = (handleControllerError (PlainError missing) context, s).
Proof. reflexivity. Qed.

Lemma respond_present required missing context service s :
  required <> "" ->
  Controller.respond handleControllerError stringifyPretty required missing context service s
  = match service s with
    | (Val response, s') => (Returned (mkControllerResponse (stringifyPretty response)), s')
    | (Exc e, s') => (handleControllerError (Raised e) context, s')
    end.
Proof.
  intros H. unfold Controller.respond. apply String.eqb_neq in H. rewrite H. reflexivity.
Qed.

Lemma reply_toolAnswer o : reply o = toolAnswer formatErrorForMcpTool o.
Proof. destruct o; reflexivity. Qed.

Lemma str_or_defaulted given fallback : str_or given fallback = defaulted given fallback.
Proof. destruct given; reflexivity. Qed.

(** X21.  A call without its required parameter (an empty [domain],
    [keyword] or [domainOrUrl]) goes nowhere: the handler solves no
    challenge, sends no request and writes nothing, the state is
    unchanged, and the answer depends neither on the cache file nor on
    the peers: it is what the error formatters make of the plain error
    "Domain is required for getting backlinks", "Keyword is required for
    getting keyword ideas", "Keyword is required for getting keyword
    difficulty" or "Domain or URL is required for getting traffic data",
    handed to [handleControllerError] with the context of the
    controller. *)
Theorem tools_reject_missing_parameter :
  forall (s : State),
    (forall args, Controller.bl_domain args = "" ->
       handleGetBacklinks args s =
       (toolAnswer formatErrorForMcpTool
          (handleControllerError (PlainError "Domain is required for getting backlinks")
             {| entityType := "Backlinks"; operation := "retrieving";
                source := "controllers/seo.controller.ts@getBacklinks";
                additionalInfo := [("domain", JStr "")] |}), s))
    /\
    (forall args, Controller.kg_keyword args = "" ->
       handleKeywordGenerator args s =
       (toolAnswer formatErrorForMcpTool
          (handleControllerError (PlainError "Keyword is required for getting keyword ideas")
             {| entityType := "Keyword Ideas"; operation := "retrieving";
                source := "controllers/seo.controller.ts@getKeywordIdeas";
                additionalInfo := [("keyword", JStr "");
                                   ("country", JStr (Controller.kg_country args))] |}), s))
    /\
    (forall args, Controller.kd_keyword args = "" ->
       handleKeywordDifficulty args s =
       (toolAnswer formatErrorForMcpTool
          (handleControllerError
             (PlainError "Keyword is required for getting keyword difficulty")
             {| entityType := "Keyword Difficulty"; operation := "retrieving";
                source := "controllers/seo.controller.ts@getKeywordDifficulty";
                additionalInfo := [("keyword", JStr "");
                                   ("country", JStr (Controller.kd_country args))] |}), s))
    /\
    (forall args, Controller.tc_domainOrUrl args = "" ->
       handleGetTraffic args s =
       (toolAnswer formatErrorForMcpTool
          (handleControllerError
             (PlainError "Domain or URL is required for getting traffic data")
             {| entityType := "Traffic Data"; operation := "retrieving";
                source := "controllers/seo.controller.ts@getTraffic";
                additionalInfo := [("domainOrUrl", JStr "");
                                   ("mode", JStr (Controller.tc_mode args))] |}), s)).
Proof.
  intros s. repeat apply conj; intros args Hempty; rewrite <- reply_toolAnswer.
  - unfold Tool.handleGetBacklinks, Tool.handle, Controller.getBacklinks.
    rewrite Hempty, respond_missing. unfold Controller.backlinksContext. rewrite Hempty.
    reflexivity.
  - unfold Tool.handleKeywordGenerator, Tool.handle, Controller.getKeywordIdeas.
    rewrite Hempty, respond_missing. unfold Controller.keywordIdeasContext. rewrite Hempty.
    reflexivity.
  - unfold Tool.handleKeywordDifficulty, Tool.handle, Controller.getKeywordDifficulty.
    rewrite Hempty, respond_missing. unfold Controller.keywordDifficultyContext.
    rewrite Hempty. reflexivity.
  - unfold Tool.handleGetTraffic, Tool.handle, Controller.getTraffic.
    rewrite Hempty, respond_missing. unfold Controller.trafficContext. rewrite Hempty.
    reflexivity.
Qed.



(** X23.  From the handler down to the service and back.  With the
    required parameter present, a handler calls its service function with
    the defaults filled in for empty parameters (country ["us"], search
    engine ["Google"]; for traffic, mode ["subdomains"] and country
    ["None"]); when the service returns a value, the handler answers
    [{ content: [{ type: 'text', text }] }] with [text] the value
    pretty-printed, and the state is the one the service left. *)
Theorem tools_print_the_service_value :
  forall (s s' : State) (value : JsValue),
    let answer :=
      JObj [("content",
             JArr [JObj [("type", JStr "text"); ("text", JStr (stringifyPretty value))]])] in
    (forall args,
       Controller.bl_domain args <> "" ->
       getBacklinks w (Controller.bl_domain args) s = (Val value, s') ->
       handleGetBacklinks args s = (answer, s'))
    /\
    (forall args,
       Controller.kg_keyword args <> "" ->
       getKeywordIdeas w (Controller.kg_keyword args)
         (defaulted (Controller.kg_country args) "us")
         (defaulted (Controller.kg_searchEngine args) "Google") s = (Val value, s') ->
       handleKeywordGenerator args s = (answer, s'))
    /\
    (forall args,
       Controller.kd_keyword args <> "" ->
       getKeywordDifficulty w (Controller.kd_keyword args)
         (defaulted (Controller.kd_country args) "us") s = (Val value, s') ->
       handleKeywordDifficulty args s = (answer, s'))
    /\
    (forall args,
       Controller.tc_domainOrUrl args <> "" ->
       checkTraffic w (Controller.tc_domainOrUrl args)
         (defaulted (Controller.tc_mode args) "subdomains")
         (defaulted (Controller.tc_country args) "None") s = (Val value, s') ->
       handleGetTraffic args s = (answer, s')).
Proof.
  intros s s' value answer. subst answer.
  repeat apply conj; intros args Hpresent Hrun; rewrite <- ?str_or_defaulted in Hrun.
  - unfold Tool.handleGetBacklinks, Tool.handle, Controller.getBacklinks.
    rewrite (respond_present _ _ _ _ _ Hpresent), Hrun. reflexivity.
  - unfold Tool.handleKeywordGenerator, Tool.handle, Controller.getKeywordIdeas.
    rewrite (respond_present _ _ _ _ _ Hpresent). cbv zeta. rewrite Hrun. reflexivity.
  - unfold Tool.handleKeywordDifficulty, Tool.handle, Controller.getKeywordDifficulty.
    rewrite (respond_present _ _ _ _ _ Hpresent). cbv zeta. rewrite Hrun. reflexivity.
  - unfold Tool.handleGetTraffic, Tool.handle, Controller.getTraffic.
    rewrite (respond_present _ _ _ _ _ Hpresent). cbv zeta. rewrite Hrun. reflexivity.
Qed.

Lemma respond_outcome required missing context message (m : Eff JsValue) s :
  controllerOutcome handleControllerError stringifyPretty missing context
    (fst (Controller.respond handleControllerError stringifyPretty required missing context
            (try_catch m (rethrow message)) s)).
Proof.
  unfold Controller.respond.
  destruct (String.eqb required ""); cbn [fst]; [right; left; reflexivity|].
  pose proof (rethrow_onlyMcpError m message s) as Honly. unfold result_of in Honly.
  destruct (try_catch m (rethrow message) s) as [[response|e] s']; cbn [fst] in *.
  - left. now exists response.
  - right. right. destruct e as [| | | | |msg type status cause]; try discriminate.
    now exists msg, type, status, cause.
Qed.

(** X24.  What [handleControllerError] gets to see.  Whatever the
    parameters, the peers and the disk, a controller either returns the
    pretty-printed response of the service, or hands to
    [handleControllerError] its own validation error or an [McpError]: no
    [TypeError], rejected request or file error of the service reaches it
    unwrapped. *)
Theorem controllers_hand_over_validation_or_McpError :
  forall (s : State),
    (forall params,
       controllerOutcome handleControllerError stringifyPretty
         Controller.backlinksMissing (Controller.backlinksContext params)
         (fst (Controller.getBacklinks w handleControllerError stringifyPretty params s)))
    /\
    (forall params,
       controllerOutcome handleControllerError stringifyPretty
         Controller.keywordIdeasMissing (Controller.keywordIdeasContext params)
         (fst (Controller.getKeywordIdeas w handleControllerError stringifyPretty params s)))
    /\
    (forall params,
       controllerOutcome handleControllerError stringifyPretty
         Controller.keywordDifficultyMissing (Controller.keywordDifficultyContext params)
         (fst (Controller.getKeywordDifficulty w handleControllerError stringifyPretty
                 params s)))
    /\
    (forall params,
       controllerOutcome handleControllerError stringifyPretty
         Controller.trafficMissing (Controller.trafficContext params)
         (fst (Controller.getTraffic w handleControllerError stringifyPretty params s))).
Proof.
  intros s. repeat apply conj; intros params; apply respond_outcome.
Qed.

End MoreLayerProperties.

(** ** The credential cache at work *)

Section CacheAtWork.

Variable w : World.

(** The stored record gives back the signature and the date. *)
Lemma stored_entry_credential signature validUntil overviewData timestamp :
  survives signature ->
  exists printed,
    print_value (cacheEntry signature (JStr validUntil) overviewData timestamp) = Some printed /\
    truthy printed = true /\
    own_prop printed "signature" = signature /\
    own_prop printed "validUntil" = JStr validUntil.
Proof.
  unfold survives, cacheEntry. intros Hsig.
  rewrite print_value_record. eexists. split; [reflexivity|].
  cbn [print_fields]. rewrite Hsig. cbn [print_value].
  destruct (print_value overviewData); repeat apply conj; reflexivity.
Qed.

(** X26.  [getSignatureAndOverview] caches whatever the tag.  When the
    platform answers the POST of [{captcha, mode: 'subdomains', url:
    domain}] with status 200 and an array [tag :: second :: rest] whose
    second element carries a truthy [signedInput.signature] and
    [signedInput.input.validUntil], the credential is returned whatever
    [tag] is.  On a cache file that is missing, unreadable or a store,
    for a domain that the assignment sets as an own property (any domain
    but ["__proto__"]), when the write succeeds the file then holds, under
    the domain, the record [{signature, validUntil, overviewData,
    timestamp}] as [JSON.stringify] prints it: the record itself when
    printing keeps its four values. *)
Theorem mint_caches_whatever_the_tag :
  forall (token : JsValue) (domain : string) (s : State)
         (tag second : JsValue) (rest : list JsValue),
    let signature := js_get_opt (js_get_opt second "signedInput") "signature" in
    let validUntil :=
      js_get_opt (js_get_opt (js_get_opt second "signedInput") "input") "validUntil" in
    let overviewData := js_get_opt second "data" in
    let s1 := after s (EvHttp (overviewPost token domain)) in
    let record :=
      JObj [("signature", signature); ("validUntil", validUntil);
            ("overviewData", overviewData); ("timestamp", JNum (currentTime w s1))] in
    axios w (history s) (overviewPost token domain)
      = Response 200 (JArr (tag :: second :: rest)) ->
    truthy signature = true ->
    truthy validUntil = true ->
    storeFile s ->
    domain <> "__proto__" \/ is_Some (readableStore s !! domain) ->
    fs_writeFileSync w (history s1) = Written ->
    exists (s' : State) (written : gmap string JsValue),
      getSignatureAndOverview w token domain s
        = (Val (signature, validUntil, overviewData), s') /\
      history s' = history s ++ [EvHttp (overviewPost token domain); EvWrite true] /\
      cacheFile s' = FileStore written /\
      written !! domain = print_value record /\
      (survives signature -> survives validUntil -> survives overviewData ->
       survives (JNum (currentTime w s1)) -> written !! domain = Some record).
Proof.
  intros token domain s tag second rest signature validUntil overviewData s1 record
    Hanswer Hsig Hvu Hstore Hkey Hw.
  change (overviewPost token domain) with (overviewRequest token domain) in *.
  rewrite mint_computes, Hanswer. cbn [Z.eqb Pos.eqb credentialOf].
  fold signature validUntil overviewData. rewrite Hsig, Hvu. cbn [andb]. cbv zeta.
  change (after s (EvHttp (overviewRequest token domain))) with s1.
  assert (Hstore1 : storeFile s1) by exact Hstore.
  assert (Hkey1 : domain <> "__proto__" \/ is_Some (readableStore s1 !! domain))
    by exact Hkey.
  rewrite (save_keyed w _ _ _ _ _ Hstore1 Hkey1 Hw). cbn [state_of snd].
  eexists _, _. split; [reflexivity|]. split.
  { cbn [history]. subst s1. unfold after. cbn [history]. rewrite <- app_assoc. reflexivity. }
  split; [reflexivity|]. split.
  - rewrite lookup_omap, lookup_insert_eq. reflexivity.
  - intros Hs Hv Ho Ht. rewrite lookup_omap, lookup_insert_eq.
    exact (printed_entry _ _ _ _ Hs Hv Ho Ht).
Qed.

(** X27.  A call served from the cache.  When the cache file is a store
    whose entry for the domain has a truthy signature and a [validUntil]
    strictly after the current time, [getBacklinks] makes exactly one
    request, the POST to the list endpoint of [{reportType:
    'TopBacklinks', signedInput: {signature, input: {validUntil, mode:
    'subdomains', url: domain + '/'}}}] with the cached signature and
    [validUntil]: it creates no solver task, polls nothing, asks for no
    signature and leaves the cache file alone. *)
Theorem cached_call_makes_one_request :
  forall (domain : string) (s : State) (store : gmap string JsValue) (entry : JsValue),
    cacheFile s = FileStore store ->
    store !! domain = Some entry ->
    truthy (own_prop entry "signature") = true ->
    validInFuture w s entry ->
    let s' := state_of (getBacklinks w domain s) in
    history s' = history s ++
                 [EvHttp (listPost (own_prop entry "signature")
                                   (own_prop entry "validUntil") domain)] /\
    solveCount (history s') = solveCount (history s) /\
    mintCount (history s') = mintCount (history s) /\
    writeCount (history s') = writeCount (history s) /\
    cacheFile s' = cacheFile s.
Proof.
  intros domain s store entry Hfile Hentry Hsig Hvalid s'.
  change (listPost (own_prop entry "signature") (own_prop entry "validUntil") domain)
    with (backlinksListRequest (own_prop entry "signature")
            (own_prop entry "validUntil") domain).
  subst s'. rewrite (cache_hit w _ _ _ _ Hfile Hentry Hsig Hvalid).
  cbn [state_of snd after history cacheFile].
  destruct (count_snoc_list domain (own_prop entry "signature")
              (own_prop entry "validUntil") (history s)) as [Hs Hm].
  repeat apply conj; try assumption; try reflexivity.
  unfold writeCount. rewrite List.filter_app, length_app. cbn. lia.
Qed.

(** X28.  Two calls, one solve and one mint.  Take a cache file that is
    missing, unreadable or a store, a domain that the assignment sets as
    an own property (any domain but ["__proto__"]), and a first call that
    finds nothing usable in the cache, solves, mints a credential whose
    signature printing keeps as it is and whose [validUntil] is a date,
    and writes the cache file.  A second call made in the state the first
    one left, while the current time is still before that [validUntil],
    is served from the cache: it makes the list request with the minted
    credential and nothing else, so over the two calls there is exactly
    one solve and exactly one mint. *)
Theorem two_calls_one_solve_one_mint :
  forall (domain : string) (s0 sa : State) (token body signature overviewData : JsValue)
         (validUntil : string),
    storeFile s0 ->
    domain <> "__proto__" \/ is_Some (readableStore s0 !! domain) ->
    loadSignatureFromCache w domain s0 = (Val absent, s0) ->
    getCapsolverToken w (backlinksPage domain) s0 = (Val token, sa) ->
    truthy token = true ->
    axios w (history sa) (overviewPost token domain) = Response 200 body ->
    credentialOf body = Some (signature, JStr validUntil, overviewData) ->
    survives signature ->
    fs_writeFileSync w (history sa ++ [EvHttp (overviewPost token domain)]) = Written ->
    let s1 := state_of (getBacklinks w domain s0) in
    (currentTime w s1 <? isoToTimestamp w validUntil)%float = true ->
    let s2 := state_of (getBacklinks w domain s1) in
    solveCount (history s1) = (solveCount (history s0) + 1)%nat /\
    mintCount (history s1) = (mintCount (history s0) + 1)%nat /\
    history s2 = history s1 ++ [EvHttp (listPost signature (JStr validUntil) domain)] /\
    solveCount (history s2) = (solveCount (history s0) + 1)%nat /\
    mintCount (history s2) = (mintCount (history s0) + 1)%nat.
Proof.
  intros domain s0 sa token body signature overviewData validUntil
    Hstore Hkey Hload Hsolve Htoken Hanswer Hcred Hkept Hwrite s1 Hnow s2.
  change (overviewPost token domain) with (overviewRequest token domain) in *.
  change (backlinksPage domain) with (backlinksSiteUrl domain) in Hsolve.
  change (listPost signature (JStr validUntil) domain)
    with (backlinksListRequest signature (JStr validUntil) domain).
  destruct (credentialOf_truthy _ _ _ _ Hcred) as [Hsig Hvu].
  (* the solve *)
  destruct (solve_history w (backlinksSiteUrl domain) s0) as (token' & hs & Hrun & Hm0 & Hs1).
  rewrite Hsolve in Hrun. injection Hrun as <- ->.
  specialize (Hs1 Htoken).
  set (sm := afterOverview token domain (mkState (cacheFile s0) (history s0 ++ hs))) in *.
  assert (Hstorem : storeFile sm) by exact Hstore.
  assert (Hkeym : domain <> "__proto__" \/ is_Some (readableStore sm !! domain))
    by exact Hkey.
  (* the mint and the save *)
  pose proof (mint_computes w token domain
                (mkState (cacheFile s0) (history s0 ++ hs))) as Hmint.
  cbv zeta in Hmint. rewrite Hanswer in Hmint. cbn [Z.eqb Pos.eqb] in Hmint.
  rewrite Hcred in Hmint.
  change (after (mkState (cacheFile s0) (history s0 ++ hs))
            (EvHttp (overviewRequest token domain))) with sm in Hmint.
  rewrite (save_keyed w _ _ _ _ _ Hstorem Hkeym Hwrite) in Hmint.
  cbn [state_of snd] in Hmint.
  (* the first call *)
  pose proof (getBacklinks_minted w _ _ _ _ _ _ _ _ Hload Hsolve Htoken Hmint Hsig Hvu)
    as Hfirst.
  destruct (stored_entry_credential signature validUntil overviewData (currentTime w sm) Hkept)
    as (printed & Hprinted & Htruthy & Hps & Hpv).
  assert (Hfile1 : exists written,
            cacheFile s1 = FileStore written /\ written !! domain = Some printed).
  { subst s1. rewrite Hfirst. cbn [state_of snd after cacheFile].
    eexists. split; [reflexivity|].
    rewrite lookup_omap, lookup_insert_eq. exact Hprinted. }
  destruct Hfile1 as (written & Hfile1 & Hentry1).
  assert (Hh1 : history s1 =
                history s0 ++ hs ++ [EvHttp (overviewRequest token domain); EvWrite true;
                   EvHttp (backlinksListRequest signature (JStr validUntil) domain)]).
  { subst s1. rewrite Hfirst. subst sm. unfold afterOverview, after.
    cbn [state_of snd history]. rewrite <- !app_assoc. reflexivity. }
  assert (Hc1 : solveCount (history s1) = (solveCount (history s0) + 1)%nat /\
                mintCount (history s1) = (mintCount (history s0) + 1)%nat).
  { rewrite Hh1. unfold solveCount, mintCount in *.
    rewrite !List.filter_app, !length_app, Hs1, Hm0. cbn. lia. }
  (* the second call *)
  assert (Hsecond : getBacklinks w domain s1 =
    (listOutcome domain (own_prop printed "overviewData")
       (axios w (history s1) (backlinksListRequest signature (JStr validUntil) domain)),
     after s1 (EvHttp (backlinksListRequest signature (JStr validUntil) domain)))).
  { rewrite <- Hps at 1 2. rewrite <- Hpv.
    apply (cache_hit w domain s1 written printed Hfile1 Hentry1).
    - rewrite Hps. exact Hsig.
    - exists validUntil. split; [exact Hpv|].
      split; [now apply truthy_JStr_inv | exact Hnow]. }
  subst s2. rewrite Hsecond. cbn [state_of snd after history].
  destruct (count_snoc_list domain signature (JStr validUntil) (history s1)) as [Hs Hm].
  destruct Hc1 as [Hc1s Hc1m].
  repeat split; try assumption; try congruence.
Qed.

End CacheAtWork.

(** * The further statements at work *)

Module MoreWitness.

Import Scenario Cases.

(** X1 at work: the task is ready at the third poll. *)
Lemma solve_ready_witness :
  getCapsolverToken slow solverUrl fresh
  = (Val token, mkState FileMissing (historyAfterPolls slow fresh solverUrl task 3)).
Proof.
  refine (solve_returns_token_at_first_ready slow solverUrl fresh 200
            (JObj [("taskId", task)]) token 2%nat eq_refl eq_refl eq_refl _ _ _).
  - lia.
  - intros j Hj. exists 200, processing.
    destruct j as [|[|j]]; [repeat split | repeat split | lia].
  - exists 200, ready. repeat split.
Defined.

(** X2 at work: the solver cannot be reached. *)
Lemma solve_without_task_witness :
  getCapsolverToken offline solverUrl fresh
  = (Val JNull, after fresh (EvHttp (createTaskRequest key solverUrl))).
Proof.
  apply (solve_without_task_does_not_poll offline solverUrl fresh eq_refl).
  left. reflexivity.
Defined.

(** X3 at work. *)
Lemma solve_bounded_witness :
  exists (result : JsValue) (s' : State),
    getCapsolverToken stalled solverUrl warm = (Val result, s') /\
    cacheFile s' = cacheFile warm.
Proof.
  destruct (solve_never_raises_and_is_bounded stalled solverUrl warm)
    as (result & s' & Hrun & Hfile & _).
  exists result, s'. split; assumption.
Defined.

(** X4 at work. *)
Lemma isoToTimestamp_witness :
  isoToTimestamp working expiry = 1893456000%float.
Proof.
  change (isoToTimestamp working ("2030-01-01T00:00:00" +:+ "Z") = 1893456000%float).
  rewrite (proj1 (isoToTimestamp_reads_Z_as_utc working) "2030-01-01T00:00:00").
  vm_compute. reflexivity.
Defined.

(** X5 at work: save, then load. *)
Lemma load_after_save_witness :
  result_of
    (loadSignatureFromCache working domain
       (state_of (saveSignatureToCache working (JStr "sig-1") (JStr expiry) overviewData
                    domain fresh)))
  = Val (JStr "sig-1", JStr expiry, overviewData).
Proof.
  assert (Hne : expiry <> "") by discriminate.
  assert (Hfile : storeFile fresh) by (left; reflexivity).
  assert (Hkey : domain <> "__proto__" \/ is_Some (readableStore fresh !! domain))
    by (left; discriminate).
  assert (Hdata : survives overviewData \/ overviewData = JUndefined)
    by (left; vm_compute; reflexivity).
  pose proof (load_after_save working (JStr "sig-1") overviewData expiry domain fresh
                Hfile Hkey eq_refl Hne eq_refl Hdata) as Hload.
  cbv zeta in Hload. rewrite Hload. vm_compute. reflexivity.
Defined.

(** X25 at work: a second domain joins the warm cache. *)
Lemma save_merges_witness :
  exists (ok : bool) (s' : State),
    saveSignatureToCache working (JStr "sig-1") (JStr expiry) overviewData "new.net" warm
    = (Val ok, s') /\
    ok = true /\
    exists written : gmap string JsValue,
      cacheFile s' = FileStore written /\
      written !! "new.net"
        = Some (JObj [("signature", JStr "sig-1"); ("validUntil", JStr expiry);
                      ("overviewData", overviewData); ("timestamp", JNum 1700000000)]) /\
      written !! domain = Some (entry expiry).
Proof.
  assert (Hfile : storeFile warm) by (right; right; eexists; reflexivity).
  assert (Hkey : "new.net" <> "__proto__" \/ is_Some (readableStore warm !! "new.net"))
    by (left; discriminate).
  destruct (save_merges_entry working (JStr "sig-1") (JStr expiry) overviewData "new.net"
              warm Hfile Hkey) as (ok & s' & Hrun & _ & Hwritten).
  destruct (Hwritten eq_refl) as (Hok & written & Hstore & _ & Hnew & _ & Hkept).
  exists ok, s'. split; [exact Hrun|]. split; [exact Hok|].
  exists written. split; [exact Hstore|]. split.
  - apply Hnew; vm_compute; reflexivity.
  - apply Hkept.
    + discriminate.
    + apply lookup_insert_eq.
    + vm_compute. reflexivity.
Defined.


(** X6 at work: no key, and an overview request answered with 201. *)
Lemma getBacklinks_stops_witness :
  getBacklinks keyless domain fresh
  = (Exc (McpError "Failed to get verification token for domain: example.com"
                   API_ERROR 500 None), fresh)
  /\
  getBacklinks created201 domain fresh
  = (Exc (McpError "Failed to get signature for domain: example.com" API_ERROR 500 None),
     afterOverview token domain (state_of (getCapsolverToken created201 solverUrl fresh))).
Proof.
  split.
  - exact (proj1 (getBacklinks_stops_without_credential keyless domain fresh fresh JNull
                    eq_refl eq_refl) eq_refl).
  - refine (proj2 (getBacklinks_stops_without_credential created201 domain fresh
                     (state_of (getCapsolverToken created201 solverUrl fresh)) token
                     eq_refl eq_refl) eq_refl _).
    right. exists 201, (overviewBody (JStr "Ok")). split; [reflexivity|]. left. lia.
Defined.

(** X7 at work: the out-of-date entry gives way to the new credential. *)
Lemma stale_entry_witness :
  history (state_of (getBacklinks working domain stale))
  = history (state_of (getCapsolverToken working solverUrl stale))
    ++ [EvHttp (overviewPost token domain); EvWrite true;
        EvHttp (listPost (JStr "sig-1") (JStr expiry) domain)].
Proof.
  refine (proj1 (getBacklinks_replaces_stale_entry working domain stale
                   (state_of (getCapsolverToken working solverUrl stale))
                   (<[domain := entry expired]> ∅) (entry expired) token
                   (overviewBody (JStr "Ok")) (JStr "sig-1") (JStr expiry) overviewData
                   eq_refl _ _ eq_refl eq_refl _ eq_refl _)).
  - apply lookup_insert_eq.
  - intros (vu & Hvu & _ & Hlt). injection Hvu as <-. vm_compute in Hlt. discriminate.
  - vm_compute. reflexivity.
  - vm_compute. reflexivity.
Defined.

(** X8 at work: the disk refuses the write, the call goes on. *)
Lemma failed_write_witness :
  exists written : list Event,
    (written = [] \/
     exists ok : bool,
       written = [EvWrite ok] /\
       (ok = true <->
        fs_writeFileSync readonly
          (history (state_of (getCapsolverToken readonly solverUrl fresh))
           ++ [EvHttp (overviewPost token domain)]) = Written)) /\
    (storeFile fresh -> written <> []) /\
    result_of (getBacklinks readonly domain fresh)
    = listOutcome domain overviewData
        (axios readonly
           (history (state_of (getCapsolverToken readonly solverUrl fresh))
            ++ EvHttp (overviewPost token domain) :: written)
           (listPost (JStr "sig-1") (JStr expiry) domain)) /\
    history (state_of (getBacklinks readonly domain fresh))
    = (history (state_of (getCapsolverToken readonly solverUrl fresh))
       ++ EvHttp (overviewPost token domain) :: written)
      ++ [EvHttp (listPost (JStr "sig-1") (JStr expiry) domain)].
Proof.
  refine (getBacklinks_survives_failed_write readonly domain fresh
            (state_of (getCapsolverToken readonly solverUrl fresh)) token
            (overviewBody (JStr "Ok")) (JStr "sig-1") (JStr expiry) overviewData
            eq_refl eq_refl eq_refl _ eq_refl).
  vm_compute. reflexivity.
Defined.

(** X9 at work: a call served from the warm cache. *)
Lemma cached_call_witness :
  result_of (getBacklinks working domain warm)
  = Val (JObj [("overview", JObj [("domainRating", JNum 40)]);
               ("backlinks", JArr (map normalizedBacklink backlinkItems))]).
Proof.
  assert (Hvalid : validInFuture working warm (entry expiry)).
  { exists expiry. split; [reflexivity|]. split; [discriminate|]. vm_compute. reflexivity. }
  assert (Hentry : (<[domain := entry expiry]> (<["other.org" := entry expired]> ∅)
                    : gmap string JsValue) !! domain = Some (entry expiry))
    by apply lookup_insert_eq.
  refine (proj1 (cached_call_answers_from_list_response working domain warm _ (entry expiry)
                   Witness.warm_credentials eq_refl Hentry Hvalid) backlinksBody _ _ _).
  - vm_compute. reflexivity.
  - vm_compute. reflexivity.
Defined.

(** X10 at work. *)
Lemma only_McpError_witness :
  onlyMcpError (result_of (checkTraffic offline domain "subdomains" "None" fresh)).
Proof.
  exact (proj2 (proj2 (proj2 (exported_functions_raise_only_McpError offline fresh)))
           domain "subdomains" "None").
Defined.

(** X11 at work: a payload that is a text, and one with a [null] item. *)
Lemma formatBacklinks_malformed_witness :
  formatBacklinks
    (JArr [JStr "Ok"; JObj [("topBacklinks", JObj [("backlinks", JStr "none")])]])
  = Exc TypeError
  /\
  formatBacklinks
    (JArr [JStr "Ok"; JObj [("topBacklinks", JObj [("backlinks", JArr [JObj []; JNull])])]])
  = Exc TypeError.
Proof.
  split.
  - exact (proj1 (formatBacklinks_raises_on_malformed_payload (JStr "Ok")
                    (JObj [("topBacklinks", JObj [("backlinks", JStr "none")])]) [])
             eq_refl eq_refl).
  - refine (proj1 (proj2 (formatBacklinks_raises_on_malformed_payload (JStr "Ok")
                            (JObj [("topBacklinks",
                                    JObj [("backlinks", JArr [JObj []; JNull])])]) []))
              [JObj []; JNull] eq_refl _).
    apply Exists_cons_tl, Exists_cons_hd. reflexivity.
Defined.

(** X12 at work: a body that is a record, and a question group that is a
    record. *)
Lemma formatKeywordIdeas_malformed_witness :
  formatKeywordIdeas (JObj [("allIdeas", JObj [])]) = Val (JArr [])
  /\
  formatKeywordIdeas
    (JArr [JStr "Ok";
           JObj [("allIdeas", JObj [("results", JArr [JObj [("keyword", JStr "a")]])]);
                 ("questionIdeas", JObj [("results", JObj [])])]])
  = Exc TypeError.
Proof.
  destruct formatKeywordIdeas_empty_or_raises as (Hshape & _ & _ & Hsecond).
  split.
  - apply Hshape. intros tag data rest. discriminate.
  - apply (Hsecond (JStr "Ok") _ [] [[("keyword", JStr "a")]] []); [left|]; reflexivity.
Defined.

(** X13 at work: of an organic result, an advertisement and an organic
    result without a link, only the first is kept. *)
Lemma formatKeywordDifficulty_witness :
  formatKeywordDifficulty (JObj difficultyData)
  = Val (JObj [("difficulty", JNum 12); ("shortage", JNum 0); ("lastUpdate", JStr "");
               ("serp",
                JObj [("results",
                       JArr [JObj [("title", JStr "Example");
                                   ("url", JStr "https://example.com/");
                                   ("position", JNum 1);
                                   ("domainRating", JNum 71);
                                   ("urlRating", JNum 0);
                                   ("traffic", JNum 0);
                                   ("keywords", JNum 0);
                                   ("topKeyword", JStr "example");
                                   ("topVolume", JNum 0)]])])]).
Proof.
  refine (proj1 formatKeywordDifficulty_keeps_organic_results difficultyData
            [JObj organicItem; JObj adItem; JObj unlinkedItem]
            [Some (serpEntry organicItem linkData); None; None] eq_refl _).
  constructor; [|constructor; [|constructor; [|constructor]]].
  - refine (serp_organic organicItem _ linkData _ _ eq_refl eq_refl _).
    right. eexists. reflexivity.
  - refine (serp_other adItem "ad" _ eq_refl _). discriminate.
  - refine (serp_no_link unlinkedItem _ "None" _ _ eq_refl eq_refl _). discriminate.
Defined.

(** X14 at work. *)
Lemma formatTraffic_witness :
  formatTraffic (JObj trafficData)
  = Val (JObj [("traffic_history", JArr []);
               ("traffic", JObj [("trafficMonthlyAvg", JNum 1200); ("costMontlyAvg", JNum 0)]);
               ("top_pages", JArr [JObj [("url", JStr "https://example.com/")]]);
               ("top_countries", JArr []);
               ("top_keywords", JArr [])]).
Proof. exact (proj1 formatTraffic_defaults trafficData). Defined.

(** X15 at work: the example of the specification, through the whole
    function. *)
Lemma getKeywordIdeas_witness :
  result_of (getKeywordIdeas (answering keywordIdeasBody) "seo tools" "us" "Google" fresh)
  = Val (JArr [normalizedIdea "keyword ideas" [("keyword", JStr "a")];
               normalizedIdea "question ideas" [("keyword", JStr "b")]]).
Proof.
  rewrite (getKeywordIdeas_follows_solver_and_answer (answering keywordIdeasBody)
             "seo tools" "us" "Google" fresh
             (state_of (getCapsolverToken (answering keywordIdeasBody)
                          (keywordIdeasSiteUrl (answering keywordIdeasBody) "seo tools" "us")
                          fresh))
             token eq_refl).
  vm_compute. reflexivity.
Defined.

(** X16 at work. *)
Lemma getKeywordDifficulty_witness :
  result_of (getKeywordDifficulty (answering difficultyBody) "seo tools" "us" fresh)
  = formatKeywordDifficulty (JObj difficultyData).
Proof.
  rewrite (getKeywordDifficulty_follows_solver_and_answer (answering difficultyBody)
             "seo tools" "us" fresh
             (state_of (getCapsolverToken (answering difficultyBody)
                          (difficultyPage (answering difficultyBody) "seo tools" "us")
                          fresh))
             token eq_refl).
  vm_compute. reflexivity.
Defined.

(** X17 at work. *)
Lemma checkTraffic_witness :
  result_of (checkTraffic (answering trafficBody) domain "subdomains" "None" fresh)
  = formatTraffic (JObj trafficData).
Proof.
  rewrite (checkTraffic_follows_solver_and_answer (answering trafficBody)
             domain "subdomains" "None" fresh
             (state_of (getCapsolverToken (answering trafficBody)
                          (trafficPage domain "subdomains") fresh))
             token eq_refl).
  vm_compute. reflexivity.
Defined.

(** X18 at work. *)
Lemma queries_quiet_witness :
  cacheFile (state_of (getKeywordDifficulty working "seo tools" "us" warm)) = cacheFile warm.
Proof.
  exact (proj1 (proj1 (proj2 (queries_leave_cache_and_never_mint working warm))
                  "seo tools" "us")).
Defined.

(** X19 at work: a first call with a disk that refuses writes. *)
Lemma effects_in_order_witness :
  exists h : list Event,
    history (state_of (getBacklinks readonly domain fresh)) = history fresh ++ h /\
    onlyAfter isSolve isMint h /\ onlyAfter isMint isWrite h /\ onlyLast isList h.
Proof.
  destruct (getBacklinks_effects_in_order readonly domain fresh)
    as (h & Hhistory & _ & _ & _ & _ & _ & Horder).
  exists h. split; [exact Hhistory | exact Horder].
Defined.

(** The peer of [working] hands out texts. *)
Lemma working_textPeer : textPeer working.
Proof.
  intros h request status data signature validUntil overviewData Hanswer
    (tag & second & rest & -> & -> & -> & ->) Hsig Hvu.
  unfold working, world in Hanswer. cbn [axios] in Hanswer. unfold peer in Hanswer.
  destruct (String.eqb (req_url request) createTaskUrl); [discriminate|].
  destruct (String.eqb (req_url request) getTaskResultUrl); [discriminate|].
  destruct (String.eqb (req_url request) overviewUrl).
  { injection Hanswer as _ <- <- <-. split; eexists; reflexivity. }
  destruct (String.eqb (req_url request) backlinksListUrl).
  { injection Hanswer as _ <- <- <-. vm_compute in Hsig. discriminate. }
  injection Hanswer as _ <- <- <-. vm_compute in Hsig. discriminate.
Defined.

(** X20 at work: a first run of the process. *)
Lemma credentials_invariant_witness :
  credentialStore
    (runCalls working
       [CallBacklinks domain; CallKeywordIdeas "seo tools" "us" "Google";
        CallBacklinks "other.org"; CallTraffic domain "subdomains" "None"] fresh).
Proof.
  apply credentials_invariant_over_any_calls.
  - exact working_textPeer.
  - apply no_store_texts. left. reflexivity.
Defined.

(** X26 at work: a response tagged ["Error"] that carries a credential. *)
Lemma mint_caches_witness :
  exists (s' : State) (written : gmap string JsValue),
    getSignatureAndOverview untagged token domain fresh
    = (Val (JStr "sig-1", JStr expiry, overviewData), s') /\
    cacheFile s' = FileStore written /\
    written !! domain
    = Some (JObj [("signature", JStr "sig-1"); ("validUntil", JStr expiry);
                  ("overviewData", overviewData); ("timestamp", JNum 1700000000)]).
Proof.
  assert (Hfile : storeFile fresh) by (left; reflexivity).
  assert (Hkey : domain <> "__proto__" \/ is_Some (readableStore fresh !! domain))
    by (left; discriminate).
  destruct (mint_caches_whatever_the_tag untagged token domain fresh (JStr "Error")
              signedOverview [] eq_refl eq_refl eq_refl Hfile Hkey eq_refl)
    as (s' & written & Hrun & _ & Hstore & _ & Hrecord).
  exists s', written. split; [exact Hrun|]. split; [exact Hstore|].
  apply Hrecord; vm_compute; reflexivity.
Defined.

(** X27 at work: a call on the warm cache. *)
Lemma cached_call_makes_one_request_witness :
  history (state_of (getBacklinks working domain warm))
  = [EvHttp (listPost (JStr "sig-0") (JStr expiry) domain)].
Proof.
  assert (Hvalid : validInFuture working warm (entry expiry)).
  { exists expiry. split; [reflexivity|]. split; [discriminate|]. vm_compute. reflexivity. }
  assert (Hentry : (<[domain := entry expiry]> (<["other.org" := entry expired]> ∅)
                    : gmap string JsValue) !! domain = Some (entry expiry))
    by apply lookup_insert_eq.
  exact (proj1 (cached_call_makes_one_request working domain warm _ (entry expiry)
                  eq_refl Hentry eq_refl Hvalid)).
Defined.

(** X28 at work: two calls starting from no cache. *)
Lemma two_calls_witness :
  solveCount (history (state_of (getBacklinks working domain
                                   (state_of (getBacklinks working domain fresh)))))
  = 1%nat
  /\
  mintCount (history (state_of (getBacklinks working domain
                                  (state_of (getBacklinks working domain fresh)))))
  = 1%nat.
Proof.
  assert (Hfile : storeFile fresh) by (left; reflexivity).
  assert (Hkey : domain <> "__proto__" \/ is_Some (readableStore fresh !! domain))
    by (left; discriminate).
  assert (Hnow : (currentTime working (state_of (getBacklinks working domain fresh))
                    <? isoToTimestamp working expiry)%float = true)
    by (vm_compute; reflexivity).
  destruct (two_calls_one_solve_one_mint working domain fresh
              (state_of (getCapsolverToken working solverUrl fresh)) token
              (overviewBody (JStr "Ok")) (JStr "sig-1") overviewData expiry
              Hfile Hkey eq_refl eq_refl eq_refl eq_refl eq_refl eq_refl eq_refl Hnow)
    as (_ & _ & _ & Hsolve & Hmint).
  split; [exact Hsolve | exact Hmint].
Defined.

(** X21 at work. *)
Lemma missing_parameter_witness :
  Tool.handleGetBacklinks working rethrowing printed errorText
    {| Controller.bl_domain := "" |} warm
  = (errorText (PlainError "Domain is required for getting backlinks"), warm).
Proof.
  exact (proj1 (tools_reject_missing_parameter working rethrowing printed errorText warm)
           {| Controller.bl_domain := "" |} eq_refl).
Defined.


(** X23 at work: the backlinks handler on a warm cache. *)
Lemma tool_prints_witness :
  fst (Tool.handleGetBacklinks working rethrowing printed errorText
         {| Controller.bl_domain := domain |} warm)
  = JObj [("content", JArr [JObj [("type", JStr "text"); ("text", JStr "{}")]])].
Proof.
  assert (Hpresent : domain <> "") by discriminate.
  rewrite (proj1 (tools_print_the_service_value working rethrowing printed errorText warm
                    (state_of (getBacklinks working domain warm))
                    (JObj [("overview", JObj [("domainRating", JNum 40)]);
                           ("backlinks", JArr (map normalizedBacklink backlinkItems))]))
             {| Controller.bl_domain := domain |} Hpresent).
  - reflexivity.
  - vm_compute. reflexivity.
Defined.

(** X24 at work. *)
Lemma controller_outcome_witness :
  controllerOutcome rethrowing printed Controller.trafficMissing
    (Controller.trafficContext
       {| Controller.tc_domainOrUrl := domain; Controller.tc_country := "";
          Controller.tc_mode := "" |})
    (fst (Controller.getTraffic offline rethrowing printed
            {| Controller.tc_domainOrUrl := domain; Controller.tc_country := "";
               Controller.tc_mode := "" |} fresh)).
Proof.
  exact (proj2 (proj2 (proj2 (controllers_hand_over_validation_or_McpError offline rethrowing
                                printed fresh))) _).
Defined.

End MoreWitness.
